(** * pclmtoraster: duplex policy, bitmap rotation, conversion dispatch
      and page assembly of [filter/pclmtoraster.cxx]

    The development is a shallow embedding of the filter.  C integers are
    values of [Z] with the wrap-around of their width written out, raw
    buffers are lists indexed by pointer offsets, the file-scope globals
    of the anonymous namespace are one record threaded through the page
    loop, and everything the filter sends to [stderr] or to the raster
    stream is an event of a trace. *)

From Stdlib Require Import ZArith String Ascii Bool Lia.
From stdpp Require Import base list.

Open Scope Z_scope.

(** ** Machine integers *)

(** [unsigned int]: 32 bits, arithmetic modulo [2^32]. *)
Definition u32 (z : Z) : Z := z mod 2 ^ 32.

(** [int]: the value an [unsigned] bit pattern has when read as a signed
    32-bit integer (what gcc does for the out-of-range conversion). *)
Definition i32 (z : Z) : Z :=
  let w := u32 z in if w <? 2 ^ 31 then w else w - 2 ^ 32.

Definition INT_MAX : Z := 2 ^ 31 - 1.
Definition INT_MIN : Z := - 2 ^ 31.

(** ** Outcomes of a run

    [exit(1)] ends the process; an out-of-range pointer or [std::vector]
    access has no defined behaviour.  Both stop the model. *)

Inductive outcome (A : Type) : Type :=
| Done (a : A)
| Exit (status : Z)
| Undefined.

Arguments Done {A} a.
Arguments Exit {A} status.
Arguments Undefined {A}.

Definition obind {A B : Type} (o : outcome A) (f : A -> outcome B) : outcome B :=
  match o with
  | Done a => f a
  | Exit s => Exit s
  | Undefined => Undefined
  end.

(** ** C strings: [strcasecmp] *)

Definition tolower (c : ascii) : ascii :=
  let n := nat_of_ascii c in
  if ((65 <=? n) && (n <=? 90))%nat then ascii_of_nat (n + 32) else c.

Definition uchar (c : ascii) : Z := Z.of_nat (nat_of_ascii c).

(** The libc routine: the difference of the first pair of bytes that
    differ after folding to lower case, 0 when there is none. *)
Fixpoint strcasecmp (s1 s2 : string) : Z :=
  match s1, s2 with
  | EmptyString, EmptyString => 0
  | EmptyString, String c2 _ => 0 - uchar (tolower c2)
  | String c1 _, EmptyString => uchar (tolower c1)
  | String c1 r1, String c2 r2 =>
      let d := uchar (tolower c1) - uchar (tolower c2) in
      if d =? 0 then strcasecmp r1 r2 else d
  end.

(** ** Duplex geometry policy: the duplex block of [parseOpts] *)

(** The four file-scope booleans. *)
Record SwapState : Type := mkSwap {
  swap_image_x : bool;
  swap_image_y : bool;
  swap_margin_x : bool;
  swap_margin_y : bool
}.

(** Their initialisers. *)
Definition no_swap : SwapState := mkSwap false false false false.

(** The local enum of [parseOpts]. *)
Inductive FlippedMargin : Type := FM_NO | FM_FALSE | FM_TRUE.

Definition is_FM_TRUE (fm : FlippedMargin) : bool :=
  match fm with FM_TRUE => true | _ => false end.

Definition is_FM_FALSE (fm : FlippedMargin) : bool :=
  match fm with FM_FALSE => true | _ => false end.

(** What the block reads from the PPD: each attribute is [Some v] when
    [ppdFindAttr] finds it with a non-null value. *)
Record ppd_duplex : Type := mkPpdDuplex {
  cupsBackSide : option string;
  flip_duplex : bool;
  APDuplexRequiresFlippedMargin : option string
}.

(** Lines 92-104: the effective backside string. *)
Definition backside_of (p : ppd_duplex) : string :=
  match cupsBackSide p with
  | Some v => v
  | None => if flip_duplex p then "Rotated"%string else EmptyString
  end.

(** Lines 96 and 106-113. *)
Definition flippedMargin_of (p : ppd_duplex) : FlippedMargin :=
  match APDuplexRequiresFlippedMargin p with
  | Some v => if strcasecmp v "true"%string =? 0 then FM_TRUE else FM_FALSE
  | None => FM_NO
  end.

(** Lines 114-136, as assignments to the globals [s]. *)
Definition duplex_swap (backside : string) (Tumble : bool)
    (flippedMargin : FlippedMargin) (s : SwapState) : SwapState :=
  if (strcasecmp backside "ManualTumble"%string =? 0) && Tumble then
    let s1 := mkSwap true true true true in
    if is_FM_TRUE flippedMargin
    then mkSwap (swap_image_x s1) (swap_image_y s1) (swap_margin_x s1) false
    else s1
  else if (strcasecmp backside "Rotated"%string =? 0) && negb Tumble then
    let s1 := mkSwap true true true true in
    if is_FM_TRUE flippedMargin
    then mkSwap (swap_image_x s1) (swap_image_y s1) (swap_margin_x s1) false
    else s1
  else if strcasecmp backside "Flipped"%string =? 0 then
    let s1 :=
      if Tumble
      then mkSwap true (swap_image_y s) true true
      else mkSwap (swap_image_x s) true (swap_margin_x s) (swap_margin_y s) in
    if is_FM_FALSE flippedMargin
    then mkSwap (swap_image_x s1) (swap_image_y s1) (swap_margin_x s1)
           (negb (swap_margin_y s1))
    else s1
  else s.

(** The policy as a function of its three facts, from the initial globals. *)
Definition computeSwapState (backside : string) (tumble : bool)
    (flippedMargin : FlippedMargin) : SwapState :=
  duplex_swap backside tumble flippedMargin no_swap.

(** Lines 90-137: nothing happens unless [header.Duplex] is set. *)
Definition parseOpts_duplex (Duplex Tumble : bool) (p : ppd_duplex)
    (s : SwapState) : SwapState :=
  if Duplex
  then duplex_swap (backside_of p) Tumble (flippedMargin_of p) s
  else s.

(** ** Raw buffers and the bitmap rotator

    A buffer is the list of its cells; a pointer into it is an offset of
    type [Z].  The rotator only moves cells, so it is generic in the cell
    type. *)

Declare Scope pclm_scope.
Delimit Scope pclm_scope with pclm.
Open Scope pclm_scope.

Notation "'let+' x ':=' m 'in' k" := (obind m (fun x => k))
  (at level 10, x name, m at level 100, k at level 200) : pclm_scope.

Section Buffers.
Context {A : Type}.

(** [*p] as an rvalue. *)
Definition load (buf : list A) (p : Z) : outcome A :=
  if p <? 0 then Undefined
  else match buf !! Z.to_nat p with
       | Some x => Done x
       | None => Undefined
       end.

(** [*p = x]. *)
Definition store (buf : list A) (p : Z) (x : A) : outcome (list A) :=
  if (0 <=? p) && (p <? Z.of_nat (length buf))
  then Done (<[Z.to_nat p := x]> buf)
  else Undefined.

(** [dp[j] = bp[j]; ...; dp[j+c-1] = bp[j+c-1]]: one pixel of [c]
    components. *)
Fixpoint copy_pixel (c : nat) (j : Z) (src : list A) (bp : Z)
    (dst : list A) (dp : Z) : outcome (list A) :=
  match c with
  | O => Done dst
  | S c' =>
      let+ x := load src (bp + j) in
      let+ d := store dst (dp + j) x in
      copy_pixel c' (j + 1) src bp d dp
  end.

(** The two running pointers and the destination. *)
Record cursor : Type := mkCursor {
  cur_bp : Z;
  cur_dp : Z;
  cur_dst : list A
}.

(** [for (w = 0; w < n; w++, bp += step, dp += c) { copy one pixel }]. *)
Fixpoint copy_row (n : nat) (c : nat) (step : Z) (src : list A)
    (k : cursor) : outcome cursor :=
  match n with
  | O => Done k
  | S n' =>
      let+ d := copy_pixel c 0 src (cur_bp k) (cur_dst k) (cur_dp k) in
      copy_row n' c step src
        (mkCursor (cur_bp k + step) (cur_dp k + Z.of_nat c) d)
  end.

(** [for (h = h0; h < h0 + n; h++) { bp = start h bp; inner loop }]. *)
Fixpoint copy_rows (n : nat) (h : Z) (start : Z -> Z -> Z) (width : nat)
    (c : nat) (step : Z) (src : list A) (k : cursor) : outcome cursor :=
  match n with
  | O => Done k
  | S n' =>
      let+ k1 := copy_row width c step src
                   (mkCursor (start h (cur_bp k)) (cur_dp k) (cur_dst k)) in
      copy_rows n' (h + 1) start width c step src k1
  end.

(** The nest of two loops of every branch of [rotatebitmap]: [bp0] is the
    value of [bp] before the outer loop, [dp = dst]. *)
Definition rotate_loops (src dst : list A) (height width : Z) (c : nat)
    (bp0 : Z) (start : Z -> Z -> Z) (step : Z) : outcome (list A) :=
  let+ k := copy_rows (Z.to_nat height) 0 start (Z.to_nat width) c step src
              (mkCursor bp0 0 dst) in
  Done (cur_dst k).

(** [rotatebitmap], lines 190-299, except for the [fprintf] of its last
    branch, which the caller's trace records.  [rotate], [height] and
    [width] are [unsigned int], [rowsize] is [int]; an [unsigned] product
    is reduced modulo [2^32] before it is added to a pointer. *)
Definition rotatebitmap (src dst : list A) (rotate height width : Z)
    (rowsize : Z) (colorspace : string) : outcome (list A) :=
  if rotate =? 0 then Done src
  else if rotate =? 180 then
    if String.eqb colorspace "/DeviceGray" then
      rotate_loops src dst height width 1
        (u32 (height * rowsize) - 1) (fun _ bp => bp) (-1)
    else if String.eqb colorspace "/DeviceCMYK" then
      rotate_loops src dst height width 4
        (u32 (height * rowsize) - 4) (fun _ bp => bp) (-4)
    else if String.eqb colorspace "/DeviceRGB" then
      rotate_loops src dst height width 3
        (u32 (height * rowsize) - 3) (fun _ bp => bp) (-3)
    else Done dst
  else if rotate =? 270 then
    if String.eqb colorspace "/DeviceGray" then
      rotate_loops src dst height width 1
        0 (fun h _ => u32 (height - h) - 1) height
    else if String.eqb colorspace "/DeviceCMYK" then
      rotate_loops src dst height width 4
        0 (fun h _ => u32 (u32 (height - h) * 4) - 4) (u32 (height * 4))
    else if String.eqb colorspace "/DeviceRGB" then
      rotate_loops src dst height width 3
        0 (fun h _ => u32 (u32 (height - h) * 3) - 3) (u32 (height * 3))
    else Done dst
  else if rotate =? 90 then
    if String.eqb colorspace "/DeviceGray" then
      rotate_loops src dst height width 1
        0 (fun h _ => u32 (u32 (width - 1) * height) + h) (- height)
    else if String.eqb colorspace "/DeviceCMYK" then
      rotate_loops src dst height width 4
        0 (fun h _ => u32 (u32 (u32 (width - 1) * height) * 4) + u32 (4 * h))
        (- u32 (height * 4))
    else if String.eqb colorspace "/DeviceRGB" then
      rotate_loops src dst height width 3
        0 (fun h _ => u32 (u32 (u32 (width - 1) * height) * 3) + u32 (3 * h))
        (- u32 (height * 3))
    else Done dst
  else Exit 1.

End Buffers.

(** ** The raster header and the globals *)

Definition byte : Type := Byte.byte.

(** [cups_order_t] and the members of [cups_cspace_t] the filter names;
    every other member is [CUPS_CSPACE_OTHER] with its number. *)
Inductive cups_order_t : Type :=
| CUPS_ORDER_CHUNKED
| CUPS_ORDER_BANDED
| CUPS_ORDER_PLANAR.

Inductive cups_cspace_t : Type :=
| CUPS_CSPACE_W
| CUPS_CSPACE_RGB
| CUPS_CSPACE_K
| CUPS_CSPACE_CMY
| CUPS_CSPACE_CMYK
| CUPS_CSPACE_SW
| CUPS_CSPACE_SRGB
| CUPS_CSPACE_ADOBERGB
| CUPS_CSPACE_OTHER (code : Z).

Definition is_banded (o : cups_order_t) : bool :=
  match o with CUPS_ORDER_BANDED => true | _ => false end.

Definition is_chunked (o : cups_order_t) : bool :=
  match o with CUPS_ORDER_CHUNKED => true | _ => false end.

Definition is_planar (o : cups_order_t) : bool :=
  match o with CUPS_ORDER_PLANAR => true | _ => false end.

(** A [double] is carried as its bit pattern: the modelled code moves
    margins around and never computes on them. *)
Definition double : Type := Z.

(** The local arrays [margins[4]] and [paperdimensions[2]] of [outPage];
    lines 593-612 derive the page size, margin and bounding-box fields of
    the header from them in floating point. *)
Record geometry : Type := mkGeometry {
  margins0 : double;
  margins1 : double;
  margins2 : double;
  margins3 : double;
  paperdimensions0 : double;
  paperdimensions1 : double
}.

(** The fields of [cups_page_header2_t] the filter reads or writes. *)
Record cups_page_header2_t : Type := mkHeader {
  Duplex : bool;
  Tumble : bool;
  cupsWidth : Z;
  cupsHeight : Z;
  cupsBitsPerColor : Z;
  cupsBitsPerPixel : Z;
  cupsBytesPerLine : Z;
  cupsColorOrder : cups_order_t;
  cupsColorSpace : cups_cspace_t;
  cupsNumColors : Z;
  page_box : option geometry
}.

Definition set_cupsWidth (v : Z) (h : cups_page_header2_t) :=
  mkHeader (Duplex h) (Tumble h) v (cupsHeight h) (cupsBitsPerColor h)
    (cupsBitsPerPixel h) (cupsBytesPerLine h) (cupsColorOrder h)
    (cupsColorSpace h) (cupsNumColors h) (page_box h).

Definition set_cupsHeight (v : Z) (h : cups_page_header2_t) :=
  mkHeader (Duplex h) (Tumble h) (cupsWidth h) v (cupsBitsPerColor h)
    (cupsBitsPerPixel h) (cupsBytesPerLine h) (cupsColorOrder h)
    (cupsColorSpace h) (cupsNumColors h) (page_box h).

Definition set_cupsBytesPerLine (v : Z) (h : cups_page_header2_t) :=
  mkHeader (Duplex h) (Tumble h) (cupsWidth h) (cupsHeight h)
    (cupsBitsPerColor h) (cupsBitsPerPixel h) v (cupsColorOrder h)
    (cupsColorSpace h) (cupsNumColors h) (page_box h).

Definition set_page_box (v : geometry) (h : cups_page_header2_t) :=
  mkHeader (Duplex h) (Tumble h) (cupsWidth h) (cupsHeight h)
    (cupsBitsPerColor h) (cupsBitsPerPixel h) (cupsBytesPerLine h)
    (cupsColorOrder h) (cupsColorSpace h) (cupsNumColors h) (Some v).

(** The functions a [ConvertCSpace] pointer can hold: [fp_f] is the
    address of [f]. *)
Inductive ConvertCSpace : Type :=
| fp_RGBtoCMYKLine
| fp_RGBtoCMYLine
| fp_RGBtoWhiteLine
| fp_RGBtoBlackLine
| fp_CMYKtoRGBLine
| fp_CMYKtoCMYLine
| fp_CMYKtoWhiteLine
| fp_CMYKtoBlackLine
| fp_GraytoRGBLine
| fp_GraytoCMYKLine
| fp_GraytoCMYLine
| fp_GraytoBlackLine
| fp_convertcspaceNoop.

(** The functions a [ConvertLine] pointer can hold. *)
Inductive ConvertLine : Type :=
| fp_convertLine
| fp_convertReverseLine.

(** The variables of the anonymous namespace (lines 42-61) that the
    modelled code touches.  A function pointer is [None] while it is
    null. *)
Record globals : Type := mkGlobals {
  convertcspace : option ConvertCSpace;
  convertline : option ConvertLine;
  numcolors : Z;
  rowsize : Z;
  header : cups_page_header2_t;
  bi_level : Z;
  swap : SwapState;
  nplanes : Z;
  nbands : Z;
  bytesPerLine : Z
}.

Definition set_convertcspace (v : option ConvertCSpace) (g : globals) :=
  mkGlobals v (convertline g) (numcolors g) (rowsize g) (header g)
    (bi_level g) (swap g) (nplanes g) (nbands g) (bytesPerLine g).

Definition set_convertline (v : option ConvertLine) (g : globals) :=
  mkGlobals (convertcspace g) v (numcolors g) (rowsize g) (header g)
    (bi_level g) (swap g) (nplanes g) (nbands g) (bytesPerLine g).

Definition set_rowsize_numcolors (r n : Z) (g : globals) :=
  mkGlobals (convertcspace g) (convertline g) n r (header g)
    (bi_level g) (swap g) (nplanes g) (nbands g) (bytesPerLine g).

Definition set_header (v : cups_page_header2_t) (g : globals) :=
  mkGlobals (convertcspace g) (convertline g) (numcolors g) (rowsize g) v
    (bi_level g) (swap g) (nplanes g) (nbands g) (bytesPerLine g).

Definition set_swap (v : SwapState) (g : globals) :=
  mkGlobals (convertcspace g) (convertline g) (numcolors g) (rowsize g)
    (header g) (bi_level g) v (nplanes g) (nbands g) (bytesPerLine g).

Definition set_bytesPerLine (v : Z) (g : globals) :=
  mkGlobals (convertcspace g) (convertline g) (numcolors g) (rowsize g)
    (header g) (bi_level g) (swap g) (nplanes g) (nbands g) v.

(** [header.Duplex && (pgno & 1)]. *)
Definition backside (g : globals) (pgno : Z) : bool :=
  Duplex (header g) && negb (Z.land pgno 1 =? 0).

(** ** Traces *)

Inductive log_msg : Type :=
| InfoStartingPage (n : Z)
| ErrNoMediaBox (n : Z)
| DebugMediaBox
| ErrHeader (n : Z)
| ErrRotateValue (rotate : Z)
| ErrColorspace (colorspace : string)
| ErrColorFormat
| ErrRasterOpen.

(** What leaves the filter, in order: a line on [stderr], a header given
    to [cupsRasterWriteHeader2], a scanline given to
    [cupsRasterWritePixels].  A scanline is recorded as the call that
    produces it, [convertline(colordata + bp, line, lineBuf, row, plane,
    pixels)], with the number of bytes written.  [EvRotate] records a
    call of [rotatebitmap] with its arguments. *)
Inductive event : Type :=
| EvLog (m : log_msg)
| EvHeader (h : cups_page_header2_t)
| EvRotate (rotate height width rowsize : Z) (colorspace : string)
| EvPixels (f : option ConvertLine) (bp row plane pixels len : Z).

Definition M (A : Type) : Type := (list event * outcome A)%type.

Definition ret {A : Type} (a : A) : M A := ([], Done a).

Definition bind {A B : Type} (m : M A) (f : A -> M B) : M B :=
  match m with
  | (t, Done a) => let (t', o) := f a in (t ++ t', o)
  | (t, Exit s) => (t, Exit s)
  | (t, Undefined) => (t, Undefined)
  end.

Definition emit (e : event) : M unit := ([e], Done tt).

Definition exit {A : Type} (status : Z) : M A := ([], Exit status).

Definition lift {A : Type} (o : outcome A) : M A := ([], o).

Notation "'let*' x ':=' m 'in' k" := (bind m (fun x => k))
  (at level 10, x name, m at level 100, k at level 200) : pclm_scope.

Notation "m ';;' k" := (bind m (fun _ => k))
  (at level 100, k at level 200, right associativity) : pclm_scope.

(** [for (i = i0, n times; i += step) body]. *)
Fixpoint for_loop {S : Type} (n : nat) (i step : Z) (body : Z -> S -> M S)
    (s : S) : M S :=
  match n with
  | O => ret s
  | S n' => let* s1 := body i s in for_loop n' (i + step) step body s1
  end.

(** ** Row conversion

    The pixel converters of libcupsfilters ([cupsfilters/image.h],
    [cupsfilters/bitmap.h]) are taken as an interface.  An image converter
    and [oneBitLine] map the bytes at their input pointer and the numbers
    they are given to the bytes they write; [convertbits] maps the pixel
    at its input pointer, its position and the depth to the packed pixel,
    its scratch destination left out; [writepixel] maps the row and the
    arguments of its C prototype to the row with the pixel written. *)

Class CupsFilters : Type := {
  cupsImageRGBToCMYK : list byte -> Z -> list byte;
  cupsImageRGBToCMY : list byte -> Z -> list byte;
  cupsImageRGBToWhite : list byte -> Z -> list byte;
  cupsImageRGBToBlack : list byte -> Z -> list byte;
  cupsImageCMYKToRGB : list byte -> Z -> list byte;
  cupsImageCMYKToWhite : list byte -> Z -> list byte;
  cupsImageCMYKToBlack : list byte -> Z -> list byte;
  cupsImageWhiteToRGB : list byte -> Z -> list byte;
  cupsImageWhiteToCMYK : list byte -> Z -> list byte;
  cupsImageWhiteToCMY : list byte -> Z -> list byte;
  cupsImageWhiteToBlack : list byte -> Z -> list byte;
  oneBitLine : list byte -> Z -> Z -> Z -> list byte;
  convertbits : list byte -> Z -> Z -> Z -> Z -> list byte;
  writepixel :
    list byte -> Z -> Z -> list byte -> Z -> Z -> cups_order_t -> list byte
}.

(** The buffer [buf] after [w] has been written at its start. *)
Definition overlay (w buf : list byte) : list byte :=
  w ++ drop (length w) buf.

(** The view of a buffer from [p + off] on. *)
Definition advance (p : list byte) (off : Z) : list byte :=
  drop (Z.to_nat off) p.

(** [MAX_BYTES_PER_PIXEL] and a fresh [pixelBuf1] or [pixelBuf2]: their
    content is indeterminate in C and never read before it is written;
    the model fills them with zeros. *)
Definition MAX_BYTES_PER_PIXEL : Z := 32.

Definition pixelBuf : list byte :=
  repeat Byte.x00 (Z.to_nat MAX_BYTES_PER_PIXEL).

(** One packed bit of a row, pixel [i] counted from the most significant
    bit of byte 0. *)
Definition getbit (row : list byte) (i : Z) : bool :=
  match row !! Z.to_nat (i / 8) with
  | Some b => N.testbit (Byte.to_N b) (Z.to_N (7 - i mod 8))
  | None => false
  end.

(** The byte whose bit for pixel [k] (0 = most significant) is [f k]. *)
Definition byte_of_pixels (f : Z -> bool) : byte :=
  Byte.of_bits (f 7, (f 6, (f 5, (f 4, (f 3, (f 2, (f 1, f 0))))))).

(** Modelled from the spec: [reverseOneBitLine] of cupsfilters/bitmap.c is
    missing from src/.  Section 4.4 gives the mirrored row as "pixel i of
    the output equals pixel (pixelsPerRow-1-i) of the source" and section
    4.3 packs one bit per pixel, most significant bit first; the [size]
    bytes written start the destination, the bits after the last pixel
    are clear. *)
Definition reverseOneBitLine (src dst : list byte) (pixels size : Z)
    : list byte :=
  overlay
    (map (fun k : nat =>
            byte_of_pixels (fun b =>
              let i := 8 * Z.of_nat k + b in
              if i <? pixels then getbit src (pixels - 1 - i) else false))
         (seq 0 (Z.to_nat size)))
    dst.

Section Conversion.
Context `{CupsFilters}.

(** Lines 301-404.  Each function returns the view at the pointer the C
    function returns; a converter with [src] as its own output leaves its
    result at the start of [src]. *)

Definition RGBtoCMYKLine (g : globals) (src dst : list byte)
    (row pixels : Z) : list byte :=
  overlay (cupsImageRGBToCMYK src pixels) dst.

Definition RGBtoCMYLine (g : globals) (src dst : list byte)
    (row pixels : Z) : list byte :=
  overlay (cupsImageRGBToCMY src pixels) dst.

Definition RGBtoWhiteLine (g : globals) (src dst : list byte)
    (row pixels : Z) : list byte :=
  if negb (cupsBitsPerColor (header g) =? 1)
  then overlay (cupsImageRGBToWhite src pixels) dst
  else overlay (oneBitLine (overlay (cupsImageRGBToWhite src pixels) src)
                  (cupsWidth (header g)) row (bi_level g)) dst.

Definition RGBtoBlackLine (g : globals) (src dst : list byte)
    (row pixels : Z) : list byte :=
  if negb (cupsBitsPerColor (header g) =? 1)
  then overlay (cupsImageRGBToBlack src pixels) dst
  else overlay (oneBitLine (overlay (cupsImageRGBToBlack src pixels) src)
                  (cupsWidth (header g)) row (bi_level g)) dst.

Definition CMYKtoRGBLine (g : globals) (src dst : list byte)
    (row pixels : Z) : list byte :=
  overlay (cupsImageCMYKToRGB src pixels) dst.

Definition CMYKtoCMYLine (g : globals) (src dst : list byte)
    (row pixels : Z) : list byte :=
  overlay (cupsImageRGBToCMY (overlay (cupsImageCMYKToRGB src pixels) src)
             pixels) dst.

Definition CMYKtoWhiteLine (g : globals) (src dst : list byte)
    (row pixels : Z) : list byte :=
  if negb (cupsBitsPerColor (header g) =? 1)
  then overlay (cupsImageCMYKToWhite src pixels) dst
  else overlay (oneBitLine (overlay (cupsImageCMYKToWhite src pixels) src)
                  (cupsWidth (header g)) row (bi_level g)) dst.

Definition CMYKtoBlackLine (g : globals) (src dst : list byte)
    (row pixels : Z) : list byte :=
  if negb (cupsBitsPerColor (header g) =? 1)
  then overlay (cupsImageCMYKToBlack src pixels) dst
  else overlay (oneBitLine (overlay (cupsImageCMYKToBlack src pixels) src)
                  (cupsWidth (header g)) row (bi_level g)) dst.

Definition GraytoRGBLine (g : globals) (src dst : list byte)
    (row pixels : Z) : list byte :=
  overlay (cupsImageWhiteToRGB src pixels) dst.

Definition GraytoCMYKLine (g : globals) (src dst : list byte)
    (row pixels : Z) : list byte :=
  overlay (cupsImageWhiteToCMYK src pixels) dst.

Definition GraytoCMYLine (g : globals) (src dst : list byte)
    (row pixels : Z) : list byte :=
  overlay (cupsImageWhiteToCMY src pixels) dst.

Definition GraytoBlackLine (g : globals) (src dst : list byte)
    (row pixels : Z) : list byte :=
  if negb (cupsBitsPerColor (header g) =? 1)
  then overlay (cupsImageWhiteToBlack src pixels) dst
  else overlay (oneBitLine (overlay (cupsImageWhiteToBlack src pixels) src)
                  (cupsWidth (header g)) row (bi_level g)) dst.

Definition convertcspaceNoop (g : globals) (src dst : list byte)
    (row pixels : Z) : list byte :=
  src.

(** What a [ConvertCSpace] value points to. *)
Definition cspace_fn (f : ConvertCSpace)
    : globals -> list byte -> list byte -> Z -> Z -> list byte :=
  match f with
  | fp_RGBtoCMYKLine => RGBtoCMYKLine
  | fp_RGBtoCMYLine => RGBtoCMYLine
  | fp_RGBtoWhiteLine => RGBtoWhiteLine
  | fp_RGBtoBlackLine => RGBtoBlackLine
  | fp_CMYKtoRGBLine => CMYKtoRGBLine
  | fp_CMYKtoCMYLine => CMYKtoCMYLine
  | fp_CMYKtoWhiteLine => CMYKtoWhiteLine
  | fp_CMYKtoBlackLine => CMYKtoBlackLine
  | fp_GraytoRGBLine => GraytoRGBLine
  | fp_GraytoCMYKLine => GraytoCMYKLine
  | fp_GraytoCMYLine => GraytoCMYLine
  | fp_GraytoBlackLine => GraytoBlackLine
  | fp_convertcspaceNoop => convertcspaceNoop
  end.

(** A call through the global pointer [convertcspace]. *)
Definition call_convertcspace (g : globals) (src dst : list byte)
    (row pixels : Z) : outcome (list byte) :=
  match convertcspace g with
  | Some f => Done (cspace_fn f g src dst row pixels)
  | None => Undefined
  end.

(** [for (i = i0, n times; i++) body], on a buffer. *)
Fixpoint pixel_loop (n : nat) (i : Z)
    (body : Z -> list byte -> outcome (list byte)) (dst : list byte)
    : outcome (list byte) :=
  match n with
  | O => Done dst
  | S n' => let+ d := body i dst in pixel_loop n' (i + 1) body d
  end.

(** The body shared by the last branch of both line functions: pixel
    [i] of the output is made from the source pixel at offset [off]. *)
Definition pack_pixel (g : globals) (src : list byte) (row plane : Z)
    (off i : Z) (dst : list byte) : outcome (list byte) :=
  let+ pb := call_convertcspace g (advance src off) pixelBuf row 1 in
  let pb2 := convertbits pb i row (cupsNumColors (header g))
               (cupsBitsPerColor (header g)) in
  Done (writepixel dst plane i pb2 (cupsNumColors (header g))
          (cupsBitsPerColor (header g)) (cupsColorOrder (header g))).

(** Lines 406-429. *)
Definition convertLine (g : globals) (src dst buf : list byte)
    (row plane pixels : Z) : outcome (list byte) :=
  if ((cupsBitsPerColor (header g) =? 1) && (cupsNumColors (header g) =? 1))
     || ((cupsBitsPerColor (header g) =? 8)
         && is_chunked (cupsColorOrder (header g)))
  then call_convertcspace g src dst row pixels
  else
    pixel_loop (Z.to_nat pixels) 0
      (fun i d => pack_pixel g src row plane (u32 (i * numcolors g)) i d)
      dst.

(** Lines 431-459. *)
Definition convertReverseLine (g : globals) (src dst buf : list byte)
    (row plane pixels : Z) : outcome (list byte) :=
  if (cupsBitsPerColor (header g) =? 1) && (cupsNumColors (header g) =? 1)
  then
    let+ buf1 := call_convertcspace g src buf row pixels in
    Done (reverseOneBitLine buf1 dst pixels (bytesPerLine g))
  else if (cupsBitsPerColor (header g) =? 8)
          && is_chunked (cupsColorOrder (header g))
  then
    let+ buf1 := call_convertcspace g src buf row pixels in
    let+ k := copy_row (Z.to_nat pixels) (Z.to_nat (cupsNumColors (header g)))
                (- cupsNumColors (header g)) buf1
                (mkCursor
                   (u32 (u32 (cupsWidth (header g) - 1)
                         * cupsNumColors (header g)))
                   0 dst) in
    Done (cur_dst k)
  else
    pixel_loop (Z.to_nat pixels) 0
      (fun i d =>
         pack_pixel g src row plane
           (u32 (u32 (pixels - i - 1) * numcolors g)) i d)
      dst.

End Conversion.

(** ** Selection of the conversion functions: lines 461-516 *)

Definition DeviceRGB : string := "/DeviceRGB".
Definition DeviceCMYK : string := "/DeviceCMYK".
Definition DeviceGray : string := "/DeviceGray".

(** The [switch] of lines 480-507; [g] already holds the default. *)
Definition select_cspace (colorspace : string) (g : globals) : globals :=
  match cupsColorSpace (header g) with
  | CUPS_CSPACE_K =>
      if String.eqb colorspace DeviceRGB
      then set_convertcspace (Some fp_RGBtoBlackLine) g
      else if String.eqb colorspace DeviceCMYK
      then set_convertcspace (Some fp_CMYKtoBlackLine) g
      else if String.eqb colorspace DeviceGray
      then set_convertcspace (Some fp_GraytoBlackLine) g
      else g
  | CUPS_CSPACE_W | CUPS_CSPACE_SW =>
      if String.eqb colorspace DeviceRGB
      then set_convertcspace (Some fp_RGBtoWhiteLine) g
      else if String.eqb colorspace DeviceCMYK
      then set_convertcspace (Some fp_CMYKtoWhiteLine) g
      else g
  | CUPS_CSPACE_CMY =>
      if String.eqb colorspace DeviceRGB
      then set_convertcspace (Some fp_RGBtoCMYLine) g
      else if String.eqb colorspace DeviceCMYK
      then set_convertcspace (Some fp_CMYKtoCMYLine) g
      else if String.eqb colorspace DeviceGray
      then set_convertcspace (Some fp_GraytoCMYLine) g
      else g
  | CUPS_CSPACE_CMYK =>
      if String.eqb colorspace DeviceRGB
      then set_convertcspace (Some fp_RGBtoCMYKLine) g
      else if String.eqb colorspace DeviceGray
      then set_convertcspace (Some fp_GraytoCMYKLine) g
      else g
  | CUPS_CSPACE_RGB | CUPS_CSPACE_ADOBERGB | CUPS_CSPACE_SRGB
  | CUPS_CSPACE_OTHER _ =>
      if String.eqb colorspace DeviceCMYK
      then set_convertcspace (Some fp_CMYKtoRGBLine) g
      else if String.eqb colorspace DeviceGray
      then set_convertcspace (Some fp_GraytoRGBLine) g
      else g
  end.

Definition selectConvertFunc (colorspace : string) (pgno : Z) (g : globals)
    : M globals :=
  let* g1 :=
    if String.eqb colorspace DeviceRGB
    then ret (set_rowsize_numcolors (i32 (cupsWidth (header g) * 3)) 3 g)
    else if String.eqb colorspace DeviceCMYK
    then ret (set_rowsize_numcolors (i32 (cupsWidth (header g) * 4)) 4 g)
    else if String.eqb colorspace DeviceGray
    then ret (set_rowsize_numcolors (i32 (cupsWidth (header g))) 1 g)
    else (emit (EvLog (ErrColorspace colorspace));; exit 1) in
  let g2 := set_convertcspace (Some fp_convertcspaceNoop) g1 in
  let g3 := select_cspace colorspace g2 in
  ret (if backside g3 pgno && swap_image_x (swap g3)
       then set_convertline (Some fp_convertReverseLine) g3
       else set_convertline (Some fp_convertLine) g3).

(** ** The document side: QPDF object handles

    [getKey] of a missing key, or on an object that is no dictionary, is
    the null object; [hasKey] wants a value that is not null;
    [getArrayAsVector] of an object that is no array is the empty vector;
    [getIntValueAsInt] clamps to the range of [int]. *)

#[local] Unset Elimination Schemes.

Inductive QPDFObjectHandle : Type :=
| QNull
| QBool (b : bool)
| QInteger (v : Z)
| QReal (v : string)
| QString (v : string)
| QName (n : string)
| QArray (items : list QPDFObjectHandle)
| QDictionary (items : list (string * QPDFObjectHandle)).

#[local] Set Elimination Schemes.

Definition isDictionary (o : QPDFObjectHandle) : bool :=
  match o with QDictionary _ => true | _ => false end.

Definition isNull (o : QPDFObjectHandle) : bool :=
  match o with QNull => true | _ => false end.

Fixpoint assoc (key : string) (items : list (string * QPDFObjectHandle))
    : QPDFObjectHandle :=
  match items with
  | [] => QNull
  | (k, v) :: rest => if String.eqb k key then v else assoc key rest
  end.

Definition getKey (o : QPDFObjectHandle) (key : string) : QPDFObjectHandle :=
  match o with QDictionary items => assoc key items | _ => QNull end.

Definition hasKey (o : QPDFObjectHandle) (key : string) : bool :=
  negb (isNull (getKey o key)).

Definition getArrayAsVector (o : QPDFObjectHandle) : list QPDFObjectHandle :=
  match o with QArray items => items | _ => [] end.

Definition getIntValueAsInt (v : Z) : Z :=
  if v <? INT_MIN then INT_MIN else if INT_MAX <? v then INT_MAX else v.

(** [v[i]] of a [std::vector]. *)
Definition vector_at {T : Type} (v : list T) (i : nat) : outcome T :=
  match v !! i with Some x => Done x | None => Undefined end.

(** Lines 175-188.  The four numbers go to [rect], which only the
    floating-point size computation reads; the result is the validity
    flag. *)
Definition mediaboxlookup (object : QPDFObjectHandle) : outcome bool :=
  if negb (isDictionary object) || negb (hasKey object "/MediaBox")
  then Done false
  else
    let mediabox := getArrayAsVector (getKey object "/MediaBox") in
    let+ _ := vector_at mediabox 0 in
    let+ _ := vector_at mediabox 1 in
    let+ _ := vector_at mediabox 2 in
    let+ _ := vector_at mediabox 3 in
    Done (Nat.eqb (length mediabox) 4).

(** One entry of [page.getPageImages()]: the image dictionary's
    [/Width] and [/Height] as [getIntValue] returns them, its
    [/ColorSpace], and the decoded stream. *)
Record PageImage : Type := mkImage {
  img_Width : Z;
  img_Height : Z;
  img_ColorSpace : QPDFObjectHandle;
  img_data : list byte
}.

(** A page as [outPage] sees it: the page object, its images in the order
    of the [std::map], the margins and paper dimensions that lines 546-580
    compute in floating point from the MediaBox and the PPD, and whether
    [cupsRasterWriteHeader2] accepts the header. *)
Record Page : Type := mkPage {
  page_obj : QPDFObjectHandle;
  page_images : list PageImage;
  page_geometry : geometry;
  page_header_ok : bool
}.

(** ** outPage: lines 518-710 *)

(** Lines 537-538. *)
Definition page_rotate (page : Page) : Z :=
  match getKey (page_obj page) "/Rotate" with
  | QInteger v => getIntValueAsInt v
  | _ => 0
  end.

(** Lines 582-590: the margins of a backside. *)
Definition backside_margins (g : globals) (pgno : Z) (m : geometry)
    : geometry :=
  if backside g pgno then
    let m1 :=
      if swap_margin_x (swap g)
      then mkGeometry (margins2 m) (margins1 m) (margins0 m) (margins3 m)
             (paperdimensions0 m) (paperdimensions1 m)
      else m in
    if swap_margin_y (swap g)
    then mkGeometry (margins0 m1) (margins3 m1) (margins2 m1) (margins1 m1)
           (paperdimensions0 m1) (paperdimensions1 m1)
    else m1
  else m.

(** What the loop of lines 619-640 keeps from one image to the next.
    Before the first image [colorspace_obj] is a handle that holds no
    object; the model takes it for the null object. *)
Record assembly : Type := mkAssembly {
  as_header : cups_page_header2_t;
  as_bitmap : list byte;
  as_colorspace_obj : QPDFObjectHandle
}.

Definition add_image (a : assembly) (image : PageImage) : assembly :=
  let h1 := set_cupsHeight (u32 (cupsHeight (as_header a) + img_Height image))
              (as_header a) in
  let h2 := if cupsWidth h1 <? img_Width image
            then set_cupsWidth (u32 (img_Width image)) h1
            else h1 in
  mkAssembly h2 (as_bitmap a ++ img_data image) (img_ColorSpace image).

Definition assemble_images (images : list PageImage)
    (h : cups_page_header2_t) : assembly :=
  fold_left add_image images
    (mkAssembly (set_cupsHeight 0 (set_cupsWidth 0 h)) [] QNull).

(** Lines 643-647. *)
Definition landscape (rotate : Z) (h : cups_page_header2_t)
    : cups_page_header2_t :=
  if (rotate =? 270) || (rotate =? 90)
  then set_cupsWidth (cupsHeight h) (set_cupsHeight (cupsWidth h) h)
  else h.

(** Lines 649-652. *)
Definition bytes_per_line (h : cups_page_header2_t) : Z :=
  u32 (u32 (cupsBitsPerPixel h * cupsWidth h) + 7) / 8.

Definition line_size (g : globals) : globals :=
  let bpl := bytes_per_line (header g) in
  let h1 := set_cupsBytesPerLine bpl (header g) in
  let h2 := if is_banded (cupsColorOrder h1)
            then set_cupsBytesPerLine
                   (u32 (cupsBytesPerLine h1 * cupsNumColors h1)) h1
            else h1 in
  set_header h2 (set_bytesPerLine bpl g).

(** Line 659. *)
Definition colorspace_name (o : QPDFObjectHandle) : string :=
  match o with QName n => n | _ => DeviceRGB end.

(** Lines 662-666: two image swaps become a half turn. *)
Definition fold_swap (g : globals) (pgno rotate : Z) : globals * Z :=
  if backside g pgno && swap_image_y (swap g) && swap_image_x (swap g)
  then (set_swap (mkSwap false false (swap_margin_x (swap g))
                    (swap_margin_y (swap g))) g,
        Z.rem (rotate + 180) 360)
  else (g, rotate).

(** Lines 669-674.  [malloc] returns cells with indeterminate content:
    a cell of a rotated bitmap is [Some b] once a byte has been copied
    into it. *)
Definition rotate_page (g : globals) (rotate : Z) (bitmap : list byte)
    (colorspace : string) : M (list (option byte)) :=
  if rotate =? 0 then ret (map Some bitmap)
  else
    let bitmap2 : list (option byte) := repeat None (length bitmap) in
    emit (EvRotate (u32 rotate) (cupsHeight (header g))
            (cupsWidth (header g)) (rowsize g) colorspace);;
    match rotatebitmap (map Some bitmap) bitmap2 (u32 rotate)
            (cupsHeight (header g)) (cupsWidth (header g)) (rowsize g)
            colorspace with
    | Exit s => emit (EvLog (ErrRotateValue (u32 rotate)));; exit s
    | o => lift o
    end.

(** Lines 684-706: one [cupsRasterWritePixels] per row, plane and band. *)
Definition write_bands (g : globals) (row plane bp : Z) : M unit :=
  for_loop (Z.to_nat (nbands g)) 0 1
    (fun band _ =>
       emit (EvPixels (convertline g) bp row (u32 (plane + band))
               (cupsWidth (header g)) (bytesPerLine g)))
    tt.

Definition write_lines (g : globals) (pgno : Z) : M unit :=
  if backside g pgno && swap_image_y (swap g) then
    for_loop (Z.to_nat (nplanes g)) 0 1
      (fun plane _ =>
         for_loop (Z.to_nat (cupsHeight (header g))) (cupsHeight (header g))
           (-1)
           (fun h bp => write_bands g (u32 (h - 1)) plane bp;;
                        ret (bp - rowsize g))
           (u32 (u32 (cupsHeight (header g) - 1) * rowsize g));;
         ret tt)
      tt
  else
    for_loop (Z.to_nat (nplanes g)) 0 1
      (fun plane _ =>
         for_loop (Z.to_nat (cupsHeight (header g))) 0 1
           (fun h bp => write_bands g h plane bp;;
                        ret (bp + rowsize g))
           0;;
         ret tt)
      tt.

Definition outPage (g : globals) (page : Page) (pgno : Z) : M globals :=
  let rotate := page_rotate page in
  let* valid := lift (mediaboxlookup (page_obj page)) in
  if negb valid then
    emit (EvLog (ErrNoMediaBox (pgno + 1)));; ret g
  else
    emit (EvLog DebugMediaBox);;
    let box := backside_margins g pgno (page_geometry page) in
    let a := assemble_images (page_images page)
               (set_page_box box (header g)) in
    let g1 := line_size (set_header (landscape rotate (as_header a)) g) in
    (if page_header_ok page
     then emit (EvHeader (header g1))
     else (emit (EvLog (ErrHeader (pgno + 1)));; exit 1));;
    let colorspace := colorspace_name (as_colorspace_obj a) in
    let (g2, rotate2) := fold_swap g1 pgno rotate in
    let* colordata := rotate_page g2 rotate2 (as_bitmap a) colorspace in
    let* g3 := selectConvertFunc colorspace pgno g2 in
    write_lines g3 pgno;;
    ret g3.

(** ** main: lines 758-798, from [parseOpts] on *)

(** What the job gets from outside: the header as the PPD and the options
    leave it, the duplex attributes of the PPD if there is one, the
    bi-level option, the result of [cupsRasterOpen], and the pages. *)
Record job : Type := mkJob {
  job_header : cups_page_header2_t;
  job_ppd : option ppd_duplex;
  job_bi_level : Z;
  job_raster_ok : bool;
  job_pages : list Page
}.

(** The globals after [parseOpts]: the initialisers of lines 42-59, the
    header, the swap flags and [bi_level]. *)
Definition parseOpts (j : job) : globals :=
  mkGlobals None None 0 0 (job_header j) (job_bi_level j)
    (match job_ppd j with
     | Some p => parseOpts_duplex (Duplex (job_header j))
                   (Tumble (job_header j)) p no_swap
     | None => no_swap
     end)
    0 0 0.

Definition supported_depth (b : Z) : bool :=
  (b =? 1) || (b =? 2) || (b =? 4) || (b =? 8) || (b =? 16).

(** Lines 769-778. *)
Definition plane_setup (g : globals) : globals :=
  mkGlobals (convertcspace g) (convertline g) (numcolors g) (rowsize g)
    (header g) (bi_level g) (swap g)
    (if is_planar (cupsColorOrder (header g))
     then cupsNumColors (header g) else 1)
    (if is_banded (cupsColorOrder (header g))
     then cupsNumColors (header g) else 1)
    (bytesPerLine g).

(** The loop of lines 789-793. *)
Fixpoint run_pages (pages : list Page) (i : Z) (g : globals) : M globals :=
  match pages with
  | [] => ret g
  | page :: rest =>
      emit (EvLog (InfoStartingPage (i + 1)));;
      let* g1 := outPage g page i in
      run_pages rest (i + 1) g1
  end.

Definition main (j : job) : M Z :=
  let g := parseOpts j in
  if negb (supported_depth (cupsBitsPerColor (header g)))
  then emit (EvLog ErrColorFormat);; exit 1
  else
    let g1 := plane_setup g in
    if negb (job_raster_ok j)
    then emit (EvLog ErrRasterOpen);; exit 1
    else let* g2 := run_pages (job_pages j) 0 g1 in ret 0.

(** ** parseOpts: the raster flavour and the bi-level option

    Lines 72-76 and 139-169, as they are compiled with CUPS 1.7 or later
    ([HAVE_CUPS_1_7]).  [strncasecmp] and [strcasestr] are the libc
    routines; what [getenv], [ppdFindAttr] and [cupsGetOption] return is
    given. *)

(** At most [n] bytes are compared. *)
Fixpoint strncasecmp (s1 s2 : string) (n : nat) {struct n} : Z :=
  match n with
  | O => 0
  | S n' =>
      match s1, s2 with
      | EmptyString, EmptyString => 0
      | EmptyString, String c2 _ => 0 - uchar (tolower c2)
      | String c1 _, EmptyString => uchar (tolower c1)
      | String c1 r1, String c2 r2 =>
          let d := uchar (tolower c1) - uchar (tolower c2) in
          if d =? 0 then strncasecmp r1 r2 n' else d
      end
  end.

(** Whether [needle], case folded, starts the string [s]. *)
Fixpoint starts_with (needle s : string) : bool :=
  match needle, s with
  | EmptyString, _ => true
  | String _ _, EmptyString => false
  | String c1 r1, String c2 r2 =>
      Ascii.eqb (tolower c1) (tolower c2) && starts_with r1 r2
  end.

(** The rest of the haystack from the first place where the needle, case
    folded, starts it; [None] is the null pointer. *)
Fixpoint strcasestr (haystack needle : string) : option string :=
  if starts_with needle haystack then Some haystack
  else match haystack with
       | EmptyString => None
       | String _ rest => strcasestr rest needle
       end.

(** What the two decisions read: the environment variable, the value of
    the PPD attribute PWGRaster ([Some None] is an attribute whose value
    is null), and three options of the job. *)
Record raster_options : Type := mkRasterOptions {
  FINAL_CONTENT_TYPE : option string;
  PWGRaster : option (option string);
  opt_media_class : option string;
  opt_MediaClass : option string;
  opt_print_color_mode : option string
}.

Definition is_some {A : Type} (o : option A) : bool :=
  match o with Some _ => true | None => false end.

(** Lines 73-75. *)
Definition pwgraster_of_env (o : raster_options) : Z :=
  match FINAL_CONTENT_TYPE o with
  | Some t => if is_some (strcasestr t "pwg") then 1 else 0
  | None => 0
  end.

(** Lines 140-144 with a PPD, lines 150-160 without one; [pwgraster]
    holds the value that lines 73-75 left.  The value of the attribute is
    given to [strcasecmp] as it is: a null one has no defined behaviour. *)
Definition parseOpts_pwgraster (have_ppd : bool) (o : raster_options)
    : outcome Z :=
  let pwgraster := pwgraster_of_env o in
  if have_ppd then
    match PWGRaster o with
    | Some (Some v) =>
        if (strcasecmp v "true" =? 0) || (strcasecmp v "on" =? 0)
           || (strcasecmp v "yes" =? 0)
        then Done 1 else Done pwgraster
    | Some None => Undefined
    | None => Done pwgraster
    end
  else
    let t := match opt_media_class o with
             | Some t => Some t
             | None => opt_MediaClass o
             end in
    match t with
    | Some t => if is_some (strcasestr t "pwg") then Done 1 else Done 0
    | None => Done 1
    end.

(** Lines 167-169, from the initial value 0. *)
Definition parseOpts_bi_level (o : raster_options) : Z :=
  match opt_print_color_mode o with
  | Some val => if strncasecmp val "bi-level" 8 =? 0 then 1 else 0
  | None => 0
  end.

(** ** Vocabulary of the statements *)

Section Cells.
Context {A : Type}.

(** The cell at an offset, if the offset is inside the buffer. *)
Definition rd (buf : list A) (i : Z) : option A :=
  if i <? 0 then None else buf !! Z.to_nat i.

Definition len (buf : list A) : Z := Z.of_nat (length buf).

End Cells.

(** Bytes per pixel of the three colorspaces the rotator knows. *)
Definition components (colorspace : string) : option nat :=
  if String.eqb colorspace DeviceGray then Some 1%nat
  else if String.eqb colorspace DeviceCMYK then Some 4%nat
  else if String.eqb colorspace DeviceRGB then Some 3%nat
  else None.

(** The conversions section 4.3 of the specification lists, keyed by the
    target of the device and the colorspace of the page: RGB to CMYK, CMY,
    White and Black; CMYK to RGB, CMY, White and Black; Gray to RGB, CMYK,
    CMY and Black.  White is the target of W and SW, Black that of K. *)
Definition defined_conversion (target : cups_cspace_t) (source : string)
    : option ConvertCSpace :=
  if String.eqb source DeviceRGB then
    match target with
    | CUPS_CSPACE_CMYK => Some fp_RGBtoCMYKLine
    | CUPS_CSPACE_CMY => Some fp_RGBtoCMYLine
    | CUPS_CSPACE_W | CUPS_CSPACE_SW => Some fp_RGBtoWhiteLine
    | CUPS_CSPACE_K => Some fp_RGBtoBlackLine
    | _ => None
    end
  else if String.eqb source DeviceCMYK then
    match target with
    | CUPS_CSPACE_RGB | CUPS_CSPACE_SRGB | CUPS_CSPACE_ADOBERGB =>
        Some fp_CMYKtoRGBLine
    | CUPS_CSPACE_CMY => Some fp_CMYKtoCMYLine
    | CUPS_CSPACE_W | CUPS_CSPACE_SW => Some fp_CMYKtoWhiteLine
    | CUPS_CSPACE_K => Some fp_CMYKtoBlackLine
    | _ => None
    end
  else if String.eqb source DeviceGray then
    match target with
    | CUPS_CSPACE_RGB | CUPS_CSPACE_SRGB | CUPS_CSPACE_ADOBERGB =>
        Some fp_GraytoRGBLine
    | CUPS_CSPACE_CMYK => Some fp_GraytoCMYKLine
    | CUPS_CSPACE_CMY => Some fp_GraytoCMYLine
    | CUPS_CSPACE_K => Some fp_GraytoBlackLine
    | _ => None
    end
  else None.

Definition device_targets : list cups_cspace_t :=
  [CUPS_CSPACE_K; CUPS_CSPACE_W; CUPS_CSPACE_SW; CUPS_CSPACE_CMY;
   CUPS_CSPACE_CMYK; CUPS_CSPACE_RGB; CUPS_CSPACE_SRGB;
   CUPS_CSPACE_ADOBERGB].

Definition page_sources : list string := [DeviceGray; DeviceRGB; DeviceCMYK].

Definition is_pixels (e : event) : Prop :=
  match e with EvPixels _ _ _ _ _ _ => True | _ => False end.

Definition no_header (e : event) : Prop :=
  match e with EvHeader _ => False | _ => True end.

(** The page as assembled, the globals when the header is written, the
    colorspace of the page, and the rest of [outPage] from line 659 on. *)
Definition assembled (g : globals) (page : Page) (pgno : Z) : assembly :=
  assemble_images (page_images page)
    (set_page_box (backside_margins g pgno (page_geometry page)) (header g)).

Definition header_stage (g : globals) (page : Page) (pgno : Z) : globals :=
  line_size
    (set_header
       (landscape (page_rotate page) (as_header (assembled g page pgno))) g).

Definition page_colorspace (g : globals) (page : Page) (pgno : Z) : string :=
  colorspace_name (as_colorspace_obj (assembled g page pgno)).

(** The rotation of the page after the fold of lines 662-666. *)
Definition folded_rotation (g : globals) (page : Page) (pgno : Z) : Z :=
  (fold_swap (header_stage g page pgno) pgno (page_rotate page)).2.

Definition folded_globals (g : globals) (page : Page) (pgno : Z) : globals :=
  (fold_swap (header_stage g page pgno) pgno (page_rotate page)).1.

Definition page_tail (g : globals) (page : Page) (pgno : Z) : M globals :=
  let* colordata :=
    rotate_page (folded_globals g page pgno) (folded_rotation g page pgno)
      (as_bitmap (assembled g page pgno)) (page_colorspace g page pgno) in
  let* g3 := selectConvertFunc (page_colorspace g page pgno) pgno
               (folded_globals g page pgno) in
  write_lines g3 pgno;;
  ret g3.

(** The angles [rotatebitmap] is called with, in order. *)
Definition rotations (t : list event) : list Z :=
  flat_map (fun e => match e with
                     | EvRotate rotate _ _ _ _ => [rotate]
                     | _ => []
                     end) t.

Definition outcome_map {A B : Type} (f : A -> B) (o : outcome A) : outcome B :=
  match o with
  | Done a => Done (f a)
  | Exit s => Exit s
  | Undefined => Undefined
  end.


(** Every scanline of a page is made by the selected line function from
    a row of [cupsWidth] pixels and has [bytesPerLine] bytes. *)
Definition line_call (g : globals) (e : event) : Prop :=
  match e with
  | EvPixels f _ _ _ pixels n =>
      f = convertline g /\ pixels = cupsWidth (header g) /\
      n = bytesPerLine g
  | _ => False
  end.

(** [d] is [dst] with some cells replaced by copies of cells of [src]. *)
Definition copied {A : Type} (src dst d : list A) : Prop :=
  len d = len dst /\
  forall i, rd d i = rd dst i \/ exists k, 0 <= k < len src /\ rd d i = rd src k.

(** The calls that write the bands of one row. *)
Definition band_calls (g : globals) (bp row plane : Z) : list event :=
  map (fun band => EvPixels (convertline g) bp row (u32 (plane + band))
                     (cupsWidth (header g)) (bytesPerLine g))
    (seqZ 0 (nbands g)).

(** The scanlines of a page whose rows are written in the order [rows],
    row [r] being read at offset [r * rowsize]. *)
Definition row_calls (g : globals) (rows : list Z) : list event :=
  flat_map
    (fun plane =>
       flat_map (fun r => band_calls g (r * rowsize g) r plane) rows)
    (seqZ 0 (nplanes g)).

(** The headers of a trace and the byte counts of its scanlines. *)
Definition headers (t : list event) : list cups_page_header2_t :=
  flat_map (fun e => match e with EvHeader h => [h] | _ => [] end) t.

Definition scanline_bytes (t : list event) : list Z :=
  flat_map (fun e => match e with
                     | EvPixels _ _ _ _ _ n => [n]
                     | _ => []
                     end) t.

(** What a turned page leaves on the trace. *)
Definition rotate_events (g : globals) (page : Page) (pgno : Z)
    : list event :=
  if folded_rotation g page pgno =? 0 then []
  else [EvRotate (u32 (folded_rotation g page pgno))
          (cupsHeight (header (header_stage g page pgno)))
          (cupsWidth (header (header_stage g page pgno)))
          (rowsize g) (page_colorspace g page pgno)].

(** The largest width, if any is positive, and the sum of the heights of
    the images of a page. *)
Definition widest (images : list PageImage) : Z :=
  fold_right Z.max 0 (map img_Width images).

Definition total_height (images : list PageImage) : Z :=
  fold_right Z.add 0 (map img_Height images).

(** The settings no page changes: the fields of the header that describe
    the device, the plane and band counts, the bi-level option and the two
    margin flags. *)
Definition same_settings (g g' : globals) : Prop :=
  Duplex (header g') = Duplex (header g) /\
  Tumble (header g') = Tumble (header g) /\
  cupsBitsPerColor (header g') = cupsBitsPerColor (header g) /\
  cupsBitsPerPixel (header g') = cupsBitsPerPixel (header g) /\
  cupsColorOrder (header g') = cupsColorOrder (header g) /\
  cupsColorSpace (header g') = cupsColorSpace (header g) /\
  cupsNumColors (header g') = cupsNumColors (header g) /\
  nplanes g' = nplanes g /\ nbands g' = nbands g /\
  bi_level g' = bi_level g /\
  swap_margin_x (swap g') = swap_margin_x (swap g) /\
  swap_margin_y (swap g') = swap_margin_y (swap g).

(** The image flags are as they were, or were both set and are both
    cleared. *)
Definition folded_or_same (g g' : globals) : Prop :=
  swap g' = swap g \/
  (swap_image_x (swap g) = true /\ swap_image_y (swap g) = true /\
   swap g' = mkSwap false false (swap_margin_x (swap g))
               (swap_margin_y (swap g))).

(** What a job whose page [i], counted from 1, is skipped says on
    [stderr] for it. *)
Definition skipped_log (i : Z) : list event :=
  [EvLog (InfoStartingPage (i + 1)); EvLog (ErrNoMediaBox (i + 1))].

(** Every image of the page is [W] pixels wide and its data has [c] bytes
    for each of its pixels. *)
Definition strips (W : Z) (c : nat) (images : list PageImage) : Prop :=
  Forall (fun im => img_Width im = W /\ 0 <= img_Height im /\
                    len (img_data im) = W * img_Height im * Z.of_nat c)
    images.

(** A string with its bytes folded to lower case. *)
Fixpoint lower (s : string) : string :=
  match s with
  | EmptyString => EmptyString
  | String c r => String (tolower c) (lower r)
  end.

(** [t] begins with [word], and [t] has [word] somewhere, up to case. *)
Definition begins_with (word t : string) : Prop :=
  exists m rest, t = (m ++ rest)%string /\ lower m = lower word.

Definition mentions (word t : string) : Prop :=
  exists pre m post, t = (pre ++ m ++ post)%string /\ lower m = lower word.

(** ** Sample jobs *)

Definition letter_box : QPDFObjectHandle :=
  QArray [QInteger 0; QInteger 0; QInteger 612; QInteger 792].

Definition rgb_header (duplex : bool) : cups_page_header2_t :=
  mkHeader duplex false 0 0 8 24 0 CUPS_ORDER_CHUNKED CUPS_CSPACE_RGB 3 None.

(** The globals of a job with this header and these swap flags when the
    page loop starts. *)
Definition start_globals (h : cups_page_header2_t) (s : SwapState)
    : globals :=
  set_swap s (plane_setup (parseOpts (mkJob h None 0 true []))).

Definition rgb_strip (w h : Z) : PageImage :=
  mkImage w h (QName DeviceRGB) (repeat Byte.xff (Z.to_nat (w * h * 3))).

Definition sample_page (entries : list (string * QPDFObjectHandle))
    (images : list PageImage) : Page :=
  mkPage (QDictionary entries) images (mkGeometry 1 2 3 4 612 792) true.

Definition rotated_page (rotate : Z) (images : list PageImage) : Page :=
  sample_page [("/MediaBox"%string, letter_box);
               ("/Rotate"%string, QInteger rotate)] images.

(** A page whose MediaBox has three numbers. *)
Definition short_box_page : Page :=
  sample_page [("/MediaBox"%string,
                QArray [QInteger 0; QInteger 0; QInteger 612])]
    [rgb_strip 2 1].

(** The row [dst] with [w] written at offset [p]. *)
Definition write_at (dst : list byte) (p : nat) (w : list byte) : list byte :=
  take p dst ++ w ++ drop (p + length w) dst.

(** A stand-in for libcupsfilters: every converter copies its pixels,
    [convertbits] keeps the components of the pixel, [writepixel] stores
    them at the pixel's place in a chunked row. *)
Definition plain_filters : CupsFilters :=
  {| cupsImageRGBToCMYK := fun s n => take (Z.to_nat n) s;
     cupsImageRGBToCMY := fun s n => take (Z.to_nat n) s;
     cupsImageRGBToWhite := fun s n => take (Z.to_nat n) s;
     cupsImageRGBToBlack := fun s n => take (Z.to_nat n) s;
     cupsImageCMYKToRGB := fun s n => take (Z.to_nat n) s;
     cupsImageCMYKToWhite := fun s n => take (Z.to_nat n) s;
     cupsImageCMYKToBlack := fun s n => take (Z.to_nat n) s;
     cupsImageWhiteToRGB := fun s n => take (Z.to_nat n) s;
     cupsImageWhiteToCMYK := fun s n => take (Z.to_nat n) s;
     cupsImageWhiteToCMY := fun s n => take (Z.to_nat n) s;
     cupsImageWhiteToBlack := fun s n => take (Z.to_nat n) s;
     oneBitLine := fun s w row bi => take (Z.to_nat ((w + 7) / 8)) s;
     convertbits := fun pb x y nc bits => take (Z.to_nat nc) pb;
     writepixel := fun dst plane i pb nc bits order =>
                     write_at dst (Z.to_nat (i * nc)) pb |}.

Definition six_bytes : list byte :=
  [Byte.x01; Byte.x02; Byte.x03; Byte.x04; Byte.x05; Byte.x06].

Definition blank (n : nat) : list byte := repeat Byte.x00 n.

(** Globals of a page of two RGB pixels on an RGB device, after
    selection, with [bits] per color. *)
Definition selected_globals (bits : Z) (order : cups_order_t) : globals :=
  mkGlobals (Some fp_convertcspaceNoop) (Some fp_convertReverseLine) 3 6
    (mkHeader true false 2 1 bits (bits * 3) 6 order CUPS_CSPACE_RGB 3 None)
    0 (mkSwap true false true true) 1 1 6.

(** The jobs of the two scenarios that end section 8 of the
    specification: one white 4 by 2 RGB strip on a CMYK device, and a
    duplex job of two pages whose PPD says cupsBackSide Rotated. *)
Definition cmyk_job : job :=
  mkJob (mkHeader false false 0 0 8 32 0 CUPS_ORDER_CHUNKED CUPS_CSPACE_CMYK
           4 None)
    None 0 true [sample_page [("/MediaBox"%string, letter_box)]
                   [rgb_strip 4 2]].

Definition rotated_backside_job : job :=
  mkJob (rgb_header true)
    (Some (mkPpdDuplex (Some "Rotated"%string) false None)) 0 true
    [rotated_page 0 [rgb_strip 2 1]; rotated_page 0 [rgb_strip 2 1]].

Definition two_page_job : job :=
  mkJob (rgb_header false) None 0 true
    [rotated_page 0 [rgb_strip 4 1]; rotated_page 180 [rgb_strip 2 2]].

Definition after_pages (pages : list Page) (g : globals) : globals :=
  match (run_pages pages 0 g).2 with Done g' => g' | _ => g end.

(** A strip whose colorspace the filter does not know. *)
Definition indexed_strip (w h : Z) : PageImage :=
  mkImage w h (QName "/Indexed") (repeat Byte.xff (Z.to_nat (w * h))).

(** A gray strip of given bytes. *)
Definition gray_strip (w h : Z) (data : list byte) : PageImage :=
  mkImage w h (QName DeviceGray) data.

(** A duplex job of four pages whose two image flags are set, a job of
    three pages whose second has no right angle, and a job none of whose
    pages has a MediaBox. *)
Definition four_page_job : job :=
  mkJob (rgb_header true)
    (Some (mkPpdDuplex (Some "Rotated"%string) false None)) 0 true
    (repeat (rotated_page 0 [rgb_strip 2 1]) 4).

Definition bad_angle_job : job :=
  mkJob (rgb_header false) None 0 true
    [rotated_page 0 [rgb_strip 2 1]; rotated_page 45 [rgb_strip 2 1];
     rotated_page 0 [rgb_strip 2 1]].

Definition boxless_job : job :=
  mkJob (rgb_header false) None 0 true
    [sample_page [] [rgb_strip 2 1]; sample_page [] [rgb_strip 2 1]].

(** An image that declares /Width 134217729 and /Height 1; the header
    stage reads the two numbers only, not the stream. *)
Definition wide_strip : PageImage :=
  mkImage 134217729 1 (QName DeviceRGB) [].

(** A job of 32 bits per pixel (chunked CMYK, 8 bits per color) whose one
    page holds that image. *)
Definition wide_job : job :=
  mkJob (mkHeader false false 0 0 8 32 0 CUPS_ORDER_CHUNKED CUPS_CSPACE_CMYK
           4 None)
    None 0 true [sample_page [("/MediaBox"%string, letter_box)] [wide_strip]].

(** * Facts *)

(** ** The duplex policy *)

Lemma strcasecmp_first (c k : ascii) (r s : string) :
  strcasecmp (String c r) (String k s) = 0 ->
  uchar (tolower c) = uchar (tolower k).
Proof.
  simpl. destruct (Z.eqb_spec (uchar (tolower c) - uchar (tolower k)) 0); lia.
Qed.

Lemma strcasecmp_empty_l (k : ascii) (s : string) :
  uchar (tolower k) <> 0 -> strcasecmp EmptyString (String k s) <> 0.
Proof. simpl. lia. Qed.

(** A string matches at most one of the three backside names: their
    first letters differ. *)
Lemma strcasecmp_apart (b : string) (k1 k2 : ascii) (s1 s2 : string) :
  uchar (tolower k1) <> 0 ->
  uchar (tolower k1) <> uchar (tolower k2) ->
  strcasecmp b (String k1 s1) = 0 -> strcasecmp b (String k2 s2) <> 0.
Proof.
  intros Hnz Hne H1 H2. destruct b as [|c r].
  - revert H1. now apply strcasecmp_empty_l.
  - apply strcasecmp_first in H1. apply strcasecmp_first in H2. congruence.
Qed.

Lemma Flipped_not_ManualTumble (b : string) :
  strcasecmp b "Flipped" = 0 -> (strcasecmp b "ManualTumble" =? 0) = false.
Proof.
  intros H. apply Z.eqb_neq. revert H. apply strcasecmp_apart; vm_compute; congruence.
Qed.

Lemma Flipped_not_Rotated (b : string) :
  strcasecmp b "Flipped" = 0 -> (strcasecmp b "Rotated" =? 0) = false.
Proof.
  intros H. apply Z.eqb_neq. revert H. apply strcasecmp_apart; vm_compute; congruence.
Qed.

Lemma Rotated_not_ManualTumble (b : string) :
  strcasecmp b "Rotated" = 0 -> (strcasecmp b "ManualTumble" =? 0) = false.
Proof.
  intros H. apply Z.eqb_neq. revert H. apply strcasecmp_apart; vm_compute; congruence.
Qed.

(** C1, as the code has it.  The block leaves the four flags alone when
    the job is not duplex.  Otherwise, with the effective backside string
    (the value of cupsBackSide, or "Rotated" when the attribute is absent
    and the PPD has flip_duplex set, or the empty string) compared without
    regard to case: ManualTumble with tumble, and Rotated without tumble,
    set all four flags and clear swap-margin-y again when the
    flipped-margin attribute is true; Flipped sets image-x and both margin
    flags with tumble and image-y alone without, and inverts swap-margin-y
    when the flipped-margin attribute is present and not true; every other
    combination leaves all four flags false. *)
Theorem parseOpts_duplex_table (duplex tumble : bool) (p : ppd_duplex) :
  let b := backside_of p in
  let fm := flippedMargin_of p in
  let s := parseOpts_duplex duplex tumble p no_swap in
  (duplex = false -> s = no_swap) /\
  (duplex = true ->
   ((strcasecmp b "ManualTumble" = 0 /\ tumble = true) \/
    (strcasecmp b "Rotated" = 0 /\ tumble = false) ->
    s = mkSwap true true true (negb (is_FM_TRUE fm))) /\
   (strcasecmp b "Flipped" = 0 ->
    s = if tumble
        then mkSwap true false true (negb (is_FM_FALSE fm))
        else mkSwap false true false (is_FM_FALSE fm)) /\
   (~ (strcasecmp b "ManualTumble" = 0 /\ tumble = true) ->
    ~ (strcasecmp b "Rotated" = 0 /\ tumble = false) ->
    strcasecmp b "Flipped" <> 0 ->
    s = no_swap)) /\
  (cupsBackSide p = None ->
   b = if flip_duplex p then "Rotated"%string else ""%string) /\
  s = (if duplex then computeSwapState b tumble fm else no_swap).
Proof.
  cbv zeta. unfold parseOpts_duplex, computeSwapState.
  split; [intros ->; reflexivity|].
  split; [intros ->|split].
  - split; [|split].
    + intros [[Hb ->]|[Hb ->]]; unfold duplex_swap.
      * rewrite Hb. simpl. now destruct (flippedMargin_of p).
      * rewrite (Rotated_not_ManualTumble _ Hb), Hb. simpl.
        now destruct (flippedMargin_of p).
    + intros Hb. unfold duplex_swap.
      rewrite (Flipped_not_ManualTumble _ Hb), (Flipped_not_Rotated _ Hb), Hb.
      simpl. now destruct tumble, (flippedMargin_of p).
    + intros H1 H2 H3. unfold duplex_swap.
      destruct (Z.eqb_spec (strcasecmp (backside_of p) "ManualTumble") 0) as [E1|E1];
        destruct (Z.eqb_spec (strcasecmp (backside_of p) "Rotated") 0) as [E2|E2];
        destruct (Z.eqb_spec (strcasecmp (backside_of p) "Flipped") 0) as [E3|E3];
        destruct tumble; simpl; try reflexivity; tauto.
  - unfold backside_of. now intros ->.
  - now destruct duplex.
Qed.

(** Against C1 as written: with no cupsBackSide attribute the flags do
    not stay false when the PPD has flip_duplex set (the backside is then
    taken to be "Rotated"), and a backside value is recognised in any
    letter case. *)
Lemma absent_backside_not_no_swap :
  cupsBackSide (mkPpdDuplex None true None) = None /\
  parseOpts_duplex true false (mkPpdDuplex None true None) no_swap
  = mkSwap true true true true /\
  parseOpts_duplex true false (mkPpdDuplex None true None) no_swap
  <> no_swap /\
  computeSwapState "flipped" false FM_NO = mkSwap false true false false.
Proof. repeat split. discriminate. Qed.

(** The test of section 8 of the specification. *)
Example ManualTumble_example :
  computeSwapState "ManualTumble" true FM_NO = mkSwap true true true true /\
  swap_margin_y (computeSwapState "ManualTumble" true FM_TRUE) = false.
Proof. split; reflexivity. Qed.

(** ** Buffers *)

Section BufferFacts.
Context {A : Type}.
Implicit Types (buf src dst : list A) (p i : Z).

Lemma rd_inside buf i : 0 <= i < len buf -> exists x, rd buf i = Some x.
Proof.
  intros [H0 H1]. unfold rd, len in *.
  destruct (Z.ltb_spec i 0); [lia|].
  destruct (lookup_lt_is_Some_2 buf (Z.to_nat i)) as [x Hx]; [lia|]. eauto.
Qed.

Lemma rd_outside buf i : i < 0 \/ len buf <= i -> rd buf i = None.
Proof.
  intros H. unfold rd, len in *. destruct (Z.ltb_spec i 0); [reflexivity|].
  apply lookup_ge_None_2. lia.
Qed.

Lemma load_rd buf p x : rd buf p = Some x -> load buf p = Done x.
Proof.
  unfold rd, load. destruct (p <? 0); [discriminate|]. now intros ->.
Qed.

Lemma store_inside buf p x :
  0 <= p < len buf -> store buf p x = Done (<[Z.to_nat p := x]> buf).
Proof.
  intros [H0 H1]. unfold store, len in *.
  destruct (Z.leb_spec 0 p); [|lia].
  destruct (Z.ltb_spec p (Z.of_nat (length buf))); [reflexivity|lia].
Qed.

Lemma len_insert buf (n : nat) x : len (<[n := x]> buf) = len buf.
Proof. unfold len. now rewrite length_insert. Qed.

Lemma rd_insert buf p x i :
  0 <= p < len buf ->
  rd (<[Z.to_nat p := x]> buf) i = if i =? p then Some x else rd buf i.
Proof.
  intros [H0 H1]. unfold rd, len in *.
  destruct (Z.eqb_spec i p) as [->|Hne].
  - destruct (Z.ltb_spec p 0); [lia|]. apply list_lookup_insert_eq. lia.
  - destruct (Z.ltb_spec i 0); [reflexivity|].
    apply list_lookup_insert_ne. lia.
Qed.

(** Two buffers of one length with the same cells are equal. *)
Lemma buffer_ext buf1 buf2 :
  len buf1 = len buf2 ->
  (forall i, 0 <= i < len buf1 -> rd buf1 i = rd buf2 i) ->
  buf1 = buf2.
Proof.
  intros Hlen H. apply list_eq. intros n.
  destruct (decide (n < length buf1)%nat) as [Hn|Hn].
  - specialize (H (Z.of_nat n)). unfold rd, len in *.
    destruct (Z.ltb_spec (Z.of_nat n) 0); [lia|].
    rewrite Nat2Z.id in H. apply H. lia.
  - unfold len in Hlen.
    rewrite (lookup_ge_None_2 buf1), (lookup_ge_None_2 buf2); [done|lia|lia].
Qed.

(** *** One pixel *)

Lemma copy_pixel_spec (c : nat) : forall j src bp dst dp,
  0 <= bp + j -> bp + j + Z.of_nat c <= len src ->
  0 <= dp + j -> dp + j + Z.of_nat c <= len dst ->
  exists d,
    copy_pixel c j src bp dst dp = Done d /\
    len d = len dst /\
    forall i, rd d i =
      if (dp + j <=? i) && (i <? dp + j + Z.of_nat c)
      then rd src (bp + (i - dp)) else rd dst i.
Proof.
  induction c as [|c IH]; intros j src bp dst dp Hb0 Hb1 Hd0 Hd1.
  - exists dst. split; [reflexivity|]. split; [reflexivity|].
    intros i. destruct (Z.leb_spec (dp + j) i), (Z.ltb_spec i (dp + j + Z.of_nat 0)); simpl; try reflexivity; lia.
  - cbn [copy_pixel].
    destruct (rd_inside src (bp + j)) as [x Hx]; [lia|].
    rewrite (load_rd _ _ _ Hx). cbn [obind].
    rewrite store_inside by lia. cbn [obind].
    destruct (IH (j + 1) src bp (<[Z.to_nat (dp + j) := x]> dst) dp)
      as (d & Hd & Hlen & Hrd); try rewrite len_insert; try lia.
    exists d. split; [exact Hd|]. split; [now rewrite Hlen, len_insert|].
    intros i. rewrite Hrd. rewrite rd_insert by lia.
    destruct (Z.leb_spec (dp + (j + 1)) i), (Z.ltb_spec i (dp + (j + 1) + Z.of_nat c)),
      (Z.leb_spec (dp + j) i), (Z.ltb_spec i (dp + j + Z.of_nat (S c))),
      (Z.eqb_spec i (dp + j)); simpl; try reflexivity; try lia.
    subst i. rewrite <- Hx. f_equal. lia.
Qed.

(** *** One row of pixels *)

Lemma copy_row_spec (c : nat) (step : Z) src : forall (n : nat) (k : cursor),
  0 <= cur_dp k ->
  cur_dp k + Z.of_nat n * Z.of_nat c <= len (cur_dst k) ->
  (forall q, 0 <= q < Z.of_nat n ->
     0 <= cur_bp k + q * step /\
     cur_bp k + q * step + Z.of_nat c <= len src) ->
  exists d,
    copy_row n c step src k
    = Done (mkCursor (cur_bp k + Z.of_nat n * step)
              (cur_dp k + Z.of_nat n * Z.of_nat c) d) /\
    len d = len (cur_dst k) /\
    (forall i, i < cur_dp k \/ cur_dp k + Z.of_nat n * Z.of_nat c <= i ->
       rd d i = rd (cur_dst k) i) /\
    (forall q j, 0 <= q < Z.of_nat n -> 0 <= j < Z.of_nat c ->
       rd d (cur_dp k + q * Z.of_nat c + j) = rd src (cur_bp k + q * step + j)).
Proof.
  induction n as [|n IH]; intros [bp dp dst]; cbn [cur_bp cur_dp cur_dst];
    intros Hd0 Hd1 Hsrc.
  - exists dst. cbn [copy_row]. repeat split; try (intros; lia).
    do 2 f_equal; lia.
  - cbn [copy_row cur_bp cur_dp cur_dst].
    rewrite Nat2Z.inj_succ in *. unfold Z.succ in *.
    rewrite Z.mul_add_distr_r, Z.mul_1_l in Hd1.
    assert (Hnc : 0 <= Z.of_nat n * Z.of_nat c)
      by (apply Z.mul_nonneg_nonneg; lia).
    destruct (copy_pixel_spec c 0 src bp dst dp) as (d1 & Hd & Hlen1 & Hrd1).
    { specialize (Hsrc 0). lia. } { specialize (Hsrc 0). lia. } { lia. } { lia. }
    rewrite Hd. cbn [obind].
    destruct (IH (mkCursor (bp + step) (dp + Z.of_nat c) d1))
      as (d & Hrow & Hlen & Hout & Hin); cbn [cur_bp cur_dp cur_dst].
    { lia. } { rewrite Hlen1. lia. }
    { intros q Hq. specialize (Hsrc (q + 1)). 
      replace (bp + step + q * step) with (bp + (q + 1) * step) by lia.
      apply Hsrc. lia. }
    cbn [cur_bp cur_dp cur_dst] in *.
    exists d. split.
    { rewrite Hrow. do 2 f_equal; lia. }
    split; [congruence|]. split.
    + intros i Hi. rewrite Hout by nia. rewrite Hrd1.
      destruct (Z.leb_spec (dp + 0) i), (Z.ltb_spec i (dp + 0 + Z.of_nat c));
        simpl; try reflexivity; nia.
    + intros q j Hq Hj. destruct (Z.eq_dec q 0) as [->|Hq0].
      * rewrite Hout by nia. rewrite Hrd1.
        destruct (Z.leb_spec (dp + 0) (dp + 0 * Z.of_nat c + j)),
          (Z.ltb_spec (dp + 0 * Z.of_nat c + j) (dp + 0 + Z.of_nat c));
          simpl; try lia. f_equal. lia.
      * specialize (Hin (q - 1) j). 
        replace (dp + Z.of_nat c + (q - 1) * Z.of_nat c + j)
          with (dp + q * Z.of_nat c + j) in Hin by lia.
        replace (bp + step + (q - 1) * step + j)
          with (bp + q * step + j) in Hin by lia.
        apply Hin; lia.
Qed.

(** *** The nest of loops *)

Lemma pixel_index_bound (q j n c : Z) :
  0 <= q < n -> 0 <= j < c -> 0 <= q * c + j < n * c.
Proof. intros Hq Hj. nia. Qed.

Lemma copy_rows_spec (c : nat) (step : Z) (start : Z -> Z -> Z)
    (B : Z -> Z) (W : nat) src : forall (n : nat) (h0 : Z) (k : cursor),
  0 <= cur_dp k ->
  cur_dp k + Z.of_nat n * (Z.of_nat W * Z.of_nat c) <= len (cur_dst k) ->
  (n <> 0%nat -> start h0 (cur_bp k) = B h0) ->
  (forall r, h0 <= r -> r + 1 < h0 + Z.of_nat n ->
     start (r + 1) (B r + Z.of_nat W * step) = B (r + 1)) ->
  (forall r q, 0 <= r < Z.of_nat n -> 0 <= q < Z.of_nat W ->
     0 <= B (h0 + r) + q * step /\
     B (h0 + r) + q * step + Z.of_nat c <= len src) ->
  exists k',
    copy_rows n h0 start W c step src k = Done k' /\
    cur_dp k' = cur_dp k + Z.of_nat n * (Z.of_nat W * Z.of_nat c) /\
    len (cur_dst k') = len (cur_dst k) /\
    (forall i,
       i < cur_dp k \/
       cur_dp k + Z.of_nat n * (Z.of_nat W * Z.of_nat c) <= i ->
       rd (cur_dst k') i = rd (cur_dst k) i) /\
    (forall r q j,
       0 <= r < Z.of_nat n -> 0 <= q < Z.of_nat W -> 0 <= j < Z.of_nat c ->
       rd (cur_dst k') (cur_dp k + (r * Z.of_nat W + q) * Z.of_nat c + j)
       = rd src (B (h0 + r) + q * step + j)).
Proof.
  assert (HWc : 0 <= Z.of_nat W * Z.of_nat c)
    by (apply Z.mul_nonneg_nonneg; lia).
  induction n as [|n IH]; intros h0 [bp dp dst]; cbn [cur_bp cur_dp cur_dst];
    intros Hd0 Hd1 Hstart Hnext Hsrc.
  - exists (mkCursor bp dp dst). cbn [copy_rows cur_dp cur_dst].
    repeat split; try (intros; lia).
  - cbn [copy_rows cur_bp cur_dp cur_dst].
    rewrite Nat2Z.inj_succ in *. unfold Z.succ in *.
    rewrite Z.mul_add_distr_r, Z.mul_1_l in Hd1.
    assert (Hn : 0 <= Z.of_nat n * (Z.of_nat W * Z.of_nat c))
      by (apply Z.mul_nonneg_nonneg; lia).
    rewrite Hstart by lia.
    destruct (copy_row_spec c step src W (mkCursor (B h0) dp dst))
      as (d1 & Hrow & Hlen1 & Hout1 & Hin1); cbn [cur_bp cur_dp cur_dst].
    { lia. } { lia. }
    { intros q Hq. specialize (Hsrc 0 q). rewrite Z.add_0_r in Hsrc.
      apply Hsrc; lia. }
    cbn [cur_bp cur_dp cur_dst] in *. rewrite Hrow. cbn [obind].
    destruct (IH (h0 + 1)
                (mkCursor (B h0 + Z.of_nat W * step)
                   (dp + Z.of_nat W * Z.of_nat c) d1))
      as (k' & Hk & Hdp & Hlen & Hout & Hin); cbn [cur_bp cur_dp cur_dst].
    { lia. } { rewrite Hlen1. lia. }
    { intros Hn0. apply Hnext; lia. }
    { intros r Hr0 Hr1. apply Hnext; lia. }
    { intros r q Hr Hq. specialize (Hsrc (r + 1) q).
      replace (h0 + 1 + r) with (h0 + (r + 1)) by lia. apply Hsrc; lia. }
    cbn [cur_bp cur_dp cur_dst] in *.
    exists k'. split; [exact Hk|]. split; [lia|]. split; [congruence|]. split.
    + intros i Hi. rewrite Hout by lia. apply Hout1. lia.
    + intros r q j Hr Hq Hj.
      pose proof (pixel_index_bound q j _ _ Hq Hj) as Hqj.
      destruct (Z.eq_dec r 0) as [->|Hr0].
      * rewrite Hout by lia.
        replace (dp + (0 * Z.of_nat W + q) * Z.of_nat c + j)
          with (dp + q * Z.of_nat c + j) by lia.
        rewrite Hin1 by lia. now rewrite Z.add_0_r.
      * specialize (Hin (r - 1) q j).
        replace (dp + Z.of_nat W * Z.of_nat c
                 + ((r - 1) * Z.of_nat W + q) * Z.of_nat c + j)
          with (dp + (r * Z.of_nat W + q) * Z.of_nat c + j) in Hin by lia.
        replace (h0 + 1 + (r - 1)) with (h0 + r) in Hin by lia.
        apply Hin; lia.
Qed.

Lemma rotate_loops_spec src dst (H W : Z) (c : nat) (bp0 : Z)
    (start : Z -> Z -> Z) (step : Z) (B : Z -> Z) :
  0 <= H -> 0 <= W -> H * W * Z.of_nat c <= len dst ->
  (0 < H -> start 0 bp0 = B 0) ->
  (forall r, 0 <= r -> r + 1 < H -> start (r + 1) (B r + W * step) = B (r + 1)) ->
  (forall r q, 0 <= r < H -> 0 <= q < W ->
     0 <= B r + q * step /\ B r + q * step + Z.of_nat c <= len src) ->
  exists d,
    rotate_loops src dst H W c bp0 start step = Done d /\
    len d = len dst /\
    (forall i, H * W * Z.of_nat c <= i -> rd d i = rd dst i) /\
    (forall r q j, 0 <= r < H -> 0 <= q < W -> 0 <= j < Z.of_nat c ->
       rd d ((r * W + q) * Z.of_nat c + j) = rd src (B r + q * step + j)).
Proof.
  intros HH HW Hlen Hstart Hnext Hsrc. unfold rotate_loops.
  destruct (copy_rows_spec c step start B (Z.to_nat W) src (Z.to_nat H) 0
              (mkCursor bp0 0 dst))
    as (k' & Hk & Hdp & Hlen' & Hout & Hin); cbn [cur_bp cur_dp cur_dst];
    rewrite ?Z2Nat.id by lia.
  { lia. } { lia. }
  { intros Hn. apply Hstart. lia. }
  { intros r Hr0 Hr1. apply Hnext; lia. }
  { intros r q Hr Hq. rewrite Z.add_0_l. now apply Hsrc. }
  cbn [cur_bp cur_dp cur_dst] in *. rewrite ?Z2Nat.id in * by lia.
  rewrite Hk. cbn [obind]. exists (cur_dst k').
  split; [reflexivity|]. split; [exact Hlen'|]. split.
  - intros i Hi. apply Hout. lia.
  - intros r q j Hr Hq Hj. specialize (Hin r q j Hr Hq Hj).
    now rewrite !Z.add_0_l in Hin.
Qed.

(** Every offset below [H * W * c] is that of one component of one pixel
    of one row. *)
Lemma offset_split (H W c i : Z) :
  0 < c -> 0 <= W -> 0 <= i < H * W * c ->
  exists r q j,
    0 <= r < H /\ 0 <= q < W /\ 0 <= j < c /\ i = (r * W + q) * c + j.
Proof.
  intros Hc HW Hi.
  assert (HW0 : 0 < W).
  { destruct (Z.eq_dec W 0) as [->|]; [|lia].
    rewrite Z.mul_0_r, Z.mul_0_l in Hi. lia. }
  exists (i / c / W), ((i / c) mod W), (i mod c).
  pose proof (Z.div_mod i c ltac:(lia)) as E1.
  pose proof (Z.mod_pos_bound i c Hc) as B1.
  pose proof (Z.div_mod (i / c) W ltac:(lia)) as E2.
  pose proof (Z.mod_pos_bound (i / c) W HW0) as B2.
  assert (0 <= i / c) by (apply Z.div_pos; lia).
  assert (0 <= i / c / W) by (apply Z.div_pos; lia).
  assert (i / c < H * W) by (apply Z.div_lt_upper_bound; lia).
  assert (i / c / W < H) by (apply Z.div_lt_upper_bound; lia).
  repeat split; lia.
Qed.

Lemma cell_bound (H W c r q : Z) :
  0 <= r < H -> 0 <= q < W -> 0 <= c ->
  0 <= (r * W + q) * c /\ (r * W + q) * c + c <= H * W * c.
Proof.
  intros Hr Hq Hc.
  assert (0 <= r * W + q < H * W) by (apply pixel_index_bound; lia).
  nia.
Qed.

End BufferFacts.

Lemma u32_small (z : Z) : 0 <= z < 2 ^ 32 -> u32 z = z.
Proof. intros Hz. unfold u32. now apply Z.mod_small. Qed.

(** Drop every [u32] whose argument is seen to be in range. *)
Ltac u32_simpl :=
  repeat match goal with
         | |- context [u32 ?z] => rewrite (u32_small z) by nia
         end.

(** ** The rotator *)

Lemma components_cases (cs : string) (c : nat) :
  components cs = Some c ->
  (cs = DeviceGray /\ c = 1%nat) \/ (cs = DeviceCMYK /\ c = 4%nat) \/
  (cs = DeviceRGB /\ c = 3%nat).
Proof.
  unfold components.
  destruct (String.eqb_spec cs DeviceGray) as [->|_]; [intros [= <-]; auto|].
  destruct (String.eqb_spec cs DeviceCMYK) as [->|_]; [intros [= <-]; auto|].
  destruct (String.eqb_spec cs DeviceRGB) as [->|_]; [intros [= <-]; auto|].
  discriminate.
Qed.

Section RotatorFacts.
Context {A : Type}.
Implicit Types (src dst : list A).

(** A half turn with any stride: output pixel [k] is the source pixel
    that lies [k] pixels before offset [height * rowsize - c]. *)
Lemma rotatebitmap_180_stride src dst (H W rs : Z) (cs : string) (c : nat) :
  components cs = Some c ->
  0 <= H -> 0 <= W ->
  H * W * Z.of_nat c <= len dst ->
  (H * W - 1) * Z.of_nat c <= u32 (H * rs) - Z.of_nat c ->
  u32 (H * rs) <= len src ->
  exists d,
    rotatebitmap src dst 180 H W rs cs = Done d /\
    len d = len dst /\
    (forall i, H * W * Z.of_nat c <= i -> rd d i = rd dst i) /\
    (forall r q j, 0 <= r < H -> 0 <= q < W -> 0 <= j < Z.of_nat c ->
       rd d ((r * W + q) * Z.of_nat c + j)
       = rd src (u32 (H * rs) - Z.of_nat c - (r * W + q) * Z.of_nat c + j)).
Proof.
  intros Hcs HH HW Hdst Hlo Hhi.
  assert (Hloops : exists d,
    rotate_loops src dst H W c (u32 (H * rs) - Z.of_nat c) (fun _ bp => bp)
      (- Z.of_nat c) = Done d /\
    len d = len dst /\
    (forall i, H * W * Z.of_nat c <= i -> rd d i = rd dst i) /\
    (forall r q j, 0 <= r < H -> 0 <= q < W -> 0 <= j < Z.of_nat c ->
       rd d ((r * W + q) * Z.of_nat c + j)
       = rd src (u32 (H * rs) - Z.of_nat c - (r * W + q) * Z.of_nat c + j))).
  { destruct (rotate_loops_spec src dst H W c (u32 (H * rs) - Z.of_nat c)
                (fun _ bp => bp) (- Z.of_nat c)
                (fun r => u32 (H * rs) - Z.of_nat c - r * W * Z.of_nat c))
      as (d & Hd & Hlen & Hout & Hin); try assumption.
    - intros _. lia.
    - intros r _ _. lia.
    - intros r q Hr Hq.
      destruct (cell_bound H W (Z.of_nat c) r q Hr Hq ltac:(lia)). lia.
    - exists d. repeat split; try assumption.
      intros r q j Hr Hq Hj. rewrite Hin by assumption. f_equal. lia. }
  destruct (components_cases _ _ Hcs) as [[-> ->]|[[-> ->]|[-> ->]]];
    exact Hloops.
Qed.

(** A quarter turn clockwise: the source has [W] rows of [H] pixels. *)
Lemma rotatebitmap_90_cells src dst (H W rs : Z) (cs : string) (c : nat) :
  components cs = Some c ->
  1 <= H -> 1 <= W -> H * W * Z.of_nat c < 2 ^ 32 ->
  H * W * Z.of_nat c <= len dst ->
  H * W * Z.of_nat c <= len src ->
  exists d,
    rotatebitmap src dst 90 H W rs cs = Done d /\
    len d = len dst /\
    (forall i, H * W * Z.of_nat c <= i -> rd d i = rd dst i) /\
    (forall r q j, 0 <= r < H -> 0 <= q < W -> 0 <= j < Z.of_nat c ->
       rd d ((r * W + q) * Z.of_nat c + j)
       = rd src (((W - 1 - q) * H + r) * Z.of_nat c + j)).
Proof.
  intros Hcs HH HW Hwrap Hdst Hsrc.
  assert (Hc : (1 <= c)%nat).
  { destruct (components_cases _ _ Hcs) as [[_ ->]|[[_ ->]|[_ ->]]]; lia. }
  assert (Hb : forall r q, 0 <= r < H -> 0 <= q < W ->
     0 <= ((W - 1 - q) * H + r) * Z.of_nat c /\
     ((W - 1 - q) * H + r) * Z.of_nat c + Z.of_nat c <= H * W * Z.of_nat c).
  { intros r q Hr Hq.
    destruct (cell_bound W H (Z.of_nat c) (W - 1 - q) r) as [? ?]; lia. }
  assert (Hgen : forall start step,
    (forall r, 0 <= r < H -> start r = (W - 1) * H * Z.of_nat c + Z.of_nat c * r) ->
    step = - (H * Z.of_nat c) ->
    exists d,
    rotate_loops src dst H W c 0 (fun h _ => start h) step = Done d /\
    len d = len dst /\
    (forall i, H * W * Z.of_nat c <= i -> rd d i = rd dst i) /\
    (forall r q j, 0 <= r < H -> 0 <= q < W -> 0 <= j < Z.of_nat c ->
       rd d ((r * W + q) * Z.of_nat c + j)
       = rd src (((W - 1 - q) * H + r) * Z.of_nat c + j))).
  { intros start step Hstart ->.
    destruct (rotate_loops_spec src dst H W c 0 (fun h _ => start h)
                (- (H * Z.of_nat c))
                (fun r => (W - 1) * H * Z.of_nat c + Z.of_nat c * r))
      as (d & Hd & Hlen & Hout & Hin); try lia.
    - intros _. apply Hstart. lia.
    - intros r Hr0 Hr1. apply Hstart. lia.
    - intros r q Hr Hq. specialize (Hb r q Hr Hq).
      replace ((W - 1) * H * Z.of_nat c + Z.of_nat c * r
               + q * - (H * Z.of_nat c))
        with (((W - 1 - q) * H + r) * Z.of_nat c) by lia. lia.
    - exists d. repeat split; try assumption.
      intros r q j Hr Hq Hj. rewrite Hin by assumption. f_equal. lia. }
  assert (Hp : 0 <= (W - 1) * H) by nia.
  assert (Hp2 : (W - 1) * H * Z.of_nat c < 2 ^ 32) by nia.
  assert (Hp3 : (W - 1) * H < 2 ^ 32) by nia.
  assert (Hp4 : H * Z.of_nat c < 2 ^ 32) by nia.
  destruct (components_cases _ _ Hcs) as [[-> ->]|[[-> ->]|[-> ->]]];
    apply Hgen; try (intros r Hr); u32_simpl; lia.
Qed.

(** A quarter turn the other way. *)
Lemma rotatebitmap_270_cells src dst (H W rs : Z) (cs : string) (c : nat) :
  components cs = Some c ->
  1 <= H -> 1 <= W -> H * W * Z.of_nat c < 2 ^ 32 ->
  H * W * Z.of_nat c <= len dst ->
  H * W * Z.of_nat c <= len src ->
  exists d,
    rotatebitmap src dst 270 H W rs cs = Done d /\
    len d = len dst /\
    (forall i, H * W * Z.of_nat c <= i -> rd d i = rd dst i) /\
    (forall r q j, 0 <= r < H -> 0 <= q < W -> 0 <= j < Z.of_nat c ->
       rd d ((r * W + q) * Z.of_nat c + j)
       = rd src ((q * H + (H - 1 - r)) * Z.of_nat c + j)).
Proof.
  intros Hcs HH HW Hwrap Hdst Hsrc.
  assert (Hc : (1 <= c)%nat).
  { destruct (components_cases _ _ Hcs) as [[_ ->]|[[_ ->]|[_ ->]]]; lia. }
  assert (Hb : forall r q, 0 <= r < H -> 0 <= q < W ->
     0 <= (q * H + (H - 1 - r)) * Z.of_nat c /\
     (q * H + (H - 1 - r)) * Z.of_nat c + Z.of_nat c <= H * W * Z.of_nat c).
  { intros r q Hr Hq.
    destruct (cell_bound W H (Z.of_nat c) q (H - 1 - r)) as [? ?]; lia. }
  assert (Hgen : forall start step,
    (forall r, 0 <= r < H -> start r = (H - r) * Z.of_nat c - Z.of_nat c) ->
    step = H * Z.of_nat c ->
    exists d,
    rotate_loops src dst H W c 0 (fun h _ => start h) step = Done d /\
    len d = len dst /\
    (forall i, H * W * Z.of_nat c <= i -> rd d i = rd dst i) /\
    (forall r q j, 0 <= r < H -> 0 <= q < W -> 0 <= j < Z.of_nat c ->
       rd d ((r * W + q) * Z.of_nat c + j)
       = rd src ((q * H + (H - 1 - r)) * Z.of_nat c + j))).
  { intros start step Hstart ->.
    destruct (rotate_loops_spec src dst H W c 0 (fun h _ => start h)
                (H * Z.of_nat c)
                (fun r => (H - r) * Z.of_nat c - Z.of_nat c))
      as (d & Hd & Hlen & Hout & Hin); try lia.
    - intros _. apply Hstart. lia.
    - intros r Hr0 Hr1. apply Hstart. lia.
    - intros r q Hr Hq. specialize (Hb r q Hr Hq).
      replace ((H - r) * Z.of_nat c - Z.of_nat c + q * (H * Z.of_nat c))
        with ((q * H + (H - 1 - r)) * Z.of_nat c) by lia. lia.
    - exists d. repeat split; try assumption.
      intros r q j Hr Hq Hj. rewrite Hin by assumption. f_equal. lia. }
  assert (Hp4 : H * Z.of_nat c < 2 ^ 32) by nia.
  destruct (components_cases _ _ Hcs) as [[-> ->]|[[-> ->]|[-> ->]]];
    apply Hgen; try (intros r Hr); u32_simpl; lia.
Qed.

(** Two buffers of [H * W] pixels with the same components are equal. *)
Lemma cells_ext (d x : list A) (H W : Z) (c : nat) :
  (0 < c)%nat -> 0 <= W ->
  len d = H * W * Z.of_nat c -> len x = H * W * Z.of_nat c ->
  (forall r q j, 0 <= r < H -> 0 <= q < W -> 0 <= j < Z.of_nat c ->
     rd d ((r * W + q) * Z.of_nat c + j) = rd x ((r * W + q) * Z.of_nat c + j)) ->
  d = x.
Proof.
  intros Hc HW Hd Hx Hcells. apply buffer_ext; [congruence|].
  intros i Hi. rewrite Hd in Hi.
  destruct (offset_split H W (Z.of_nat c) i) as (r & q & j & Hr & Hq & Hj & ->);
    try lia.
  now apply Hcells.
Qed.

(** A half turn with the stride of the buffer, row by row. *)
Lemma rotatebitmap_180_rows src dst (H W : Z) (cs : string) (c : nat) :
  components cs = Some c ->
  0 <= H -> 0 <= W -> H * W * Z.of_nat c < 2 ^ 32 ->
  len src = H * W * Z.of_nat c -> len dst = H * W * Z.of_nat c ->
  exists d,
    rotatebitmap src dst 180 H W (W * Z.of_nat c) cs = Done d /\
    len d = H * W * Z.of_nat c /\
    (forall h w j, 0 <= h < H -> 0 <= w < W -> 0 <= j < Z.of_nat c ->
       rd d ((h * W + w) * Z.of_nat c + j)
       = rd src (((H - 1 - h) * W + (W - 1 - w)) * Z.of_nat c + j)).
Proof.
  intros Hcs HH HW Hwrap Hsrc Hdst.
  assert (Hc : (1 <= c)%nat).
  { destruct (components_cases _ _ Hcs) as [[_ ->]|[[_ ->]|[_ ->]]]; lia. }
  assert (Hn : 0 <= H * W) by (apply Z.mul_nonneg_nonneg; lia).
  assert (Hu : u32 (H * (W * Z.of_nat c)) = H * W * Z.of_nat c).
  { rewrite Z.mul_assoc. apply u32_small. nia. }
  destruct (rotatebitmap_180_stride src dst H W (W * Z.of_nat c) cs c)
    as (d & Hd & Hlen & _ & Hin); try assumption; try lia.
  exists d. split; [exact Hd|]. split; [lia|]. rewrite Hu in Hin.
  intros h w j Hh Hw Hj. rewrite Hin by assumption. f_equal. lia.
Qed.

(** C4.  A half turn of a buffer of [H] rows of [W] pixels of [c]
    components, with the row stride [W * c]: row [h] of the output is row
    [H - 1 - h] of the input with its pixels in reverse order and the
    components of each pixel in their original order; counted in pixels,
    output pixel [k] is input pixel [H * W - 1 - k] (for Gray, one byte
    per pixel, [dst[i] = src[N - 1 - i]]). *)
Theorem rotatebitmap_180_matched src dst (H W : Z) (cs : string) (c : nat) :
  components cs = Some c ->
  0 <= H -> 0 <= W -> H * W * Z.of_nat c < 2 ^ 32 ->
  len src = H * W * Z.of_nat c -> len dst = H * W * Z.of_nat c ->
  exists d,
    rotatebitmap src dst 180 H W (W * Z.of_nat c) cs = Done d /\
    len d = H * W * Z.of_nat c /\
    (forall h w j, 0 <= h < H -> 0 <= w < W -> 0 <= j < Z.of_nat c ->
       rd d ((h * W + w) * Z.of_nat c + j)
       = rd src (((H - 1 - h) * W + (W - 1 - w)) * Z.of_nat c + j)) /\
    (forall k j, 0 <= k < H * W -> 0 <= j < Z.of_nat c ->
       rd d (k * Z.of_nat c + j)
       = rd src ((H * W - 1 - k) * Z.of_nat c + j)) /\
    (c = 1%nat -> forall i, 0 <= i < H * W -> rd d i = rd src (H * W - 1 - i)).
Proof.
  intros Hcs HH HW Hwrap Hsrc Hdst.
  destruct (rotatebitmap_180_rows src dst H W cs c)
    as (d & Hd & Hlen & Hrows); try assumption.
  exists d. split; [exact Hd|]. split; [exact Hlen|].
  split; [exact Hrows|].
  assert (Hk : forall k j, 0 <= k < H * W -> 0 <= j < Z.of_nat c ->
            rd d (k * Z.of_nat c + j)
            = rd src ((H * W - 1 - k) * Z.of_nat c + j)).
  { intros k j Hk Hj.
    destruct (offset_split H W 1 k) as (r & q & j0 & Hr & Hq & Hj0 & Ek);
      try lia.
    assert (k = r * W + q) as -> by lia.
    rewrite Hrows by assumption. f_equal. lia. }
  split; [exact Hk|].
  intros -> i Hi. specialize (Hk i 0 Hi ltac:(lia)).
  rewrite !Z.mul_1_r, !Z.add_0_r in Hk. exact Hk.
Qed.

(** C3.  Angle 0 returns the source.  A half turn twice, and a quarter
    turn clockwise followed by a quarter turn the other way, give the
    source back, for the three pixel sizes and every buffer of at least
    one pixel.  [src] has [h0] rows of [w0] pixels; the rotator is given
    the dimensions of its output, so the quarter turns are called with
    [(w0, h0)] and then with [(h0, w0)]; they do not use the stride. *)
Theorem rotatebitmap_round_trip src dst1 dst2 (h0 w0 : Z) (cs : string)
    (c : nat) (rs1 rs2 : Z) :
  components cs = Some c ->
  1 <= h0 -> 1 <= w0 -> h0 * w0 * Z.of_nat c < 2 ^ 32 ->
  len src = h0 * w0 * Z.of_nat c ->
  len dst1 = h0 * w0 * Z.of_nat c ->
  len dst2 = h0 * w0 * Z.of_nat c ->
  rotatebitmap src dst1 0 h0 w0 (w0 * Z.of_nat c) cs = Done src /\
  (exists y,
     rotatebitmap src dst1 180 h0 w0 (w0 * Z.of_nat c) cs = Done y /\
     rotatebitmap y dst2 180 h0 w0 (w0 * Z.of_nat c) cs = Done src) /\
  (exists y,
     rotatebitmap src dst1 90 w0 h0 rs1 cs = Done y /\
     rotatebitmap y dst2 270 h0 w0 rs2 cs = Done src).
Proof.
  intros Hcs Hh Hw Hwrap Hsrc Hd1 Hd2.
  assert (Hc : (1 <= c)%nat).
  { destruct (components_cases _ _ Hcs) as [[_ ->]|[[_ ->]|[_ ->]]]; lia. }
  split; [reflexivity|]. split.
  - destruct (rotatebitmap_180_rows src dst1 h0 w0 cs c)
      as (y & Hy & Hleny & Hcell); try assumption; try lia.
    destruct (rotatebitmap_180_rows y dst2 h0 w0 cs c)
      as (z & Hz & Hlenz & Hcellz); try assumption; try lia.
    exists y. split; [exact Hy|]. rewrite Hz. f_equal.
    apply (cells_ext z src h0 w0 c); try lia.
    intros r q j Hr Hq Hj.
    rewrite Hcellz, Hcell by lia. f_equal. lia.
  - destruct (rotatebitmap_90_cells src dst1 w0 h0 rs1 cs c)
      as (y & Hy & Hleny & _ & Hcell); try assumption; try lia.
    destruct (rotatebitmap_270_cells y dst2 h0 w0 rs2 cs c)
      as (z & Hz & Hlenz & _ & Hcellz); try assumption; try lia.
    exists y. split; [exact Hy|]. rewrite Hz. f_equal.
    apply (cells_ext z src h0 w0 c); try lia.
    intros r q j Hr Hq Hj.
    rewrite Hcellz, Hcell by lia. f_equal. lia.
Qed.

End RotatorFacts.

(** ** Conversion dispatch *)

(** C5.  For each of the eight targets and the three sources the selection
    ends without an exit, both function pointers are set, the colorspace
    function is the conversion the table defines for the pair, and where
    the table has none it is the no-op, which returns its source row. *)
Theorem selectConvertFunc_total `{CupsFilters} (g : globals)
    (colorspace : string) (pgno : Z) :
  In (cupsColorSpace (header g)) device_targets ->
  In colorspace page_sources ->
  exists g' f,
    selectConvertFunc colorspace pgno g = ([], Done g') /\
    convertcspace g' = Some f /\
    (exists l, convertline g' = Some l) /\
    f = match defined_conversion (cupsColorSpace (header g)) colorspace with
        | Some f' => f'
        | None => fp_convertcspaceNoop
        end /\
    (defined_conversion (cupsColorSpace (header g)) colorspace = None ->
     forall g0 src dst row pixels, cspace_fn f g0 src dst row pixels = src).
Proof.
  intros Ht Hs. unfold device_targets, page_sources in *. simpl in Ht, Hs.
  unfold selectConvertFunc.
  destruct Hs as [<-|[<-|[<-|[]]]];
    (destruct Ht as [Ht|[Ht|[Ht|[Ht|[Ht|[Ht|[Ht|[Ht|[]]]]]]]]];
     cbn -[i32 Z.mul backside]; unfold select_cspace;
     cbn -[i32 Z.mul backside]; rewrite <- Ht;
     cbn -[i32 Z.mul backside];
     (eexists; eexists; split; [reflexivity|];
      split; [destruct (backside _ _ && _); reflexivity|];
      split; [destruct (backside _ _ && _); eexists; reflexivity|];
      split; [reflexivity|];
      first [ discriminate | intros _; reflexivity ])).
Qed.

(** ** Traces of the monad *)

Lemma bind_trace {A B : Type} (P : event -> Prop) (m : M A) (f : A -> M B) :
  Forall P (m.1) -> (forall a, Forall P ((f a).1)) ->
  Forall P ((bind m f).1).
Proof.
  destruct m as [t [a| |]]; simpl; intros Ht Hf; try assumption.
  specialize (Hf a). destruct (f a) as [t' o]. simpl in *.
  apply Forall_app. now split.
Qed.

Lemma for_loop_trace {S : Type} (P : event -> Prop) (body : Z -> S -> M S)
    (step : Z) :
  (forall i s, Forall P ((body i s).1)) ->
  forall (n : nat) (i : Z) (s : S), Forall P ((for_loop n i step body s).1).
Proof.
  intros Hbody. induction n as [|n IH]; intros i s; simpl.
  - constructor.
  - apply bind_trace; [apply Hbody|]. intros s1. apply IH.
Qed.

(** The result of a loop does not depend on what its body emits. *)
Lemma for_loop_unit_outcome (body : Z -> unit -> M unit) (step : Z) :
  (forall i, exists t, body i tt = (t, Done tt)) ->
  forall (n : nat) (i : Z), exists t, for_loop n i step body tt = (t, Done tt).
Proof.
  intros Hbody. induction n as [|n IH]; intros i; simpl.
  - eexists. reflexivity.
  - destruct (Hbody i) as [t ->]. simpl.
    destruct (IH (i + step)) as [t' ->]. eexists. reflexivity.
Qed.

(** ** The stages of outPage *)

Lemma write_bands_trace (g : globals) (row plane bp : Z) :
  Forall is_pixels ((write_bands g row plane bp).1).
Proof.
  unfold write_bands. apply for_loop_trace. intros i s. simpl.
  repeat constructor.
Qed.

Lemma write_lines_trace (g : globals) (pgno : Z) :
  Forall is_pixels ((write_lines g pgno).1).
Proof.
  unfold write_lines.
  destruct (backside g pgno && swap_image_y (swap g));
    apply for_loop_trace; intros plane s;
    (apply bind_trace; [|intros; constructor]);
    apply for_loop_trace; intros h bp;
    (apply bind_trace; [apply write_bands_trace|intros; constructor]).
Qed.

Lemma write_bands_done (g : globals) (row plane bp : Z) :
  exists t, write_bands g row plane bp = (t, Done tt).
Proof.
  unfold write_bands. apply for_loop_unit_outcome. intros i.
  eexists. reflexivity.
Qed.

Lemma rows_done (g : globals) (f next : Z -> Z) (plane : Z) :
  forall (n : nat) (h bp : Z) (step : Z),
  exists t bp',
    for_loop n h step
      (fun h bp => write_bands g (f h) plane bp;; ret (next bp)) bp
    = (t, Done bp').
Proof.
  induction n as [|n IH]; intros h bp step; simpl.
  - eexists. eexists. reflexivity.
  - destruct (write_bands_done g (f h) plane bp) as [t ->]. simpl.
    destruct (IH (h + step) (next bp) step) as (t' & bp' & ->).
    eexists. eexists. reflexivity.
Qed.

Lemma write_lines_done (g : globals) (pgno : Z) :
  exists t, write_lines g pgno = (t, Done tt).
Proof.
  unfold write_lines.
  destruct (backside g pgno && swap_image_y (swap g));
    apply for_loop_unit_outcome; intros plane.
  - destruct (rows_done g (fun h => u32 (h - 1)) (fun bp => bp - rowsize g)
                plane
                (Z.to_nat (cupsHeight (header g))) (cupsHeight (header g))
                (u32 (u32 (cupsHeight (header g) - 1) * rowsize g)) (-1))
      as (t & bp' & E).
    rewrite E. eexists. reflexivity.
  - destruct (rows_done g (fun h => h) (fun bp => bp + rowsize g) plane
                (Z.to_nat (cupsHeight (header g))) 0 0 1) as (t & bp' & E).
    rewrite E. eexists. reflexivity.
Qed.

Lemma outPage_unfold (g : globals) (page : Page) (pgno : Z) :
  outPage g page pgno =
  match mediaboxlookup (page_obj page) with
  | Done false => ([EvLog (ErrNoMediaBox (pgno + 1))], Done g)
  | Done true =>
      if page_header_ok page
      then (EvLog DebugMediaBox
              :: EvHeader (header (header_stage g page pgno))
              :: (page_tail g page pgno).1,
            (page_tail g page pgno).2)
      else ([EvLog DebugMediaBox; EvLog (ErrHeader (pgno + 1))], Exit 1)
  | Exit s => ([], Exit s)
  | Undefined => ([], Undefined)
  end.
Proof.
  unfold outPage, page_tail, folded_globals, folded_rotation, page_colorspace,
    header_stage, assembled.
  destruct (mediaboxlookup (page_obj page)) as [[|]| |]; try reflexivity.
  destruct (page_header_ok page); [|reflexivity].
  cbn [lift bind negb emit app ret].
  destruct (fold_swap _ _ _) as [g2 r2]. cbn [fst snd].
  destruct (bind _ _) as [t o]. reflexivity.
Qed.

(** Neither the fold, nor the line size, nor the header touch [rowsize]. *)
Lemma rowsize_folded (g : globals) (page : Page) (pgno : Z) :
  rowsize (folded_globals g page pgno) = rowsize g.
Proof.
  unfold folded_globals, fold_swap.
  destruct (backside _ _ && _ && _); reflexivity.
Qed.

Lemma header_folded (g : globals) (page : Page) (pgno : Z) :
  header (folded_globals g page pgno) = header (header_stage g page pgno).
Proof.
  unfold folded_globals, fold_swap.
  destruct (backside _ _ && _ && _); reflexivity.
Qed.

(** *** The rotator never exits for a right angle and always for another *)

Lemma rotatebitmap_bad_angle {A : Type} (src dst : list A)
    (rotate H W rs : Z) (cs : string) :
  rotate <> 0 -> rotate <> 90 -> rotate <> 180 -> rotate <> 270 ->
  rotatebitmap src dst rotate H W rs cs = Exit 1.
Proof.
  intros H0 H90 H180 H270. unfold rotatebitmap.
  destruct (Z.eqb_spec rotate 0); [contradiction|].
  destruct (Z.eqb_spec rotate 180); [contradiction|].
  destruct (Z.eqb_spec rotate 270); [contradiction|].
  destruct (Z.eqb_spec rotate 90); [contradiction|]. reflexivity.
Qed.

Lemma rotate_page_bad_angle (g : globals) (rotate : Z) (bitmap : list byte)
    (cs : string) :
  u32 rotate <> 0 -> u32 rotate <> 90 -> u32 rotate <> 180 ->
  u32 rotate <> 270 ->
  rotate_page g rotate bitmap cs
  = ([EvRotate (u32 rotate) (cupsHeight (header g)) (cupsWidth (header g))
        (rowsize g) cs;
      EvLog (ErrRotateValue (u32 rotate))], Exit 1).
Proof.
  intros H0 H90 H180 H270. unfold rotate_page.
  destruct (Z.eqb_spec rotate 0) as [->|_]; [now elim H0|].
  now rewrite rotatebitmap_bad_angle.
Qed.

(** C9, as the code has it.  When a page with a valid MediaBox whose
    header the raster stream accepts has, after the fold of the duplex
    swaps, a rotation that is not 0, 90, 180 or 270 as an unsigned value,
    the run ends with exit status 1: the page header has been written
    before, no scanline is. *)
Theorem outPage_bad_rotation (g : globals) (page : Page) (pgno : Z) :
  mediaboxlookup (page_obj page) = Done true ->
  page_header_ok page = true ->
  u32 (folded_rotation g page pgno) <> 0 ->
  u32 (folded_rotation g page pgno) <> 90 ->
  u32 (folded_rotation g page pgno) <> 180 ->
  u32 (folded_rotation g page pgno) <> 270 ->
  outPage g page pgno
  = ([EvLog DebugMediaBox;
      EvHeader (header (header_stage g page pgno));
      EvRotate (u32 (folded_rotation g page pgno))
        (cupsHeight (header (header_stage g page pgno)))
        (cupsWidth (header (header_stage g page pgno)))
        (rowsize g) (page_colorspace g page pgno);
      EvLog (ErrRotateValue (u32 (folded_rotation g page pgno)))],
     Exit 1).
Proof.
  intros Hbox Hok H0 H90 H180 H270.
  rewrite outPage_unfold, Hbox, Hok. unfold page_tail.
  rewrite rotate_page_bad_angle by assumption.
  rewrite rowsize_folded, header_folded. reflexivity.
Qed.

(** ** Pages without a MediaBox *)

Lemma mediaboxlookup_unresolved (o : QPDFObjectHandle) :
  isDictionary o = false \/ hasKey o "/MediaBox" = false \/
  (4 < length (getArrayAsVector (getKey o "/MediaBox")))%nat ->
  mediaboxlookup o = Done false.
Proof.
  unfold mediaboxlookup. intros [->|[->|Hlen]]; try reflexivity.
  - now rewrite orb_true_r.
  - destruct (negb (isDictionary o) || negb (hasKey o "/MediaBox"));
      [reflexivity|].
    destruct (getArrayAsVector (getKey o "/MediaBox"))
      as [|a [|b [|c [|d [|e l]]]]]; simpl in Hlen; try lia. reflexivity.
Qed.

Lemma mediaboxlookup_four (o : QPDFObjectHandle) :
  isDictionary o = true -> hasKey o "/MediaBox" = true ->
  length (getArrayAsVector (getKey o "/MediaBox")) = 4%nat ->
  mediaboxlookup o = Done true.
Proof.
  unfold mediaboxlookup. intros -> -> Hlen.
  destruct (getArrayAsVector (getKey o "/MediaBox"))
    as [|a [|b [|c [|d [|e l]]]]]; simpl in Hlen; try lia. reflexivity.
Qed.

(** X1.  A page that is no dictionary, has no MediaBox, or has one with
    more than four entries is skipped: one line on stderr, nothing on the
    raster stream, the globals as they were. *)
Lemma outPage_skips (g : globals) (page : Page) (pgno : Z) :
  isDictionary (page_obj page) = false \/
  hasKey (page_obj page) "/MediaBox" = false \/
  (4 < length (getArrayAsVector (getKey (page_obj page) "/MediaBox")))%nat ->
  outPage g page pgno = ([EvLog (ErrNoMediaBox (pgno + 1))], Done g).
Proof.
  intros H. rewrite outPage_unfold.
  now rewrite (mediaboxlookup_unresolved _ H).
Qed.

(** A MediaBox with fewer than four entries is indexed past its end
    before its size is looked at. *)
Lemma mediaboxlookup_short (o : QPDFObjectHandle) :
  isDictionary o = true -> hasKey o "/MediaBox" = true ->
  (length (getArrayAsVector (getKey o "/MediaBox")) < 4)%nat ->
  mediaboxlookup o = Undefined.
Proof.
  unfold mediaboxlookup. intros -> -> Hlen.
  destruct (getArrayAsVector (getKey o "/MediaBox"))
    as [|a [|b [|c [|d [|e l]]]]]; simpl in Hlen; try lia; reflexivity.
Qed.

(** C8, the failing input: for a page whose MediaBox is [0 0 612] the
    fourth element is read from a vector of three; the page is not
    skipped with a log line, the run has no defined behaviour. *)
Theorem short_mediabox_not_skipped (g : globals) (pgno : Z) :
  outPage g short_box_page pgno = ([], Undefined) /\
  outPage g short_box_page pgno
  <> ([EvLog (ErrNoMediaBox (pgno + 1))], Done g).
Proof.
  assert (E : outPage g short_box_page pgno = ([], Undefined)).
  { rewrite outPage_unfold. reflexivity. }
  split; [exact E|]. rewrite E. discriminate.
Qed.

(** ** A rotation that is no right angle *)

(** Against C9 as written: a page with /Rotate 45 has its header written
    before the run exits; and a backside page with /Rotate -180 whose
    swaps fold to a rotation of 0 does not end the run at all. *)
Lemma rotate_45_header_written :
  page_rotate (rotated_page 45 [rgb_strip 2 1]) = 45 /\
  outPage (start_globals (rgb_header false) no_swap)
    (rotated_page 45 [rgb_strip 2 1]) 0
  = ([EvLog DebugMediaBox;
      EvHeader (mkHeader false false 2 1 8 24 6 CUPS_ORDER_CHUNKED
                  CUPS_CSPACE_RGB 3 (Some (mkGeometry 1 2 3 4 612 792)));
      EvRotate 45 1 2 0 DeviceRGB;
      EvLog (ErrRotateValue 45)], Exit 1) /\
  page_rotate (rotated_page (-180) [rgb_strip 2 1]) = -180 /\
  exists t g',
    outPage (start_globals (rgb_header true) (mkSwap true true true true))
      (rotated_page (-180) [rgb_strip 2 1]) 1 = (t, Done g').
Proof.
  split; [reflexivity|]. split; [reflexivity|]. split; [reflexivity|].
  eexists. eexists. vm_compute. reflexivity.
Qed.

Lemma outPage_bad_rotation_witness :
  outPage (start_globals (rgb_header false) no_swap)
    (rotated_page 45 [rgb_strip 2 1]) 0
  = ([EvLog DebugMediaBox;
      EvHeader (header (header_stage (start_globals (rgb_header false) no_swap)
                          (rotated_page 45 [rgb_strip 2 1]) 0));
      EvRotate
        (u32 (folded_rotation (start_globals (rgb_header false) no_swap)
                (rotated_page 45 [rgb_strip 2 1]) 0))
        (cupsHeight (header (header_stage
                               (start_globals (rgb_header false) no_swap)
                               (rotated_page 45 [rgb_strip 2 1]) 0)))
        (cupsWidth (header (header_stage
                              (start_globals (rgb_header false) no_swap)
                              (rotated_page 45 [rgb_strip 2 1]) 0)))
        (rowsize (start_globals (rgb_header false) no_swap))
        (page_colorspace (start_globals (rgb_header false) no_swap)
           (rotated_page 45 [rgb_strip 2 1]) 0);
      EvLog (ErrRotateValue
               (u32 (folded_rotation
                       (start_globals (rgb_header false) no_swap)
                       (rotated_page 45 [rgb_strip 2 1]) 0)))],
     Exit 1).
Proof.
  apply outPage_bad_rotation; vm_compute; congruence.
Defined.

(** ** What the rest of a page writes and leaves *)

Lemma rotate_page_trace (g : globals) (rotate : Z) (bitmap : list byte)
    (cs : string) :
  Forall no_header ((rotate_page g rotate bitmap cs).1).
Proof.
  unfold rotate_page. destruct (rotate =? 0); [constructor|].
  destruct (rotatebitmap _ _ _ _ _ _ _); simpl; repeat constructor.
Qed.

Lemma selectConvertFunc_trace (cs : string) (pgno : Z) (g : globals) :
  Forall no_header ((selectConvertFunc cs pgno g).1).
Proof.
  unfold selectConvertFunc.
  destruct (String.eqb cs DeviceRGB); [constructor|].
  destruct (String.eqb cs DeviceCMYK); [constructor|].
  destruct (String.eqb cs DeviceGray); simpl; repeat constructor.
Qed.

Lemma page_tail_trace (g : globals) (page : Page) (pgno : Z) :
  Forall no_header ((page_tail g page pgno).1).
Proof.
  unfold page_tail.
  apply bind_trace; [apply rotate_page_trace|]. intros _.
  apply bind_trace; [apply selectConvertFunc_trace|]. intros g3.
  apply bind_trace; [|intros; constructor].
  eapply Forall_impl; [apply write_lines_trace|]. now intros [].
Qed.

(** What a completed selection leaves of the globals it was given. *)
Lemma selectConvertFunc_frame (cs : string) (pgno : Z) (g g' : globals)
    (t : list event) :
  selectConvertFunc cs pgno g = (t, Done g') ->
  header g' = header g /\ swap g' = swap g /\
  bytesPerLine g' = bytesPerLine g /\ nplanes g' = nplanes g /\
  nbands g' = nbands g /\ bi_level g' = bi_level g /\
  convertline g'
  = Some (if backside g pgno && swap_image_x (swap g)
          then fp_convertReverseLine else fp_convertLine) /\
  exists c, components cs = Some c /\
            numcolors g' = Z.of_nat c /\
            rowsize g' = i32 (cupsWidth (header g) * Z.of_nat c).
Proof.
  unfold selectConvertFunc, components.
  assert (Hsel : forall g1 : globals,
    header g1 = header g -> swap g1 = swap g ->
    bytesPerLine g1 = bytesPerLine g -> nplanes g1 = nplanes g ->
    nbands g1 = nbands g -> bi_level g1 = bi_level g ->
    let g3 := select_cspace cs (set_convertcspace (Some fp_convertcspaceNoop) g1) in
    let g4 := if backside g3 pgno && swap_image_x (swap g3)
              then set_convertline (Some fp_convertReverseLine) g3
              else set_convertline (Some fp_convertLine) g3 in
    header g4 = header g /\ swap g4 = swap g /\
    bytesPerLine g4 = bytesPerLine g /\ nplanes g4 = nplanes g /\
    nbands g4 = nbands g /\ bi_level g4 = bi_level g /\
    convertline g4
    = Some (if backside g pgno && swap_image_x (swap g)
            then fp_convertReverseLine else fp_convertLine) /\
    numcolors g4 = numcolors g1 /\ rowsize g4 = rowsize g1).
  { intros g1 Hh Hs Hb Hp Hn Hl. cbv zeta.
    assert (Hg3 : forall g3 : globals,
      header g3 = header g -> swap g3 = swap g ->
      bytesPerLine g3 = bytesPerLine g -> nplanes g3 = nplanes g ->
      nbands g3 = nbands g -> bi_level g3 = bi_level g ->
      let g4 := if backside g3 pgno && swap_image_x (swap g3)
                then set_convertline (Some fp_convertReverseLine) g3
                else set_convertline (Some fp_convertLine) g3 in
      header g4 = header g /\ swap g4 = swap g /\
      bytesPerLine g4 = bytesPerLine g /\ nplanes g4 = nplanes g /\
      nbands g4 = nbands g /\ bi_level g4 = bi_level g /\
      convertline g4
      = Some (if backside g pgno && swap_image_x (swap g)
              then fp_convertReverseLine else fp_convertLine) /\
      numcolors g4 = numcolors g3 /\ rowsize g4 = rowsize g3).
    { intros g3 Hh3 Hs3 Hb3 Hp3 Hn3 Hl3. cbv zeta.
      unfold backside. rewrite Hh3, Hs3.
      destruct (Duplex (header g) && negb (Z.land pgno 1 =? 0)
                && swap_image_x (swap g)); cbn; auto 10. }
    unfold select_cspace.
    destruct (cupsColorSpace _);
      destruct (String.eqb cs DeviceRGB), (String.eqb cs DeviceCMYK),
        (String.eqb cs DeviceGray);
      lazymatch goal with
      | |- context [set_convertline _ ?g3] =>
          exact (Hg3 g3 Hh Hs Hb Hp Hn Hl)
      end. }
  destruct (String.eqb cs DeviceRGB) eqn:ERGB.
  { cbn [bind ret]. intros [= <- <-].
    specialize (Hsel (set_rowsize_numcolors (i32 (cupsWidth (header g) * 3)) 3 g)
                  eq_refl eq_refl eq_refl eq_refl eq_refl eq_refl).
    cbv zeta in Hsel. destruct Hsel as (?&?&?&?&?&?&?&?&?).
    repeat (split; [assumption|]).
    apply String.eqb_eq in ERGB. subst cs. exists 3%nat. auto. }
  destruct (String.eqb cs DeviceCMYK) eqn:ECMYK.
  { cbn [bind ret]. intros [= <- <-].
    specialize (Hsel (set_rowsize_numcolors (i32 (cupsWidth (header g) * 4)) 4 g)
                  eq_refl eq_refl eq_refl eq_refl eq_refl eq_refl).
    cbv zeta in Hsel. destruct Hsel as (?&?&?&?&?&?&?&?&?).
    repeat (split; [assumption|]).
    apply String.eqb_eq in ECMYK. subst cs. exists 4%nat. auto. }
  destruct (String.eqb cs DeviceGray) eqn:EGray.
  { cbn [bind ret]. intros [= <- <-].
    specialize (Hsel (set_rowsize_numcolors (i32 (cupsWidth (header g))) 1 g)
                  eq_refl eq_refl eq_refl eq_refl eq_refl eq_refl).
    cbv zeta in Hsel. destruct Hsel as (?&?&?&?&?&?&?&?&?).
    repeat (split; [assumption|]).
    apply String.eqb_eq in EGray. subst cs. exists 1%nat.
    rewrite Z.mul_1_r. auto. }
  simpl. discriminate.
Qed.

Lemma page_tail_done (g : globals) (page : Page) (pgno : Z) (g' : globals) :
  (page_tail g page pgno).2 = Done g' ->
  exists t,
    selectConvertFunc (page_colorspace g page pgno) pgno
      (folded_globals g page pgno) = (t, Done g').
Proof.
  unfold page_tail.
  destruct (rotate_page _ _ _ _) as [t1 [cd| |]]; simpl; try discriminate.
  destruct (selectConvertFunc _ _ _) as [t2 [g3| |]]; simpl; try discriminate.
  destruct (write_lines_done g3 pgno) as [t3 ->]. simpl.
  intros [= <-]. eauto.
Qed.

Lemma outPage_done (g : globals) (page : Page) (pgno : Z) (g' : globals) :
  (outPage g page pgno).2 = Done g' ->
  (mediaboxlookup (page_obj page) = Done false /\ g' = g) \/
  (mediaboxlookup (page_obj page) = Done true /\
   page_header_ok page = true /\
   exists t,
     selectConvertFunc (page_colorspace g page pgno) pgno
       (folded_globals g page pgno) = (t, Done g')).
Proof.
  rewrite outPage_unfold.
  destruct (mediaboxlookup (page_obj page)) as [[|]| |]; simpl;
    try discriminate.
  - destruct (page_header_ok page); simpl; [|discriminate].
    intros H. right. repeat split. now apply page_tail_done.
  - intros [= <-]. now left.
Qed.

Lemma outPage_header (g : globals) (page : Page) (pgno : Z)
    (h : cups_page_header2_t) :
  In (EvHeader h) ((outPage g page pgno).1) ->
  mediaboxlookup (page_obj page) = Done true /\
  page_header_ok page = true /\
  h = header (header_stage g page pgno).
Proof.
  rewrite outPage_unfold.
  destruct (mediaboxlookup (page_obj page)) as [[|]| |]; simpl;
    try (intros [H|[]]; discriminate); try (intros []).
  destruct (page_header_ok page); simpl.
  - intros [H|[H|H]]; [discriminate|now injection H as <-|].
    pose proof (page_tail_trace g page pgno) as Ht.
    rewrite List.Forall_forall in Ht. now apply Ht in H.
  - intros [H|[H|[]]]; discriminate.
Qed.

(** ** Bytes per line *)

Lemma line_size_fields (g : globals) :
  cupsBitsPerPixel (header (line_size g)) = cupsBitsPerPixel (header g) /\
  cupsWidth (header (line_size g)) = cupsWidth (header g) /\
  cupsColorOrder (header (line_size g)) = cupsColorOrder (header g) /\
  cupsNumColors (header (line_size g)) = cupsNumColors (header g) /\
  bytesPerLine (line_size g) = bytes_per_line (header g) /\
  cupsBytesPerLine (header (line_size g))
  = if is_banded (cupsColorOrder (header g))
    then u32 (bytes_per_line (header g) * cupsNumColors (header g))
    else bytes_per_line (header g).
Proof.
  unfold line_size. cbn -[bytes_per_line u32].
  destruct (is_banded (cupsColorOrder (header g))); cbn -[bytes_per_line u32];
    auto 10.
Qed.

(** X28.  The header of every page that gets one carries, as its bytes per
    line, [(cupsBitsPerPixel * cupsWidth + 7) / 8] in the arithmetic of
    [unsigned int], times the number of colors exactly when the order is
    banded; the global [bytesPerLine] is the value without that factor.
    As long as the product plus 7 fits 32 bits this is the ceiling of
    [bitsPerPixel * width / 8]: 100 for 8 bits and width 100, 2 for one
    bit and width 10.  Beyond that the value wraps and is no ceiling. *)
Theorem outPage_bytes_per_line (g : globals) (page : Page) (pgno : Z)
    (h : cups_page_header2_t) :
  In (EvHeader h) ((outPage g page pgno).1) ->
  let bits := cupsBitsPerPixel h * cupsWidth h in
  let bpl := u32 (u32 bits + 7) / 8 in
  bpl = bytes_per_line h /\
  cupsBytesPerLine h
  = (if is_banded (cupsColorOrder h)
     then u32 (bpl * cupsNumColors h) else bpl) /\
  (forall g', (outPage g page pgno).2 = Done g' -> bytesPerLine g' = bpl) /\
  (0 <= bits -> bits + 7 < 2 ^ 32 -> 8 * (bpl - 1) < bits <= 8 * bpl) /\
  (cupsBitsPerPixel h = 8 -> cupsWidth h = 100 ->
   bpl = 100 /\
   (cupsColorOrder h = CUPS_ORDER_CHUNKED -> cupsBytesPerLine h = 100)) /\
  (cupsBitsPerPixel h = 1 -> cupsWidth h = 10 -> bpl = 2).
Proof.
  intros Hin. cbv zeta.
  destruct (outPage_header _ _ _ _ Hin) as (Hbox & Hok & ->).
  unfold header_stage.
  set (g0 := set_header _ g).
  destruct (line_size_fields g0) as (Ebpp & Ew & Eo & En & Ebpl & Ecbpl).
  fold (bytes_per_line (header (line_size g0))).
  assert (Eb : bytes_per_line (header (line_size g0))
               = bytes_per_line (header g0)).
  { unfold bytes_per_line. now rewrite Ebpp, Ew. }
  split; [reflexivity|]. rewrite Eb, Eo, En.
  split; [exact Ecbpl|]. split.
  { intros g' Hdone. apply outPage_done in Hdone.
    destruct Hdone as [[Hf _]|(_ & _ & t & Hsel)]; [congruence|].
    apply selectConvertFunc_frame in Hsel.
    destruct Hsel as (_ & _ & -> & _).
    unfold folded_globals, fold_swap, header_stage. fold g0.
    destruct (backside _ _ && _ && _); exact Ebpl. }
  assert (Hceil : forall bits, 0 <= bits -> bits + 7 < 2 ^ 32 ->
            8 * (u32 (u32 bits + 7) / 8 - 1) < bits
            <= 8 * (u32 (u32 bits + 7) / 8)).
  { intros bits H0 H1. rewrite (u32_small bits), (u32_small (bits + 7)) by lia.
    pose proof (Z.div_mod (bits + 7) 8 ltac:(lia)).
    pose proof (Z.mod_pos_bound (bits + 7) 8 ltac:(lia)). lia. }
  unfold bytes_per_line at 1 2. rewrite <- Ebpp, <- Ew.
  split; [apply Hceil|]. split.
  - intros E8 E100. rewrite Ecbpl, <- Eo, <- Eb. unfold bytes_per_line.
    rewrite E8, E100. split; [reflexivity|]. now intros ->.
  - intros E1 E10. rewrite <- Eb. unfold bytes_per_line.
    now rewrite E1, E10.
Qed.

Lemma outPage_bytes_per_line_witness :
  In (EvHeader (mkHeader false false 2 1 8 24 6 CUPS_ORDER_CHUNKED
                  CUPS_CSPACE_RGB 3 (Some (mkGeometry 1 2 3 4 612 792))))
    ((outPage (start_globals (rgb_header false) no_swap)
        (rotated_page 0 [rgb_strip 2 1]) 0).1) /\
  cupsBytesPerLine
    (mkHeader false false 2 1 8 24 6 CUPS_ORDER_CHUNKED
       CUPS_CSPACE_RGB 3 (Some (mkGeometry 1 2 3 4 612 792))) = 6.
Proof.
  assert (Hin : In (EvHeader (mkHeader false false 2 1 8 24 6
                      CUPS_ORDER_CHUNKED CUPS_CSPACE_RGB 3
                      (Some (mkGeometry 1 2 3 4 612 792))))
            ((outPage (start_globals (rgb_header false) no_swap)
                (rotated_page 0 [rgb_strip 2 1]) 0).1))
    by (vm_compute; tauto).
  split; [exact Hin|].
  exact (proj1 (proj2 (outPage_bytes_per_line _ _ _ _ Hin))).
Defined.

(** ** The fold of two image swaps into a half turn *)

Lemma rotations_app (t1 t2 : list event) :
  rotations (t1 ++ t2) = rotations t1 ++ rotations t2.
Proof. unfold rotations. apply flat_map_app. Qed.

Lemma rotations_bind {A B : Type} (m : M A) (f : A -> M B) :
  rotations ((bind m f).1)
  = rotations (m.1) ++ match m.2 with
                       | Done a => rotations ((f a).1)
                       | _ => []
                       end.
Proof.
  destruct m as [t [a| |]]; simpl; rewrite ?app_nil_r; try reflexivity.
  destruct (f a) as [t' o]. simpl. apply rotations_app.
Qed.

Lemma rotations_pixels (t : list event) :
  Forall is_pixels t -> rotations t = [].
Proof.
  induction 1 as [|e t He _ IH]; [reflexivity|].
  destruct e; try contradiction. exact IH.
Qed.

Lemma rotations_select (cs : string) (pgno : Z) (g : globals) :
  rotations ((selectConvertFunc cs pgno g).1) = [].
Proof.
  unfold selectConvertFunc.
  destruct (String.eqb cs DeviceRGB); [reflexivity|].
  destruct (String.eqb cs DeviceCMYK); [reflexivity|].
  destruct (String.eqb cs DeviceGray); reflexivity.
Qed.

Lemma rotations_rotate_page (g : globals) (rotate : Z) (bitmap : list byte)
    (cs : string) :
  rotations ((rotate_page g rotate bitmap cs).1)
  = if rotate =? 0 then [] else [u32 rotate].
Proof.
  unfold rotate_page. destruct (rotate =? 0); [reflexivity|].
  destruct (rotatebitmap _ _ _ _ _ _ _); reflexivity.
Qed.

Lemma rotations_page_tail (g : globals) (page : Page) (pgno : Z) :
  rotations ((page_tail g page pgno).1)
  = if folded_rotation g page pgno =? 0 then []
    else [u32 (folded_rotation g page pgno)].
Proof.
  unfold page_tail. rewrite rotations_bind, rotations_rotate_page.
  destruct (rotate_page _ _ _ _).2; rewrite ?app_nil_r; try reflexivity.
  rewrite rotations_bind, rotations_select.
  destruct (selectConvertFunc _ _ _).2; rewrite ?app_nil_r; try reflexivity.
  rewrite rotations_bind, (rotations_pixels _ (write_lines_trace _ _)).
  destruct (write_lines _ _).2; now rewrite ?app_nil_r.
Qed.

(** The assembly of a page leaves the duplex flag of the header alone. *)
Lemma assemble_Duplex (images : list PageImage) : forall a : assembly,
  Duplex (as_header (fold_left add_image images a)) = Duplex (as_header a).
Proof.
  induction images as [|im images IH]; intros a; [reflexivity|].
  simpl. rewrite IH. unfold add_image. cbn.
  destruct (_ <? _); reflexivity.
Qed.

Lemma header_stage_Duplex (g : globals) (page : Page) (pgno : Z) :
  Duplex (header (header_stage g page pgno)) = Duplex (header g).
Proof.
  unfold header_stage, line_size. cbn.
  assert (E : Duplex (landscape (page_rotate page)
                        (as_header (assembled g page pgno)))
              = Duplex (header g)).
  { unfold landscape. destruct (_ || _); cbn;
      unfold assembled, assemble_images; now rewrite assemble_Duplex. }
  destruct (is_banded _); cbn; exact E.
Qed.

Lemma header_stage_swap (g : globals) (page : Page) (pgno : Z) :
  swap (header_stage g page pgno) = swap g.
Proof. reflexivity. Qed.

Lemma header_stage_backside (g : globals) (page : Page) (pgno : Z) :
  backside (header_stage g page pgno) pgno = backside g pgno.
Proof. unfold backside. now rewrite header_stage_Duplex. Qed.

Lemma folded_globals_backside (g : globals) (page : Page) (pgno : Z) :
  backside (folded_globals g page pgno) pgno = backside g pgno.
Proof.
  unfold backside. rewrite header_folded. now rewrite header_stage_Duplex.
Qed.

(** The fold, in terms of the globals the page starts with. *)
Lemma fold_swap_page (g : globals) (page : Page) (pgno : Z) :
  (backside g pgno && swap_image_y (swap g) && swap_image_x (swap g) = true ->
   folded_rotation g page pgno = Z.rem (page_rotate page + 180) 360 /\
   swap (folded_globals g page pgno)
   = mkSwap false false (swap_margin_x (swap g)) (swap_margin_y (swap g))) /\
  (backside g pgno && swap_image_y (swap g) && swap_image_x (swap g) = false ->
   folded_rotation g page pgno = page_rotate page /\
   swap (folded_globals g page pgno) = swap g).
Proof.
  unfold folded_rotation, folded_globals, fold_swap.
  rewrite header_stage_backside, header_stage_swap.
  split; intros ->; split; reflexivity.
Qed.

(** *** Off a duplex backside the flags are not read *)

Lemma assembled_set_swap (s' : SwapState) (g : globals) (page : Page)
    (pgno : Z) :
  backside g pgno = false ->
  assembled (set_swap s' g) page pgno = assembled g page pgno.
Proof.
  intros Hb. unfold assembled, backside_margins.
  change (backside (set_swap s' g) pgno) with (backside g pgno).
  now rewrite Hb.
Qed.

Lemma header_stage_set_swap (s' : SwapState) (g : globals) (page : Page)
    (pgno : Z) :
  backside g pgno = false ->
  header_stage (set_swap s' g) page pgno
  = set_swap s' (header_stage g page pgno).
Proof.
  intros Hb. unfold header_stage. rewrite assembled_set_swap by assumption.
  reflexivity.
Qed.

Lemma selectConvertFunc_set_swap (s' : SwapState) (cs : string) (pgno : Z)
    (g : globals) :
  backside g pgno = false ->
  selectConvertFunc cs pgno (set_swap s' g)
  = ((selectConvertFunc cs pgno g).1,
     outcome_map (set_swap s') ((selectConvertFunc cs pgno g).2)).
Proof.
  intros Hb. unfold selectConvertFunc.
  assert (Hsel : forall g1 : globals,
            backside g1 pgno = false ->
            (let g3 := select_cspace cs
                         (set_convertcspace (Some fp_convertcspaceNoop)
                            (set_swap s' g1)) in
             if backside g3 pgno && swap_image_x (swap g3)
             then set_convertline (Some fp_convertReverseLine) g3
             else set_convertline (Some fp_convertLine) g3)
            = set_swap s'
                (let g3 := select_cspace cs
                             (set_convertcspace (Some fp_convertcspaceNoop)
                                g1) in
                 if backside g3 pgno && swap_image_x (swap g3)
                 then set_convertline (Some fp_convertReverseLine) g3
                 else set_convertline (Some fp_convertLine) g3)).
  { intros g1 Hb1. cbv zeta. unfold select_cspace.
    cbn [header set_convertcspace set_swap].
    unfold backside in *.
    destruct (cupsColorSpace (header g1));
      destruct (String.eqb cs DeviceRGB), (String.eqb cs DeviceCMYK),
        (String.eqb cs DeviceGray);
      cbn [header set_convertcspace set_swap swap]; rewrite Hb1;
      reflexivity. }
  destruct (String.eqb cs DeviceRGB).
  { cbn [bind ret fst snd outcome_map]. f_equal. f_equal.
    exact (Hsel (set_rowsize_numcolors (i32 (cupsWidth (header g) * 3)) 3 g)
             Hb). }
  destruct (String.eqb cs DeviceCMYK).
  { cbn [bind ret fst snd outcome_map]. f_equal. f_equal.
    exact (Hsel (set_rowsize_numcolors (i32 (cupsWidth (header g) * 4)) 4 g)
             Hb). }
  destruct (String.eqb cs DeviceGray).
  { cbn [bind ret fst snd outcome_map]. f_equal. f_equal.
    exact (Hsel (set_rowsize_numcolors (i32 (cupsWidth (header g))) 1 g)
             Hb). }
  reflexivity.
Qed.

Lemma write_lines_set_swap (s' : SwapState) (g : globals) (pgno : Z) :
  backside g pgno = false ->
  write_lines (set_swap s' g) pgno = write_lines g pgno.
Proof.
  intros Hb. unfold write_lines.
  change (backside (set_swap s' g) pgno) with (backside g pgno).
  rewrite Hb. reflexivity.
Qed.

Lemma page_tail_set_swap (s' : SwapState) (g : globals) (page : Page)
    (pgno : Z) :
  backside g pgno = false ->
  page_tail (set_swap s' g) page pgno
  = ((page_tail g page pgno).1, outcome_map (set_swap s') ((page_tail g page pgno).2)).
Proof.
  intros Hb. unfold page_tail, folded_globals, folded_rotation, page_colorspace.
  rewrite header_stage_set_swap, assembled_set_swap by assumption.
  unfold fold_swap.
  change (backside (set_swap s' (header_stage g page pgno)) pgno)
    with (backside (header_stage g page pgno) pgno).
  rewrite header_stage_backside, Hb. cbn [andb fst snd].
  change (rotate_page (set_swap s' (header_stage g page pgno)))
    with (rotate_page (header_stage g page pgno)).
  destruct (rotate_page _ _ _ _) as [t1 [cd| |]]; try reflexivity.
  cbn [bind].
  rewrite selectConvertFunc_set_swap
    by (now rewrite header_stage_backside).
  destruct (selectConvertFunc _ _ _) as [t2 [g3| |]] eqn:Esel;
    try reflexivity.
  cbn [fst snd outcome_map bind].
  assert (Hb3 : backside g3 pgno = false).
  { apply selectConvertFunc_frame in Esel. destruct Esel as (Hh & _).
    unfold backside. rewrite Hh.
    fold (backside (header_stage g page pgno) pgno).
    now rewrite header_stage_backside. }
  rewrite write_lines_set_swap by assumption.
  destruct (write_lines g3 pgno) as [t3 [[]| |]]; reflexivity.
Qed.

Lemma outPage_set_swap (s' : SwapState) (g : globals) (page : Page)
    (pgno : Z) :
  backside g pgno = false ->
  outPage (set_swap s' g) page pgno
  = ((outPage g page pgno).1, outcome_map (set_swap s') ((outPage g page pgno).2)).
Proof.
  intros Hb. rewrite !outPage_unfold.
  destruct (mediaboxlookup (page_obj page)) as [[|]| |]; try reflexivity.
  destruct (page_header_ok page); [|reflexivity].
  rewrite page_tail_set_swap, header_stage_set_swap by assumption.
  reflexivity.
Qed.

(** X27.  On a duplex backside page whose two image-swap flags are still
    set when the page starts and which reaches the rotation step (valid
    MediaBox, header written), the rotation becomes [(rotate + 180) % 360],
    this is the angle the rotator is called with (it is not called when
    the angle is 0), and the page ends with both image flags cleared, so
    the plain line function is selected.  Whatever the page, the margin flags are never changed and
    the image flags only by this fold.  On a page that is no duplex
    backside, replacing the four flags by any others changes nothing but
    the flags themselves: they are not read. *)
Theorem outPage_swap_fold (g : globals) (page : Page) (pgno : Z) :
  (backside g pgno = true ->
   swap_image_x (swap g) = true -> swap_image_y (swap g) = true ->
   mediaboxlookup (page_obj page) = Done true ->
   page_header_ok page = true ->
   folded_rotation g page pgno = Z.rem (page_rotate page + 180) 360 /\
   rotations ((outPage g page pgno).1)
   = (if Z.rem (page_rotate page + 180) 360 =? 0 then []
      else [u32 (Z.rem (page_rotate page + 180) 360)]) /\
   forall g', (outPage g page pgno).2 = Done g' ->
     swap g' = mkSwap false false (swap_margin_x (swap g))
                 (swap_margin_y (swap g)) /\
     convertline g' = Some fp_convertLine) /\
  (forall g', (outPage g page pgno).2 = Done g' ->
     swap g' = swap g \/
     (backside g pgno = true /\ swap_image_x (swap g) = true /\
      swap_image_y (swap g) = true /\
      swap g' = mkSwap false false (swap_margin_x (swap g))
                  (swap_margin_y (swap g)))) /\
  (backside g pgno = false ->
   forall s' : SwapState,
     outPage (set_swap s' g) page pgno
     = ((outPage g page pgno).1,
        outcome_map (set_swap s') ((outPage g page pgno).2))).
Proof.
  split; [|split].
  - intros Hb Hx Hy Hbox Hok.
    destruct (fold_swap_page g page pgno) as [Hfold _].
    destruct Hfold as [Hrot Hswap]; [now rewrite Hb, Hx, Hy|].
    split; [exact Hrot|]. split.
    + rewrite outPage_unfold, Hbox, Hok. cbn [fst].
      change (rotations (?a :: ?b :: ?t)) with (rotations t).
      now rewrite rotations_page_tail, Hrot.
    + intros g' Hdone. apply outPage_done in Hdone.
      destruct Hdone as [[Hf _]|(_ & _ & t & Hsel)]; [congruence|].
      apply selectConvertFunc_frame in Hsel.
      destruct Hsel as (_ & -> & _ & _ & _ & _ & -> & _).
      rewrite Hswap. split; [reflexivity|]. cbn. now rewrite andb_false_r.
  - intros g' Hdone. apply outPage_done in Hdone.
    destruct Hdone as [[_ ->]|(_ & _ & t & Hsel)]; [now left|].
    apply selectConvertFunc_frame in Hsel. destruct Hsel as (_ & -> & _).
    destruct (fold_swap_page g page pgno) as [Hfold Hkeep].
    destruct (backside g pgno && swap_image_y (swap g)
              && swap_image_x (swap g)) eqn:E.
    + right. apply andb_prop in E as [E Hx]. apply andb_prop in E as [Hb Hy].
      repeat split; try assumption. now apply Hfold.
    + left. now apply Hkeep.
  - intros Hb s'. now apply outPage_set_swap.
Qed.

(** ** The stride the rotator is given *)

Lemma rotate_page_call (g : globals) (rotate : Z) (bitmap : list byte)
    (cs : string) :
  rotate <> 0 ->
  exists t,
    rotate_page g rotate bitmap cs
    = (EvRotate (u32 rotate) (cupsHeight (header g)) (cupsWidth (header g))
         (rowsize g) cs :: t,
       rotatebitmap (map Some bitmap) (repeat None (length bitmap))
         (u32 rotate) (cupsHeight (header g)) (cupsWidth (header g))
         (rowsize g) cs).
Proof.
  intros Hr. unfold rotate_page.
  destruct (Z.eqb_spec rotate 0); [contradiction|].
  destruct (rotatebitmap _ _ _ _ _ _ _); eexists; reflexivity.
Qed.

(** With a stride of 0 the half turn starts reading before the source. *)
Lemma rotatebitmap_180_zero_stride {A : Type} (src dst : list A) (H W : Z)
    (cs : string) (c : nat) :
  components cs = Some c -> 1 <= H -> 1 <= W ->
  rotatebitmap src dst 180 H W 0 cs = Undefined.
Proof.
  intros Hcs HH HW.
  assert (Hloops : forall c' : nat,
            rotate_loops src dst H W (S c') (u32 (H * 0) - Z.of_nat (S c'))
              (fun _ bp => bp) (- Z.of_nat (S c')) = Undefined).
  { intros c'. unfold rotate_loops.
    destruct (Z.to_nat H) as [|n] eqn:En; [lia|].
    destruct (Z.to_nat W) as [|m] eqn:Em; [lia|].
    cbn [copy_rows copy_row copy_pixel cur_bp cur_dp cur_dst].
    rewrite Z.mul_0_r. unfold load.
    destruct (Z.ltb_spec (u32 0 - Z.of_nat (S c') + 0) 0) as [_|Hge];
      [reflexivity|].
    change (u32 0) with 0 in Hge. lia. }
  destruct (components_cases _ _ Hcs) as [[-> ->]|[[-> ->]|[-> ->]]];
    apply Hloops.
Qed.

(** What a page leaves in [rowsize]. *)
Lemma outPage_rowsize (g : globals) (page : Page) (pgno : Z)
    (t : list event) (g' : globals) :
  outPage g page pgno = (t, Done g') ->
  (mediaboxlookup (page_obj page) = Done false /\ g' = g) \/
  (exists c : nat,
     components (page_colorspace g page pgno) = Some c /\
     numcolors g' = Z.of_nat c /\
     header g' = header (header_stage g page pgno) /\
     rowsize g' = i32 (cupsWidth (header g') * Z.of_nat c)).
Proof.
  intros E. assert (Hdone : (outPage g page pgno).2 = Done g') by now rewrite E.
  apply outPage_done in Hdone.
  destruct Hdone as [H|(_ & _ & t' & Hsel)]; [now left|right].
  apply selectConvertFunc_frame in Hsel.
  destruct Hsel as (Hh & _ & _ & _ & _ & _ & _ & c & Hc & Hn & Hr).
  exists c. rewrite Hh, Hr, header_folded. auto.
Qed.

Lemma run_pages_prefix (ps2 : list Page) : forall (ps1 : list Page) (i : Z)
    (g g1 : globals) (t1 : list event),
  run_pages ps1 i g = (t1, Done g1) ->
  run_pages (ps1 ++ ps2) i g
  = (t1 ++ (run_pages ps2 (i + Z.of_nat (length ps1)) g1).1,
     (run_pages ps2 (i + Z.of_nat (length ps1)) g1).2).
Proof.
  induction ps1 as [|p ps1 IH]; intros i g g1 t1 E.
  - simpl in E. injection E as <- <-. simpl. rewrite Z.add_0_r.
    now destruct (run_pages ps2 i g).
  - cbn [run_pages app] in *. cbn [emit bind] in *.
    destruct (outPage g p i) as [tp [gp| |]]; cbn [bind app] in *;
      try discriminate.
    destruct (run_pages ps1 (i + 1) gp) as [tr o] eqn:Er.
    cbn [app] in E.
    assert (o = Done g1 /\ t1 = EvLog (InfoStartingPage (i + 1)) :: tp ++ tr)
      as [-> ->] by (injection E; auto).
    rewrite (IH _ _ _ _ Er).
    replace (i + 1 + Z.of_nat (length ps1))
      with (i + Z.of_nat (length (p :: ps1))) by (cbn [length]; lia).
    cbn [app fst snd]. now rewrite app_assoc.
Qed.

(** The pages a run of the loop skipped. *)
Lemma run_pages_cons (p : Page) (ps : list Page) (i : Z) (g g' : globals)
    (t : list event) :
  run_pages (p :: ps) i g = (t, Done g') ->
  exists tp gp tr,
    outPage g p i = (tp, Done gp) /\
    run_pages ps (i + 1) gp = (tr, Done g') /\
    t = EvLog (InfoStartingPage (i + 1)) :: tp ++ tr.
Proof.
  cbn [run_pages emit bind]. intros E.
  destruct (outPage g p i) as [tp [gp| |]]; cbn [bind app] in E;
    try discriminate.
  destruct (run_pages ps (i + 1) gp) as [tr o] eqn:Er.
  assert (o = Done g' /\ t = EvLog (InfoStartingPage (i + 1)) :: tp ++ tr)
    as [-> ->] by (injection E; auto).
  exists tp, gp, tr. repeat split. exact Er.
Qed.

(** At the start of a page either every earlier page was skipped and the
    globals are those the job started with, or some earlier page [p] was
    converted, every page after it was skipped, the header still is the
    one written for [p], and [rowsize] is its width times the components
    of the colorspace of [p]. *)
Lemma run_pages_rowsize : forall (ps : list Page) (i : Z) (g g' : globals)
    (t : list event),
  run_pages ps i g = (t, Done g') ->
  (Forall (fun q => mediaboxlookup (page_obj q) = Done false) ps /\ g' = g) \/
  exists (before after : list Page) (p : Page) (gp : globals)
         (tp : list event) (c : nat),
    ps = before ++ p :: after /\
    run_pages before i g = (tp, Done gp) /\
    Forall (fun q => mediaboxlookup (page_obj q) = Done false) after /\
    components (page_colorspace gp p (i + Z.of_nat (length before)))
    = Some c /\
    header g' = header (header_stage gp p (i + Z.of_nat (length before))) /\
    numcolors g' = Z.of_nat c /\
    rowsize g' = i32 (cupsWidth (header g') * Z.of_nat c).
Proof.
  induction ps as [|p ps IH]; intros i g g' t E.
  - simpl in E. injection E as <- <-. left. split; [constructor|reflexivity].
  - apply run_pages_cons in E. destruct E as (tp & gp & tr & Ep & Er & ->).
    destruct (IH _ _ _ _ Er)
      as [[Hskip ->]|(before & after & q & gq & tq & c & -> & Hb & Hs & Hc
                      & Hh & Hn & Hr)].
    + destruct (outPage_rowsize _ _ _ _ _ Ep)
        as [[Hp ->]|(c & Hc & Hn & Hh & Hr)].
      * left. split; [now constructor|reflexivity].
      * right. exists [], ps, p, g, [], c. cbn [length app run_pages ret].
        rewrite Z.add_0_r. auto 10.
    + right.
      exists (p :: before), after, q, gq,
        (EvLog (InfoStartingPage (i + 1)) :: tp ++ tq), c.
      replace (i + Z.of_nat (length (p :: before)))
        with (i + 1 + Z.of_nat (length before)) by (cbn [length]; lia).
      repeat split; try assumption.
      cbn [run_pages emit bind]. rewrite Ep. cbn [bind]. rewrite Hb.
      reflexivity.
Qed.

(** The half turn as the loop nest it runs: [bp] starts at
    [height * rowsize - components]. *)
Lemma rotatebitmap_180_loops {A : Type} (src dst : list A) (H W rs : Z)
    (cs : string) (c : nat) :
  components cs = Some c ->
  rotatebitmap src dst 180 H W rs cs
  = rotate_loops src dst H W c (u32 (H * rs) - Z.of_nat c) (fun _ bp => bp)
      (- Z.of_nat c).
Proof.
  intros Hcs.
  destruct (components_cases _ _ Hcs) as [[-> ->]|[[-> ->]|[-> ->]]];
    reflexivity.
Qed.

Lemma parseOpts_rowsize (j : job) : rowsize (plane_setup (parseOpts j)) = 0.
Proof. reflexivity. Qed.

(** One page: the call, and what an undefined rotation does to the run. *)
Lemma outPage_rotate_call (g : globals) (page : Page) (pgno : Z) :
  mediaboxlookup (page_obj page) = Done true ->
  page_header_ok page = true ->
  folded_rotation g page pgno <> 0 ->
  exists rest o,
    outPage g page pgno
    = ([EvLog DebugMediaBox;
        EvHeader (header (header_stage g page pgno));
        EvRotate (u32 (folded_rotation g page pgno))
          (cupsHeight (header (header_stage g page pgno)))
          (cupsWidth (header (header_stage g page pgno)))
          (rowsize g) (page_colorspace g page pgno)] ++ rest, o) /\
    (rotatebitmap (map Some (as_bitmap (assembled g page pgno)))
       (repeat None (length (as_bitmap (assembled g page pgno))))
       (u32 (folded_rotation g page pgno))
       (cupsHeight (header (header_stage g page pgno)))
       (cupsWidth (header (header_stage g page pgno)))
       (rowsize g) (page_colorspace g page pgno) = Undefined ->
     o = Undefined).
Proof.
  intros Hbox Hok Hr. rewrite outPage_unfold, Hbox, Hok. unfold page_tail.
  destruct (rotate_page_call (folded_globals g page pgno)
              (folded_rotation g page pgno)
              (as_bitmap (assembled g page pgno))
              (page_colorspace g page pgno) Hr) as [t ->].
  rewrite rowsize_folded, header_folded.
  destruct (rotatebitmap _ _ _ _ _ _ _) as [cd|s|]; cbn [bind fst snd app].
  - destruct (bind _ _) as [t' o']. cbn [fst snd].
    eexists. eexists. split; [reflexivity|]. discriminate.
  - eexists. eexists. split; [reflexivity|]. discriminate.
  - eexists. eexists. split; [reflexivity|]. reflexivity.
Qed.

(** C10.  In a job whose earlier pages [pages1] have been processed, a
    page with a valid MediaBox, an accepted header and a rotation that is
    not 0 after the fold has [rotatebitmap] called with the value of the
    global [rowsize] the earlier pages left: the call is in the trace with
    that stride, and where the rotator run with that stride has no
    defined behaviour neither has the job.  The value is 0, the
    initialiser, when every earlier page was skipped (the globals are
    still those of the start of the job), and otherwise the width times
    the components that [selectConvertFunc] stored for the most recently
    converted earlier page; it is not computed from the page being
    rotated.  For a half turn the source pointer starts at offset
    [height * rowsize - components] with that stale stride; with the
    stride 0 and a page of at least one pixel it starts before the
    source. *)
Theorem rotate_page_stale_rowsize (j : job) (pages1 pages2 : list Page)
    (page : Page) (t1 : list event) (g1 : globals) :
  run_pages pages1 0 (plane_setup (parseOpts j)) = (t1, Done g1) ->
  mediaboxlookup (page_obj page) = Done true ->
  page_header_ok page = true ->
  folded_rotation g1 page (Z.of_nat (length pages1)) <> 0 ->
  let k := Z.of_nat (length pages1) in
  let h := header (header_stage g1 page k) in
  let cs := page_colorspace g1 page k in
  let r := u32 (folded_rotation g1 page k) in
  let run := run_pages (pages1 ++ page :: pages2) 0
               (plane_setup (parseOpts j)) in
  let turned := rotatebitmap (map Some (as_bitmap (assembled g1 page k)))
                  (repeat None (length (as_bitmap (assembled g1 page k))))
                  r (cupsHeight h) (cupsWidth h) (rowsize g1) cs in
  (exists rest,
     run.1 = t1 ++ [EvLog (InfoStartingPage (k + 1)); EvLog DebugMediaBox;
                    EvHeader h;
                    EvRotate r (cupsHeight h) (cupsWidth h) (rowsize g1) cs]
             ++ rest) /\
  (turned = Undefined -> run.2 = Undefined) /\
  ((Forall (fun q => mediaboxlookup (page_obj q) = Done false) pages1 /\
    g1 = plane_setup (parseOpts j) /\ rowsize g1 = 0) \/
   (exists (before after : list Page) (p : Page) (gp : globals)
           (tp : list event) (c : nat),
      pages1 = before ++ p :: after /\
      run_pages before 0 (plane_setup (parseOpts j)) = (tp, Done gp) /\
      Forall (fun q => mediaboxlookup (page_obj q) = Done false) after /\
      components (page_colorspace gp p (Z.of_nat (length before))) = Some c /\
      header g1 = header (header_stage gp p (Z.of_nat (length before))) /\
      rowsize g1 = i32 (cupsWidth (header g1) * Z.of_nat c))) /\
  (forall c, components cs = Some c -> r = 180 ->
     turned = rotate_loops (map Some (as_bitmap (assembled g1 page k)))
                (repeat None (length (as_bitmap (assembled g1 page k))))
                (cupsHeight h) (cupsWidth h) c
                (u32 (cupsHeight h * rowsize g1) - Z.of_nat c)
                (fun _ bp => bp) (- Z.of_nat c) /\
     (rowsize g1 = 0 -> 1 <= cupsHeight h -> 1 <= cupsWidth h ->
      turned = Undefined)).
Proof.
  intros Hrun Hbox Hok Hr. cbv zeta.
  rewrite (run_pages_prefix _ _ _ _ _ _ Hrun). rewrite Z.add_0_l.
  cbn [run_pages emit bind fst snd].
  destruct (outPage_rotate_call g1 page (Z.of_nat (length pages1))
              Hbox Hok Hr) as (rest & o & -> & Hund).
  split; [|split; [|split]].
  - destruct o as [g2| |]; cbn [bind app fst snd].
    + destruct (run_pages pages2 _ g2) as [t2 o2]. cbn [fst snd app].
      eexists. cbn [app]. reflexivity.
    + eexists. reflexivity.
    + eexists. reflexivity.
  - intros Hu. rewrite (Hund Hu). reflexivity.
  - destruct (run_pages_rowsize _ _ _ _ _ Hrun)
      as [[Hskip ->]|(before & after & p & gp & tp & c & -> & Hb & Hs & Hc
                      & Hh & _ & Hrs)].
    + left. repeat split. exact Hskip.
    + right. exists before, after, p, gp, tp, c.
      rewrite Z.add_0_l in Hc, Hh. auto 10.
  - intros c Hc H180. rewrite H180. split.
    + now apply rotatebitmap_180_loops.
    + intros H0 HH HW. rewrite H0.
      now apply (rotatebitmap_180_zero_stride _ _ _ _ _ c).
Qed.

(** ** The mirrored line *)



Section LineFacts.
Context `{CupsFilters}.




Lemma write_lines_calls (g : globals) (pgno : Z) :
  Forall (line_call g) ((write_lines g pgno).1).
Proof.
  assert (Hbands : forall row plane bp,
            Forall (line_call g) ((write_bands g row plane bp).1)).
  { intros row plane bp. unfold write_bands. apply for_loop_trace.
    intros i s. simpl. repeat constructor. }
  unfold write_lines.
  destruct (backside g pgno && swap_image_y (swap g));
    apply for_loop_trace; intros plane s;
    (apply bind_trace; [|intros; constructor]);
    apply for_loop_trace; intros h bp;
    (apply bind_trace; [apply Hbands|intros; constructor]).
Qed.


End LineFacts.

Example convertReverseLine_example :
  convertReverseLine (H := plain_filters)
    (selected_globals 8 CUPS_ORDER_CHUNKED) six_bytes (blank 6) (blank 6) 0 0 2
  = Done [Byte.x04; Byte.x05; Byte.x06; Byte.x01; Byte.x02; Byte.x03] /\
  convertReverseLine (H := plain_filters)
    (selected_globals 16 CUPS_ORDER_CHUNKED) six_bytes (blank 6) (blank 6) 0 0 2
  = Done [Byte.x04; Byte.x05; Byte.x06; Byte.x01; Byte.x02; Byte.x03].
Proof. split; reflexivity. Qed.


(** *** Witnesses of the rotator *)

Lemma rotatebitmap_180_matched_witness :
  exists d,
    rotatebitmap six_bytes (blank 6) 180 2 3 (3 * Z.of_nat 1) DeviceGray
    = Done d /\
    len d = 2 * 3 * Z.of_nat 1 /\
    (forall h w j, 0 <= h < 2 -> 0 <= w < 3 -> 0 <= j < Z.of_nat 1 ->
       rd d ((h * 3 + w) * Z.of_nat 1 + j)
       = rd six_bytes (((2 - 1 - h) * 3 + (3 - 1 - w)) * Z.of_nat 1 + j)) /\
    (forall k j, 0 <= k < 2 * 3 -> 0 <= j < Z.of_nat 1 ->
       rd d (k * Z.of_nat 1 + j)
       = rd six_bytes ((2 * 3 - 1 - k) * Z.of_nat 1 + j)) /\
    (1%nat = 1%nat ->
     forall i, 0 <= i < 2 * 3 -> rd d i = rd six_bytes (2 * 3 - 1 - i)).
Proof.
  apply (rotatebitmap_180_matched six_bytes (blank 6) 2 3 DeviceGray 1);
    vm_compute; congruence.
Defined.

Lemma rotatebitmap_round_trip_witness :
  rotatebitmap six_bytes (blank 6) 0 2 3 (3 * Z.of_nat 1) DeviceGray
  = Done six_bytes /\
  (exists y,
     rotatebitmap six_bytes (blank 6) 180 2 3 (3 * Z.of_nat 1) DeviceGray
     = Done y /\
     rotatebitmap y (blank 6) 180 2 3 (3 * Z.of_nat 1) DeviceGray
     = Done six_bytes) /\
  (exists y,
     rotatebitmap six_bytes (blank 6) 90 3 2 0 DeviceGray = Done y /\
     rotatebitmap y (blank 6) 270 2 3 0 DeviceGray = Done six_bytes).
Proof.
  apply (rotatebitmap_round_trip six_bytes (blank 6) (blank 6) 2 3
           DeviceGray 1 0 0); vm_compute; congruence.
Defined.

Lemma selectConvertFunc_total_witness :
  exists g' f,
    selectConvertFunc DeviceGray 0
      (start_globals (rgb_header false) no_swap) = ([], Done g') /\
    convertcspace g' = Some f /\
    (exists l, convertline g' = Some l) /\
    f = match defined_conversion
                (cupsColorSpace (header (start_globals (rgb_header false)
                                           no_swap))) DeviceGray with
        | Some f' => f'
        | None => fp_convertcspaceNoop
        end /\
    (defined_conversion
       (cupsColorSpace (header (start_globals (rgb_header false) no_swap)))
       DeviceGray = None ->
     forall g0 src dst row pixels,
       cspace_fn (H := plain_filters) f g0 src dst row pixels = src).
Proof.
  apply (selectConvertFunc_total (H := plain_filters)); vm_compute; tauto.
Defined.

(** *** Witnesses of the page loop *)

Lemma rotate_page_stale_rowsize_witness :
  exists rest,
    (run_pages ([rotated_page 0 [rgb_strip 4 1]]
                ++ rotated_page 180 [rgb_strip 2 2] :: [])
       0 (plane_setup (parseOpts two_page_job))).1
    = (run_pages [rotated_page 0 [rgb_strip 4 1]] 0
         (plane_setup (parseOpts two_page_job))).1
      ++ [EvLog (InfoStartingPage 2); EvLog DebugMediaBox;
          EvHeader (mkHeader false false 2 2 8 24 6 CUPS_ORDER_CHUNKED
                      CUPS_CSPACE_RGB 3 (Some (mkGeometry 1 2 3 4 612 792)));
          EvRotate 180 2 2 12 DeviceRGB]
      ++ rest.
Proof.
  refine (proj1 (rotate_page_stale_rowsize two_page_job
                   [rotated_page 0 [rgb_strip 4 1]] []
                   (rotated_page 180 [rgb_strip 2 2])
                   (run_pages [rotated_page 0 [rgb_strip 4 1]] 0
                      (plane_setup (parseOpts two_page_job))).1
                   (after_pages [rotated_page 0 [rgb_strip 4 1]]
                      (plane_setup (parseOpts two_page_job)))
                   _ _ _ _)); vm_compute; congruence.
Defined.

Lemma outPage_swap_fold_witness :
  rotations
    ((outPage
        (after_pages [rotated_page 0 [rgb_strip 2 1]]
           (start_globals (rgb_header true) (mkSwap true true true true)))
        (rotated_page 0 [rgb_strip 2 1]) 1).1)
  = [180].
Proof.
  refine (proj1 (proj2 (proj1 (outPage_swap_fold
            (after_pages [rotated_page 0 [rgb_strip 2 1]]
               (start_globals (rgb_header true) (mkSwap true true true true)))
            (rotated_page 0 [rgb_strip 2 1]) 1) _ _ _ _ _)));
    reflexivity.
Defined.

Lemma parseOpts_duplex_table_witness :
  parseOpts_duplex true true
    (mkPpdDuplex (Some "ManualTumble"%string) false (Some "True"%string))
    no_swap
  = mkSwap true true true false.
Proof.
  refine (proj1 (proj1 (proj2 (parseOpts_duplex_table true true
            (mkPpdDuplex (Some "ManualTumble"%string) false
               (Some "True"%string)))) eq_refl) _).
  left. split; reflexivity.
Defined.

Lemma outPage_skips_witness :
  outPage (start_globals (rgb_header false) no_swap)
    (sample_page [] [rgb_strip 2 1]) 4
  = ([EvLog (ErrNoMediaBox (4 + 1))],
     Done (start_globals (rgb_header false) no_swap)).
Proof.
  apply outPage_skips. right. left. reflexivity.
Defined.

(** The two pairs C5 names have no conversion. *)
Example unmapped_pairs :
  defined_conversion CUPS_CSPACE_RGB DeviceRGB = None /\
  defined_conversion CUPS_CSPACE_SRGB DeviceRGB = None /\
  defined_conversion CUPS_CSPACE_ADOBERGB DeviceRGB = None /\
  defined_conversion CUPS_CSPACE_W DeviceGray = None /\
  defined_conversion CUPS_CSPACE_SW DeviceGray = None /\
  defined_conversion CUPS_CSPACE_CMYK DeviceCMYK = None.
Proof. repeat split. Qed.

(** The first scenario: width 4, height 2, 16 bytes per line, two
    scanlines through [convertLine], exit status 0. *)
Example cmyk_job_trace :
  main cmyk_job
  = ([EvLog (InfoStartingPage 1); EvLog DebugMediaBox;
      EvHeader (mkHeader false false 4 2 8 32 16 CUPS_ORDER_CHUNKED
                  CUPS_CSPACE_CMYK 4
                  (Some (mkGeometry 1 2 3 4 612 792)));
      EvPixels (Some fp_convertLine) 0 0 0 4 16;
      EvPixels (Some fp_convertLine) 12 1 0 4 16], Done 0) /\
  convertcspace (after_pages [sample_page [("/MediaBox"%string, letter_box)]
                                [rgb_strip 4 2]]
                   (plane_setup (parseOpts cmyk_job)))
  = Some fp_RGBtoCMYKLine.
Proof. split; vm_compute; reflexivity. Qed.

(** The second scenario: the flags are all set, and the backside is
    turned by 180 degrees and then written with the plain line function
    in the order of its rows. *)
Example rotated_backside_job_trace :
  swap (parseOpts rotated_backside_job) = mkSwap true true true true /\
  rotations ((main rotated_backside_job).1) = [180] /\
  exists h,
    (main rotated_backside_job).1
    = [EvLog (InfoStartingPage 1); EvLog DebugMediaBox;
       EvHeader (mkHeader true false 2 1 8 24 6 CUPS_ORDER_CHUNKED
                   CUPS_CSPACE_RGB 3 (Some (mkGeometry 1 2 3 4 612 792)));
       EvPixels (Some fp_convertLine) 0 0 0 2 6;
       EvLog (InfoStartingPage 2); EvLog DebugMediaBox;
       EvHeader h;
       EvRotate 180 1 2 6 DeviceRGB;
       EvPixels (Some fp_convertLine) 0 0 0 2 6].
Proof.
  split; [vm_compute; reflexivity|]. split; [vm_compute; reflexivity|].
  eexists. vm_compute. reflexivity.
Qed.

(** In a duplex job whose two image swaps are set, the second sheet's
    backside (page index 3) is not turned: the fold on page index 1 has
    cleared the flags for the rest of the job. *)
Example later_backside_not_rotated :
  rotations
    ((run_pages (repeat (rotated_page 0 [rgb_strip 2 1]) 4) 0
        (start_globals (rgb_header true) (mkSwap true true true true))).1)
  = [180].
Proof. reflexivity. Qed.

(** ** More on the rotator *)

Section RotatorFrame.
Context {A : Type}.
Implicit Types (src dst d : list A).

Lemma load_Done src p x :
  load src p = Done x -> 0 <= p < len src /\ rd src p = Some x.
Proof.
  unfold load, rd, len. destruct (Z.ltb_spec p 0); [discriminate|].
  destruct (src !! Z.to_nat p) as [y|] eqn:E; [|discriminate].
  intros [= ->]. apply lookup_lt_Some in E. split; [lia|reflexivity].
Qed.

Lemma store_Done dst p x d :
  store dst p x = Done d ->
  0 <= p < len dst /\ d = <[Z.to_nat p := x]> dst.
Proof.
  unfold store, len.
  destruct (Z.leb_spec 0 p), (Z.ltb_spec p (Z.of_nat (length dst)));
    simpl; try discriminate.
  intros [= <-]. split; [lia|reflexivity].
Qed.

Lemma copied_refl src dst : copied src dst dst.
Proof. split; [reflexivity|]. intros i. now left. Qed.

Lemma copied_trans src dst d1 d2 :
  copied src dst d1 -> copied src d1 d2 -> copied src dst d2.
Proof.
  intros [L1 C1] [L2 C2]. split; [congruence|]. intros i.
  destruct (C2 i) as [E|R]; [|now right]. rewrite E. apply C1.
Qed.

Lemma copy_pixel_copied (c : nat) : forall j src bp dst dp d,
  copy_pixel c j src bp dst dp = Done d ->
  copied src dst d /\
  forall i, i < dp + j \/ dp + j + Z.of_nat c <= i -> rd d i = rd dst i.
Proof.
  induction c as [|c IH]; intros j src bp dst dp d; cbn [copy_pixel].
  - intros [= <-]. split; [apply copied_refl|reflexivity].
  - destruct (load src (bp + j)) as [x| |] eqn:El; cbn [obind];
      try discriminate.
    destruct (store dst (dp + j) x) as [d1| |] eqn:Es; cbn [obind];
      try discriminate.
    intros Hd. apply load_Done in El as [Hb Hx].
    apply store_Done in Es as [Hp ->].
    destruct (IH _ _ _ _ _ _ Hd) as [Hc Hf]. split.
    + apply (copied_trans src dst (<[Z.to_nat (dp + j) := x]> dst) d);
        [|exact Hc].
      split; [apply len_insert|]. intros i. rewrite rd_insert by exact Hp.
      destruct (Z.eqb_spec i (dp + j)); [right|now left].
      exists (bp + j). now split.
    + intros i Hi. rewrite Hf by lia. rewrite rd_insert by exact Hp.
      destruct (Z.eqb_spec i (dp + j)); [lia|reflexivity].
Qed.

Lemma copy_row_copied (c : nat) (step : Z) src :
  forall (n : nat) (k k' : cursor),
  copy_row n c step src k = Done k' ->
  cur_dp k' = cur_dp k + Z.of_nat n * Z.of_nat c /\
  copied src (cur_dst k) (cur_dst k') /\
  forall i, i < cur_dp k \/ cur_dp k + Z.of_nat n * Z.of_nat c <= i ->
    rd (cur_dst k') i = rd (cur_dst k) i.
Proof.
  induction n as [|n IH]; intros [bp dp dst] k'; cbn [copy_row cur_bp cur_dp cur_dst].
  - intros [= <-]. cbn. split; [lia|]. split; [apply copied_refl|reflexivity].
  - destruct (copy_pixel c 0 src bp dst dp) as [d1| |] eqn:Ep; cbn [obind];
      try discriminate.
    intros Hr. apply copy_pixel_copied in Ep as [Hc1 Hf1].
    apply IH in Hr. cbn [cur_bp cur_dp cur_dst] in Hr.
    destruct Hr as (Hdp & Hc & Hf).
    rewrite Nat2Z.inj_succ. unfold Z.succ.
    assert (0 <= Z.of_nat n * Z.of_nat c) by (apply Z.mul_nonneg_nonneg; lia).
    split; [lia|]. split; [now apply (copied_trans _ _ _ _ Hc1)|].
    intros i Hi. rewrite Hf by lia. apply Hf1. lia.
Qed.

Lemma copy_rows_copied (c : nat) (step : Z) (start : Z -> Z -> Z) (W : nat)
    src : forall (n : nat) (h : Z) (k k' : cursor),
  copy_rows n h start W c step src k = Done k' ->
  cur_dp k' = cur_dp k + Z.of_nat n * (Z.of_nat W * Z.of_nat c) /\
  copied src (cur_dst k) (cur_dst k') /\
  forall i,
    i < cur_dp k \/ cur_dp k + Z.of_nat n * (Z.of_nat W * Z.of_nat c) <= i ->
    rd (cur_dst k') i = rd (cur_dst k) i.
Proof.
  assert (HWc : 0 <= Z.of_nat W * Z.of_nat c)
    by (apply Z.mul_nonneg_nonneg; lia).
  induction n as [|n IH]; intros h [bp dp dst] k';
    cbn [copy_rows cur_bp cur_dp cur_dst].
  - intros [= <-]. cbn. split; [lia|]. split; [apply copied_refl|reflexivity].
  - destruct (copy_row W c step src (mkCursor (start h bp) dp dst))
      as [k1| |] eqn:Er; cbn [obind]; try discriminate.
    intros Hrest. apply copy_row_copied in Er.
    cbn [cur_bp cur_dp cur_dst] in Er. destruct Er as (Hdp1 & Hc1 & Hf1).
    apply IH in Hrest. destruct Hrest as (Hdp & Hc & Hf).
    rewrite Nat2Z.inj_succ. unfold Z.succ.
    assert (0 <= Z.of_nat n * (Z.of_nat W * Z.of_nat c))
      by (apply Z.mul_nonneg_nonneg; lia).
    split; [lia|]. split; [now apply (copied_trans _ _ _ _ Hc1)|].
    intros i Hi. rewrite Hf by lia. apply Hf1. lia.
Qed.

Lemma rotate_loops_copied src dst (H W : Z) (c : nat) (bp0 : Z)
    (start : Z -> Z -> Z) (step : Z) d :
  rotate_loops src dst H W c bp0 start step = Done d ->
  copied src dst d /\
  forall i, Z.max 0 H * Z.max 0 W * Z.of_nat c <= i -> rd d i = rd dst i.
Proof.
  unfold rotate_loops.
  destruct (copy_rows _ _ _ _ _ _ _ _) as [k| |] eqn:E; cbn [obind];
    try discriminate.
  intros [= <-]. apply copy_rows_copied in E.
  cbn [cur_dp cur_dst] in E. destruct E as (_ & Hc & Hf).
  split; [exact Hc|]. intros i Hi. apply Hf. right.
  replace (Z.of_nat (Z.to_nat H)) with (Z.max 0 H) by lia.
  replace (Z.of_nat (Z.to_nat W)) with (Z.max 0 W) by lia. lia.
Qed.

(** A turn that is not the identity is one nest of the two loops, or
    nothing at all when the colorspace is not one of the three. *)
Lemma rotatebitmap_loops src dst (rotate H W rs : Z) (cs : string) d :
  rotate <> 0 ->
  rotatebitmap src dst rotate H W rs cs = Done d ->
  (components cs = None /\ d = dst) \/
  exists (c : nat) (bp0 : Z) (start : Z -> Z -> Z) (step : Z),
    components cs = Some c /\
    rotate_loops src dst H W c bp0 start step = Done d.
Proof.
  intros Hr. unfold rotatebitmap, components.
  destruct (Z.eqb_spec rotate 0); [contradiction|].
  change (String.eqb cs "/DeviceGray") with (String.eqb cs DeviceGray).
  change (String.eqb cs "/DeviceCMYK") with (String.eqb cs DeviceCMYK).
  change (String.eqb cs "/DeviceRGB") with (String.eqb cs DeviceRGB).
  destruct (rotate =? 180); [|destruct (rotate =? 270);
                               [|destruct (rotate =? 90); [|discriminate]]];
    (destruct (String.eqb cs DeviceGray);
     [intros E; right; do 4 eexists; split; [reflexivity|exact E]|]);
    (destruct (String.eqb cs DeviceCMYK);
     [intros E; right; do 4 eexists; split; [reflexivity|exact E]|]);
    (destruct (String.eqb cs DeviceRGB);
     [intros E; right; do 4 eexists; split; [reflexivity|exact E]|]);
    intros [= <-]; now left.
Qed.

(** Without a pixel to copy the loops leave the destination alone. *)
Lemma copy_rows_no_width (c : nat) (step : Z) (start : Z -> Z -> Z) src :
  forall (n : nat) (h : Z) (k : cursor),
  exists bp, copy_rows n h start 0 c step src k
             = Done (mkCursor bp (cur_dp k) (cur_dst k)).
Proof.
  induction n as [|n IH]; intros h [bp dp dst]; cbn [copy_rows copy_row obind cur_bp cur_dp cur_dst].
  - eexists. reflexivity.
  - destruct (IH (h + 1) (mkCursor (start h bp) dp dst)) as [bp' E].
    exists bp'. exact E.
Qed.

Lemma rotate_loops_nothing src dst (H W : Z) (c : nat) (bp0 : Z)
    (start : Z -> Z -> Z) (step : Z) :
  H <= 0 \/ W <= 0 ->
  rotate_loops src dst H W c bp0 start step = Done dst.
Proof.
  intros [HH|HW]; unfold rotate_loops.
  - replace (Z.to_nat H) with 0%nat by lia. reflexivity.
  - replace (Z.to_nat W) with 0%nat by lia.
    destruct (copy_rows_no_width c step start src (Z.to_nat H) 0
                (mkCursor bp0 0 dst)) as [bp ->].
    reflexivity.
Qed.

(** X3.  Whatever the stride and the sizes it is given, a turn that ends
    only copies: the result has the length of the destination, each of its
    cells is the cell of the destination at that offset or a copy of a
    cell inside the source, nothing is written at or after offset
    [height * width * components], and with a colorspace that is none of
    the three nothing is written at all. *)
Theorem rotatebitmap_only_copies src dst (rotate H W rs : Z) (cs : string) d :
  rotate <> 0 ->
  rotatebitmap src dst rotate H W rs cs = Done d ->
  len d = len dst /\
  (forall i, rd d i = rd dst i \/
             exists k, 0 <= k < len src /\ rd d i = rd src k) /\
  (forall c : nat, components cs = Some c ->
     forall i, Z.max 0 H * Z.max 0 W * Z.of_nat c <= i -> rd d i = rd dst i) /\
  (components cs = None -> d = dst).
Proof.
  intros Hr Hd.
  destruct (rotatebitmap_loops _ _ _ _ _ _ _ _ Hr Hd)
    as [[Hn ->]|(c & bp0 & start & step & Hc & Hl)].
  - split; [reflexivity|]. split; [now left|]. split; [congruence|reflexivity].
  - apply rotate_loops_copied in Hl. destruct Hl as [[Hlen Hcp] Hf].
    split; [exact Hlen|]. split; [exact Hcp|]. split.
    + intros c' Hc'. assert (c' = c) as -> by congruence. exact Hf.
    + congruence.
Qed.

(** X4.  A right angle other than 0 on an image without a row, without a
    column, or of a colorspace that is none of the three: the destination
    comes back as it was given, whatever the source and the stride. *)
Theorem rotatebitmap_nothing_to_copy src dst (rotate H W rs : Z)
    (cs : string) :
  rotate = 90 \/ rotate = 180 \/ rotate = 270 ->
  H <= 0 \/ W <= 0 \/ components cs = None ->
  rotatebitmap src dst rotate H W rs cs = Done dst.
Proof.
  intros Hr Hn. unfold rotatebitmap, components in *.
  change (String.eqb cs "/DeviceGray") with (String.eqb cs DeviceGray).
  change (String.eqb cs "/DeviceCMYK") with (String.eqb cs DeviceCMYK).
  change (String.eqb cs "/DeviceRGB") with (String.eqb cs DeviceRGB).
  assert (Hdim : H <= 0 \/ W <= 0 \/
                 (String.eqb cs DeviceGray = false /\
                  String.eqb cs DeviceCMYK = false /\
                  String.eqb cs DeviceRGB = false)).
  { destruct Hn as [?|[?|Hn]]; auto. right. right.
    destruct (String.eqb cs DeviceGray); [discriminate|].
    destruct (String.eqb cs DeviceCMYK); [discriminate|].
    destruct (String.eqb cs DeviceRGB); [discriminate|]. auto. }
  destruct Hr as [-> | [-> | ->]]; cbn [Z.eqb Pos.eqb];
    (destruct Hdim as [HH|[HW|[E1 [E2 E3]]]];
     [| |rewrite E1, E2, E3; reflexivity]);
    destruct (String.eqb cs DeviceGray), (String.eqb cs DeviceCMYK),
      (String.eqb cs DeviceRGB);
    try reflexivity; apply rotate_loops_nothing; auto.
Qed.

(** X5.  The two quarter turns, cell by cell.  The rotator is given the
    height [H] and width [W] of its output, so the source has [W] rows of
    [H] pixels.  For angle 90, pixel [q] of output row [r] is pixel [r] of
    source row [W - 1 - q]; for angle 270 it is pixel [H - 1 - r] of source
    row [q].  The components of a pixel keep their order, and the stride
    argument is not used. *)
Theorem rotatebitmap_quarter_turns src dst (H W rs : Z) (cs : string)
    (c : nat) :
  components cs = Some c ->
  1 <= H -> 1 <= W -> H * W * Z.of_nat c < 2 ^ 32 ->
  len src = H * W * Z.of_nat c -> len dst = H * W * Z.of_nat c ->
  (exists d,
     rotatebitmap src dst 90 H W rs cs = Done d /\
     len d = H * W * Z.of_nat c /\
     forall r q j, 0 <= r < H -> 0 <= q < W -> 0 <= j < Z.of_nat c ->
       rd d ((r * W + q) * Z.of_nat c + j)
       = rd src (((W - 1 - q) * H + r) * Z.of_nat c + j)) /\
  (exists d,
     rotatebitmap src dst 270 H W rs cs = Done d /\
     len d = H * W * Z.of_nat c /\
     forall r q j, 0 <= r < H -> 0 <= q < W -> 0 <= j < Z.of_nat c ->
       rd d ((r * W + q) * Z.of_nat c + j)
       = rd src ((q * H + (H - 1 - r)) * Z.of_nat c + j)).
Proof.
  intros Hcs HH HW Hwrap Hsrc Hdst. split.
  - destruct (rotatebitmap_90_cells src dst H W rs cs c)
      as (d & Hd & Hlen & _ & Hcell); try assumption; try lia.
    exists d. split; [exact Hd|]. split; [lia|exact Hcell].
  - destruct (rotatebitmap_270_cells src dst H W rs cs c)
      as (d & Hd & Hlen & _ & Hcell); try assumption; try lia.
    exists d. split; [exact Hd|]. split; [lia|exact Hcell].
Qed.

(** X6.  How the turns compose, for a source of [h0] rows of [w0] pixels
    in any of the three pixel sizes: a quarter turn back and then forth
    gives the source, and two quarter turns the same way give the half
    turn, whichever way they go. *)
Theorem rotatebitmap_turns_compose src dst1 dst2 dst3 (h0 w0 : Z)
    (cs : string) (c : nat) (rs1 rs2 : Z) :
  components cs = Some c ->
  1 <= h0 -> 1 <= w0 -> h0 * w0 * Z.of_nat c < 2 ^ 32 ->
  len src = h0 * w0 * Z.of_nat c ->
  len dst1 = h0 * w0 * Z.of_nat c ->
  len dst2 = h0 * w0 * Z.of_nat c ->
  len dst3 = h0 * w0 * Z.of_nat c ->
  (exists y,
     rotatebitmap src dst1 270 w0 h0 rs1 cs = Done y /\
     rotatebitmap y dst2 90 h0 w0 rs2 cs = Done src) /\
  (exists y z,
     rotatebitmap src dst1 90 w0 h0 rs1 cs = Done y /\
     rotatebitmap y dst2 90 h0 w0 rs2 cs = Done z /\
     rotatebitmap src dst3 180 h0 w0 (w0 * Z.of_nat c) cs = Done z) /\
  (exists y z,
     rotatebitmap src dst1 270 w0 h0 rs1 cs = Done y /\
     rotatebitmap y dst2 270 h0 w0 rs2 cs = Done z /\
     rotatebitmap src dst3 180 h0 w0 (w0 * Z.of_nat c) cs = Done z).
Proof.
  intros Hcs Hh Hw Hwrap Hsrc Hd1 Hd2 Hd3.
  assert (Hc : (1 <= c)%nat).
  { destruct (components_cases _ _ Hcs) as [[_ ->]|[[_ ->]|[_ ->]]]; lia. }
  destruct (rotatebitmap_90_cells src dst1 w0 h0 rs1 cs c)
    as (y9 & Hy9 & Hleny9 & _ & Hcell9); try assumption; try lia.
  destruct (rotatebitmap_270_cells src dst1 w0 h0 rs1 cs c)
    as (y2 & Hy2 & Hleny2 & _ & Hcell2); try assumption; try lia.
  destruct (rotatebitmap_180_rows src dst3 h0 w0 cs c)
    as (x & Hx & Hlenx & Hcellx); try assumption; try lia.
  split; [|split].
  - destruct (rotatebitmap_90_cells y2 dst2 h0 w0 rs2 cs c)
      as (z & Hz & Hlenz & _ & Hcellz); try assumption; try lia.
    exists y2. split; [exact Hy2|]. rewrite Hz. f_equal.
    apply (cells_ext z src h0 w0 c); try lia.
    intros r q j Hr Hq Hj. rewrite Hcellz, Hcell2 by lia. f_equal. lia.
  - destruct (rotatebitmap_90_cells y9 dst2 h0 w0 rs2 cs c)
      as (z & Hz & Hlenz & _ & Hcellz); try assumption; try lia.
    exists y9, z. split; [exact Hy9|]. split; [exact Hz|]. rewrite Hx.
    f_equal. apply (cells_ext x z h0 w0 c); try lia.
    intros r q j Hr Hq Hj. rewrite Hcellz, Hcell9, Hcellx by lia.
    f_equal; lia.
  - destruct (rotatebitmap_270_cells y2 dst2 h0 w0 rs2 cs c)
      as (z & Hz & Hlenz & _ & Hcellz); try assumption; try lia.
    exists y2, z. split; [exact Hy2|]. split; [exact Hz|]. rewrite Hx.
    f_equal. apply (cells_ext x z h0 w0 c); try lia.
    intros r q j Hr Hq Hj. rewrite Hcellz, Hcell2, Hcellx by lia.
    f_equal; lia.
Qed.

End RotatorFrame.

(** ** More on the selection *)

Lemma components_None (cs : string) :
  components cs = None ->
  String.eqb cs DeviceRGB = false /\ String.eqb cs DeviceCMYK = false /\
  String.eqb cs DeviceGray = false.
Proof.
  unfold components.
  destruct (String.eqb cs DeviceGray); [discriminate|].
  destruct (String.eqb cs DeviceCMYK); [discriminate|].
  destruct (String.eqb cs DeviceRGB); [discriminate|]. auto.
Qed.

Lemma selectConvertFunc_unsupported (cs : string) (pgno : Z) (g : globals) :
  components cs = None ->
  selectConvertFunc cs pgno g = ([EvLog (ErrColorspace cs)], Exit 1).
Proof.
  intros Hn. apply components_None in Hn as (E1 & E2 & E3).
  unfold selectConvertFunc. now rewrite E1, E2, E3.
Qed.

Lemma selectConvertFunc_supported (cs : string) (pgno : Z) (g : globals)
    (c : nat) :
  components cs = Some c ->
  exists g', selectConvertFunc cs pgno g = ([], Done g').
Proof.
  intros Hc. unfold selectConvertFunc.
  destruct (components_cases _ _ Hc) as [[-> _]|[[-> _]|[-> _]]];
    eexists; reflexivity.
Qed.

(** The converter of a device colorspace that is none of the eight the
    [switch] names. *)
Lemma select_cspace_default (cs : string) (g : globals) (code : Z) (c : nat) :
  cupsColorSpace (header g) = CUPS_CSPACE_OTHER code ->
  components cs = Some c ->
  convertcspace (select_cspace cs (set_convertcspace (Some fp_convertcspaceNoop) g))
  = Some (match defined_conversion CUPS_CSPACE_RGB cs with
          | Some f => f
          | None => fp_convertcspaceNoop
          end).
Proof.
  intros Hcode Hc. unfold select_cspace. cbn [header set_convertcspace].
  rewrite Hcode.
  destruct (components_cases _ _ Hc) as [[-> _]|[[-> _]|[-> _]]]; reflexivity.
Qed.

(** X7.  What the selection stores besides the two function pointers.
    For a colorspace that is none of the three it logs the name and exits
    with status 1.  Otherwise it ends without a word on [stderr], with
    [numcolors] the number of components of the colorspace and [rowsize]
    the width of the header times that number, as an [int]; the header,
    the swap flags and the other globals are as before.  A device
    colorspace outside the eight that the [switch] names gets the
    converters of the RGB family. *)
Theorem selectConvertFunc_stride (cs : string) (pgno : Z) (g : globals) :
  (components cs = None ->
   selectConvertFunc cs pgno g = ([EvLog (ErrColorspace cs)], Exit 1)) /\
  (forall c : nat, components cs = Some c ->
   exists g',
     selectConvertFunc cs pgno g = ([], Done g') /\
     numcolors g' = Z.of_nat c /\
     rowsize g' = i32 (cupsWidth (header g) * Z.of_nat c) /\
     header g' = header g /\ swap g' = swap g /\
     bi_level g' = bi_level g /\ nplanes g' = nplanes g /\
     nbands g' = nbands g /\ bytesPerLine g' = bytesPerLine g /\
     (forall code, cupsColorSpace (header g) = CUPS_CSPACE_OTHER code ->
        convertcspace g'
        = Some (match defined_conversion CUPS_CSPACE_RGB cs with
                | Some f => f
                | None => fp_convertcspaceNoop
                end))).
Proof.
  split; [apply selectConvertFunc_unsupported|].
  intros c Hc. destruct (selectConvertFunc_supported cs pgno g c Hc) as [g' E].
  exists g'. split; [exact E|].
  destruct (selectConvertFunc_frame _ _ _ _ _ E)
    as (Hh & Hs & Hb & Hp & Hn & Hl & _ & c' & Hc' & Hnc & Hrs).
  assert (c' = c) as -> by congruence.
  repeat (split; [assumption|]).
  intros code Hcode. revert E. unfold selectConvertFunc.
  destruct (components_cases _ _ Hc) as [[-> _]|[[-> _]|[-> _]]];
    cbn [String.eqb Ascii.eqb Bool.eqb DeviceRGB DeviceCMYK DeviceGray bind ret app];
    intros [= <-];
    match goal with
    | |- context [select_cspace ?cs (set_convertcspace _ ?g1)] =>
        pose proof (select_cspace_default cs g1 code _ Hcode Hc) as Hd
    end;
    destruct (backside _ _ && _); exact Hd.
Qed.

(** X8.  The selection reads the header, the swap flags and the page
    number only: whatever the two function pointers, [numcolors] and
    [rowsize] held before, it leaves the same globals, so nothing of an
    earlier page's selection survives it; and selecting again for the same
    page changes nothing. *)
Theorem selectConvertFunc_fresh (cs : string) (pgno : Z) (g : globals) :
  (forall (cc : option ConvertCSpace) (cl : option ConvertLine) (nc rs : Z),
     selectConvertFunc cs pgno
       (mkGlobals cc cl nc rs (header g) (bi_level g) (swap g) (nplanes g)
          (nbands g) (bytesPerLine g))
     = selectConvertFunc cs pgno g) /\
  (forall t g', selectConvertFunc cs pgno g = (t, Done g') ->
     selectConvertFunc cs pgno g' = ([], Done g')).
Proof.
  assert (Hfresh : forall (g1 g2 : globals),
    header g1 = header g2 -> bi_level g1 = bi_level g2 ->
    swap g1 = swap g2 -> nplanes g1 = nplanes g2 -> nbands g1 = nbands g2 ->
    bytesPerLine g1 = bytesPerLine g2 ->
    selectConvertFunc cs pgno g1 = selectConvertFunc cs pgno g2).
  { intros [cc1 cl1 nc1 rs1 h1 b1 s1 np1 nb1 bpl1]
           [cc2 cl2 nc2 rs2 h2 b2 s2 np2 nb2 bpl2]; cbn.
    intros -> -> -> -> -> ->. unfold selectConvertFunc, select_cspace, backside.
    destruct (String.eqb cs DeviceRGB), (String.eqb cs DeviceCMYK),
      (String.eqb cs DeviceGray); cbn -[i32 Z.mul Z.land];
      destruct (cupsColorSpace h2); reflexivity. }
  split.
  - intros cc cl nc rs. now apply Hfresh.
  - intros t g' E.
    destruct (selectConvertFunc_frame _ _ _ _ _ E)
      as (Hh & Hs & Hb & Hp & Hn & Hl & _).
    rewrite (Hfresh g' g) by assumption.
    rewrite E. f_equal.
    revert E. unfold selectConvertFunc.
    destruct (String.eqb cs DeviceRGB); [now intros [= <- _]|].
    destruct (String.eqb cs DeviceCMYK); [now intros [= <- _]|].
    destruct (String.eqb cs DeviceGray); [now intros [= <- _]|].
    discriminate.
Qed.

(** ** The scanlines of a page *)

Lemma seqZ_to_nat (m n : Z) : seqZ m (Z.of_nat (Z.to_nat n)) = seqZ m n.
Proof. unfold seqZ. now rewrite Nat2Z.id. Qed.

Lemma seqZ_succ (m : Z) (n : nat) :
  seqZ m (Z.of_nat (S n)) = m :: seqZ (m + 1) (Z.of_nat n).
Proof.
  rewrite seqZ_cons by lia. f_equal. f_equal. lia.
Qed.

Lemma emit_loop (E : Z -> event) : forall (n : nat) (i : Z),
  for_loop n i 1 (fun band _ => emit (E band)) tt
  = (map E (seqZ i (Z.of_nat n)), Done tt).
Proof.
  induction n as [|n IH]; intros i.
  - reflexivity.
  - cbn [for_loop emit bind]. rewrite IH, seqZ_succ. reflexivity.
Qed.

Lemma write_bands_eq (g : globals) (row plane bp : Z) :
  write_bands g row plane bp = (band_calls g bp row plane, Done tt).
Proof.
  unfold write_bands, band_calls. rewrite emit_loop. now rewrite seqZ_to_nat.
Qed.

(** The loop over the rows of one plane: row [k] of the loop is written
    from offset [bp + k * d]. *)
Lemma rows_loop (g : globals) (plane : Z) (rowf nx : Z -> Z) (d step : Z) :
  (forall b, nx b = b + d) ->
  forall (n : nat) (h bp : Z),
  for_loop n h step
    (fun h bp => write_bands g (rowf h) plane bp;; ret (nx bp)) bp
  = (flat_map (fun k => band_calls g (bp + k * d) (rowf (h + k * step)) plane)
       (seqZ 0 (Z.of_nat n)),
     Done (bp + Z.of_nat n * d)).
Proof.
  intros Hnx. induction n as [|n IH]; intros h bp.
  - cbn [for_loop ret]. rewrite (seqZ_nil 0) by lia. cbn [flat_map].
    unfold ret. do 2 f_equal. lia.
  - cbn [for_loop]. rewrite write_bands_eq. cbn [bind ret].
    rewrite IH, Hnx, seqZ_succ. cbn [flat_map].
    rewrite app_nil_r. f_equal.
    + f_equal; [do 2 f_equal; lia|].
      rewrite <- (fmap_add_seqZ 1 0).
      change (flat_map ?f (?h <$> ?l)) with (flat_map f (map h l)).
      rewrite !flat_map_concat_map, map_map. f_equal.
      apply map_ext. intros k. f_equal; [lia|f_equal; lia].
    + f_equal. lia.
Qed.

Lemma planes_loop (rowsM : Z -> M Z) (T : Z -> list event) :
  (forall plane, exists x, rowsM plane = (T plane, Done x)) ->
  forall (n : nat) (i : Z),
  for_loop n i 1 (fun plane _ => rowsM plane;; ret tt) tt
  = (flat_map T (seqZ i (Z.of_nat n)), Done tt).
Proof.
  intros HT. induction n as [|n IH]; intros i.
  - reflexivity.
  - cbn [for_loop]. destruct (HT i) as [x ->]. cbn [bind ret].
    rewrite IH, seqZ_succ, app_nil_r. reflexivity.
Qed.

(** The scanlines of a page, with the row and the offset of each step of
    the loop over the rows left open. *)
Lemma write_lines_shape (g : globals) (pgno : Z) :
  exists bpf rowf : Z -> Z,
    write_lines g pgno
    = (flat_map
         (fun plane =>
            flat_map (fun k => band_calls g (bpf k) (rowf k) plane)
              (seqZ 0 (cupsHeight (header g))))
         (seqZ 0 (nplanes g)),
       Done tt) /\
    if backside g pgno && swap_image_y (swap g)
    then bpf = (fun k => u32 (u32 (cupsHeight (header g) - 1) * rowsize g)
                         + k * - rowsize g) /\
         rowf = (fun k => u32 (cupsHeight (header g) + k * -1 - 1))
    else bpf = (fun k => 0 + k * rowsize g) /\ rowf = (fun k => 0 + k * 1).
Proof.
  unfold write_lines.
  destruct (backside g pgno && swap_image_y (swap g)).
  - eexists. eexists. split; [|split; reflexivity].
    rewrite <- (seqZ_to_nat 0 (nplanes g)).
    apply planes_loop. intros plane. eexists.
    rewrite (rows_loop g plane (fun h => u32 (h - 1))
               (fun bp => bp - rowsize g) (- rowsize g) (-1))
      by (intros; lia).
    rewrite seqZ_to_nat. reflexivity.
  - eexists. eexists. split; [|split; reflexivity].
    rewrite <- (seqZ_to_nat 0 (nplanes g)).
    apply planes_loop. intros plane. eexists.
    rewrite (rows_loop g plane (fun h => h) (fun bp => bp + rowsize g)
               (rowsize g) 1) by reflexivity.
    rewrite seqZ_to_nat. reflexivity.
Qed.

Lemma flat_map_ext_elem {A B : Type} (f h : A -> list B) (l : list A) :
  (forall a, In a l -> f a = h a) -> flat_map f l = flat_map h l.
Proof.
  intros E. rewrite !flat_map_concat_map. f_equal. now apply map_ext_in.
Qed.

Lemma In_seqZ (m n k : Z) : In k (seqZ m n) -> m <= k < m + n.
Proof. intros Hin. apply elem_of_seqZ. now apply list_elem_of_In. Qed.

Lemma seqZ_rev (n : nat) :
  map (fun k => Z.of_nat n - 1 - k) (seqZ 0 (Z.of_nat n))
  = rev (seqZ 0 (Z.of_nat n)).
Proof.
  induction n as [|n IH]; [reflexivity|].
  rewrite seqZ_S at 2. rewrite rev_unit, <- IH, seqZ_succ. cbn [map].
  f_equal; [lia|].
  rewrite <- (fmap_add_seqZ 1 0).
  change (map ?f (?h <$> ?l)) with (map f (map h l)).
  rewrite map_map. apply map_ext. intros k. lia.
Qed.

Lemma write_lines_forward (g : globals) (pgno : Z) :
  backside g pgno && swap_image_y (swap g) = false ->
  write_lines g pgno
  = (row_calls g (seqZ 0 (cupsHeight (header g))), Done tt).
Proof.
  intros Hb. destruct (write_lines_shape g pgno) as (bpf & rowf & E & Hf).
  rewrite Hb in Hf. destruct Hf as [-> ->]. rewrite E.
  f_equal. unfold row_calls. apply flat_map_ext. intros plane.
  apply flat_map_ext. intros k. f_equal; lia.
Qed.

Lemma write_lines_backward (g : globals) (pgno : Z) :
  backside g pgno && swap_image_y (swap g) = true ->
  cupsHeight (header g) <= 2 ^ 32 ->
  (1 <= cupsHeight (header g) ->
   0 <= (cupsHeight (header g) - 1) * rowsize g < 2 ^ 32) ->
  write_lines g pgno
  = (row_calls g (rev (seqZ 0 (cupsHeight (header g)))), Done tt).
Proof.
  intros Hb Hmax Hoff.
  destruct (write_lines_shape g pgno) as (bpf & rowf & E & Hf).
  rewrite Hb in Hf. destruct Hf as [-> ->]. rewrite E.
  f_equal. unfold row_calls. apply flat_map_ext. intros plane.
  set (H := cupsHeight (header g)) in *.
  destruct (Z.le_gt_cases H 0) as [H0|H1].
  { now rewrite (seqZ_nil 0 H) by lia. }
  rewrite <- (seqZ_to_nat 0 H), <- seqZ_rev, seqZ_to_nat.
  rewrite !flat_map_concat_map, map_map. f_equal.
  apply map_ext_in. intros k Hk. apply In_seqZ in Hk.
  rewrite Z2Nat.id by lia.
  rewrite (u32_small (H - 1)) by lia.
  rewrite (u32_small ((H - 1) * rowsize g)) by lia.
  rewrite (u32_small (H + k * -1 - 1)) by lia.
  f_equal; lia.
Qed.

(** X9.  The order of the scanlines of a page.  They are written plane by
    plane; within a plane row [r] is read at offset [r * rowsize] and
    written once for each band.  The rows go from the first to the last,
    except on a duplex backside whose image-y swap is still set, where
    they go from the last to the first (as long as the offset of the last
    row fits 32 bits). *)
Theorem write_lines_rows (g : globals) (pgno : Z) :
  (backside g pgno && swap_image_y (swap g) = false ->
   write_lines g pgno
   = (row_calls g (seqZ 0 (cupsHeight (header g))), Done tt)) /\
  (backside g pgno && swap_image_y (swap g) = true ->
   cupsHeight (header g) <= 2 ^ 32 ->
   (1 <= cupsHeight (header g) ->
    0 <= (cupsHeight (header g) - 1) * rowsize g < 2 ^ 32) ->
   write_lines g pgno
   = (row_calls g (rev (seqZ 0 (cupsHeight (header g)))), Done tt)).
Proof.
  split; [apply write_lines_forward|apply write_lines_backward].
Qed.

(** *** Counting *)

Lemma scanline_bytes_app (t1 t2 : list event) :
  scanline_bytes (t1 ++ t2) = scanline_bytes t1 ++ scanline_bytes t2.
Proof. unfold scanline_bytes. apply flat_map_app. Qed.

Lemma headers_app (t1 t2 : list event) :
  headers (t1 ++ t2) = headers t1 ++ headers t2.
Proof. unfold headers. apply flat_map_app. Qed.

Lemma band_calls_bytes (g : globals) (bp row plane : Z) :
  scanline_bytes (band_calls g bp row plane)
  = repeat (bytesPerLine g) (Z.to_nat (nbands g)).
Proof.
  unfold band_calls. rewrite <- (length_seqZ 0 (nbands g)).
  induction (seqZ 0 (nbands g)) as [|b l IH]; [reflexivity|].
  cbn. unfold scanline_bytes in IH. now rewrite IH.
Qed.

Lemma repeat_flat_map {A B : Type} (f : A -> list B) (x : B) (m : nat)
    (l : list A) :
  (forall a, f a = repeat x m) ->
  flat_map f l = repeat x (length l * m).
Proof.
  intros Hf. induction l as [|a l IH]; [reflexivity|].
  cbn [flat_map length Nat.mul]. now rewrite Hf, IH, repeat_app.
Qed.

Lemma scanline_bytes_flat_map {A : Type} (f : A -> list event) (l : list A) :
  scanline_bytes (flat_map f l) = flat_map (fun a => scanline_bytes (f a)) l.
Proof.
  induction l as [|a l IH]; [reflexivity|].
  cbn [flat_map]. now rewrite scanline_bytes_app, IH.
Qed.

Lemma write_lines_bytes (g : globals) (pgno : Z) :
  scanline_bytes ((write_lines g pgno).1)
  = repeat (bytesPerLine g)
      (Z.to_nat (nplanes g)
       * (Z.to_nat (cupsHeight (header g)) * Z.to_nat (nbands g))).
Proof.
  destruct (write_lines_shape g pgno) as (bpf & rowf & -> & _). cbn [fst].
  rewrite scanline_bytes_flat_map.
  rewrite <- (length_seqZ 0 (nplanes g)).
  apply repeat_flat_map. intros plane.
  rewrite scanline_bytes_flat_map.
  rewrite <- (length_seqZ 0 (cupsHeight (header g))).
  apply repeat_flat_map. intros k. apply band_calls_bytes.
Qed.

Lemma headers_pixels (t : list event) : Forall is_pixels t -> headers t = [].
Proof.
  induction 1 as [|e t He _ IH]; [reflexivity|].
  destruct e; try contradiction. exact IH.
Qed.

(** *** A page that is written to its end *)

Lemma selectConvertFunc_silent (cs : string) (pgno : Z) (g g' : globals)
    (t : list event) :
  selectConvertFunc cs pgno g = (t, Done g') -> t = [].
Proof.
  unfold selectConvertFunc.
  destruct (String.eqb cs DeviceRGB); [now intros [= <- _]|].
  destruct (String.eqb cs DeviceCMYK); [now intros [= <- _]|].
  destruct (String.eqb cs DeviceGray); [now intros [= <- _]|].
  discriminate.
Qed.

Lemma selectConvertFunc_pointers (cs : string) (pgno : Z) (g g' : globals)
    (t : list event) :
  selectConvertFunc cs pgno g = (t, Done g') ->
  exists f, convertcspace g' = Some f.
Proof.
  unfold selectConvertFunc, select_cspace.
  destruct (String.eqb cs DeviceRGB), (String.eqb cs DeviceCMYK),
    (String.eqb cs DeviceGray); cbn -[i32 Z.mul Z.land backside];
    try discriminate;
    intros [= _ <-];
    destruct (cupsColorSpace _), (backside _ _ && _); eexists; reflexivity.
Qed.

Lemma rotate_page_Done (g : globals) (rotate : Z) (bitmap : list byte)
    (cs : string) (t : list event) (d : list (option byte)) :
  rotate_page g rotate bitmap cs = (t, Done d) ->
  t = if rotate =? 0 then []
      else [EvRotate (u32 rotate) (cupsHeight (header g))
              (cupsWidth (header g)) (rowsize g) cs].
Proof.
  unfold rotate_page. destruct (rotate =? 0); [now intros [= <- _]|].
  destruct (rotatebitmap _ _ _ _ _ _ _); cbn; try discriminate.
  now intros [= <- _].
Qed.

Lemma outPage_Done_trace (g : globals) (page : Page) (pgno : Z)
    (g' : globals) :
  (outPage g page pgno).2 = Done g' ->
  mediaboxlookup (page_obj page) = Done true ->
  header g' = header (header_stage g page pgno) /\
  selectConvertFunc (page_colorspace g page pgno) pgno
    (folded_globals g page pgno) = ([], Done g') /\
  (outPage g page pgno).1
  = EvLog DebugMediaBox :: EvHeader (header g')
      :: rotate_events g page pgno ++ (write_lines g' pgno).1.
Proof.
  intros Hdone Hbox. rewrite outPage_unfold, Hbox in *.
  destruct (page_header_ok page); [|discriminate]. cbn [fst snd] in *.
  unfold page_tail in *.
  destruct (rotate_page _ _ _ _) as [t1 [cd| |]] eqn:Er;
    cbn [bind fst snd] in *; try discriminate.
  destruct (selectConvertFunc _ _ _) as [t2 [g3| |]] eqn:Es;
    cbn [bind fst snd] in *; try discriminate.
  destruct (write_lines_done g3 pgno) as [t3 Ew]. rewrite Ew in *.
  cbn [bind ret fst snd app] in *. injection Hdone as <-.
  pose proof (selectConvertFunc_silent _ _ _ _ _ Es) as ->.
  pose proof (selectConvertFunc_frame _ _ _ _ _ Es) as (Hh & _).
  rewrite header_folded in Hh.
  apply rotate_page_Done in Er. subst t1.
  rewrite rowsize_folded, header_folded, Hh. unfold rotate_events.
  split; [reflexivity|]. split; [reflexivity|].
  rewrite Ew. cbn [fst app]. now rewrite app_nil_r.
Qed.

(** X10.  A page with a valid MediaBox that is written to its end puts on
    the raster stream one header, the one the globals keep, and after it
    [nplanes * cupsHeight * nbands] scanlines of [bytesPerLine] bytes
    each, every one made by the line function selected for the page from
    [cupsWidth] pixels; neither function pointer is null when the first
    scanline is made. *)
Theorem outPage_scanlines (g : globals) (page : Page) (pgno : Z)
    (g' : globals) :
  (outPage g page pgno).2 = Done g' ->
  mediaboxlookup (page_obj page) = Done true ->
  headers ((outPage g page pgno).1) = [header g'] /\
  scanline_bytes ((outPage g page pgno).1)
  = repeat (bytesPerLine g')
      (Z.to_nat (nplanes g')
       * (Z.to_nat (cupsHeight (header g')) * Z.to_nat (nbands g'))) /\
  (forall e, In e ((outPage g page pgno).1) -> is_pixels e ->
     line_call g' e) /\
  (exists l f, convertline g' = Some l /\ convertcspace g' = Some f).
Proof.
  intros Hdone Hbox.
  destruct (outPage_Done_trace _ _ _ _ Hdone Hbox) as (Hh & Hsel & ->).
  assert (Hrot : headers (rotate_events g page pgno) = [] /\
                 scanline_bytes (rotate_events g page pgno) = [] /\
                 forall e, In e (rotate_events g page pgno) -> ~ is_pixels e).
  { unfold rotate_events. destruct (_ =? 0); cbn; repeat split; try tauto.
    intros e [<-|[]]. tauto. }
  destruct Hrot as (Hr1 & Hr2 & Hr3).
  split; [|split; [|split]].
  - change (headers (?a :: EvHeader ?h :: ?t)) with (h :: headers t).
    rewrite headers_app, Hr1, (headers_pixels _ (write_lines_trace _ _)).
    reflexivity.
  - change (scanline_bytes (?a :: EvHeader ?h :: ?t)) with (scanline_bytes t).
    rewrite scanline_bytes_app, Hr2. apply write_lines_bytes.
  - intros e [<-|[<-|Hin]]; try contradiction.
    apply in_app_or in Hin as [Hin|Hin]; [now intros ?%Hr3|].
    intros _. pose proof (write_lines_calls g' pgno) as Hc.
    rewrite List.Forall_forall in Hc. now apply Hc.
  - destruct (selectConvertFunc_frame _ _ _ _ _ Hsel)
      as (_ & _ & _ & _ & _ & _ & Hl & _).
    destruct (selectConvertFunc_pointers _ _ _ _ _ Hsel) as [f Hf].
    eauto.
Qed.

(** ** The ways a page ends the run *)

Section NoExit.
Context {A : Type}.
Implicit Types (src dst : list A).

Lemma copy_pixel_no_exit (c : nat) : forall j src bp dst dp s,
  copy_pixel c j src bp dst dp <> Exit s.
Proof.
  induction c as [|c IH]; intros j src bp dst dp s; cbn [copy_pixel];
    [discriminate|].
  unfold load. destruct (bp + j <? 0); [discriminate|].
  destruct (src !! _); [|discriminate]. cbn [obind].
  unfold store. destruct (_ && _); [|discriminate]. cbn [obind]. apply IH.
Qed.

Lemma copy_row_no_exit (c : nat) (step : Z) src : forall (n : nat) k s,
  copy_row n c step src k <> Exit s.
Proof.
  induction n as [|n IH]; intros k s; cbn [copy_row]; [discriminate|].
  destruct (copy_pixel c 0 src (cur_bp k) (cur_dst k) (cur_dp k)) eqn:E;
    cbn [obind]; [apply IH| |discriminate].
  now apply copy_pixel_no_exit in E.
Qed.

Lemma copy_rows_no_exit (c : nat) (step : Z) (start : Z -> Z -> Z) (W : nat)
    src : forall (n : nat) h k s,
  copy_rows n h start W c step src k <> Exit s.
Proof.
  induction n as [|n IH]; intros h k s; cbn [copy_rows]; [discriminate|].
  destruct (copy_row W c step src _) eqn:E; cbn [obind];
    [apply IH| |discriminate].
  now apply copy_row_no_exit in E.
Qed.

Lemma rotate_loops_no_exit src dst (H W : Z) (c : nat) (bp0 : Z)
    (start : Z -> Z -> Z) (step : Z) s :
  rotate_loops src dst H W c bp0 start step <> Exit s.
Proof.
  unfold rotate_loops.
  destruct (copy_rows _ _ _ _ _ _ _ _) eqn:E; cbn [obind]; try discriminate.
  now apply copy_rows_no_exit in E.
Qed.

(** The rotator ends the run for no reason but the angle. *)
Lemma rotatebitmap_Exit src dst (rotate H W rs : Z) (cs : string) s :
  rotatebitmap src dst rotate H W rs cs = Exit s ->
  s = 1 /\ rotate <> 0 /\ rotate <> 90 /\ rotate <> 180 /\ rotate <> 270.
Proof.
  unfold rotatebitmap.
  destruct (Z.eqb_spec rotate 0); [discriminate|].
  destruct (Z.eqb_spec rotate 180).
  { destruct (String.eqb _ _); [now intros ?%rotate_loops_no_exit|].
    destruct (String.eqb _ _); [now intros ?%rotate_loops_no_exit|].
    destruct (String.eqb _ _); [now intros ?%rotate_loops_no_exit|].
    discriminate. }
  destruct (Z.eqb_spec rotate 270).
  { destruct (String.eqb _ _); [now intros ?%rotate_loops_no_exit|].
    destruct (String.eqb _ _); [now intros ?%rotate_loops_no_exit|].
    destruct (String.eqb _ _); [now intros ?%rotate_loops_no_exit|].
    discriminate. }
  destruct (Z.eqb_spec rotate 90).
  { destruct (String.eqb _ _); [now intros ?%rotate_loops_no_exit|].
    destruct (String.eqb _ _); [now intros ?%rotate_loops_no_exit|].
    destruct (String.eqb _ _); [now intros ?%rotate_loops_no_exit|].
    discriminate. }
  intros [= <-]. auto.
Qed.

(** With a colorspace that is none of the three a right angle copies
    nothing. *)
Lemma rotatebitmap_unknown src dst (rotate H W rs : Z) (cs : string) :
  components cs = None ->
  rotate = 90 \/ rotate = 180 \/ rotate = 270 ->
  rotatebitmap src dst rotate H W rs cs = Done dst.
Proof.
  intros Hn Hr. apply components_None in Hn as (E1 & E2 & E3).
  unfold rotatebitmap.
  change (String.eqb cs "/DeviceGray") with (String.eqb cs DeviceGray).
  change (String.eqb cs "/DeviceCMYK") with (String.eqb cs DeviceCMYK).
  change (String.eqb cs "/DeviceRGB") with (String.eqb cs DeviceRGB).
  rewrite E1, E2, E3. destruct Hr as [-> | [-> | ->]]; reflexivity.
Qed.

End NoExit.

Lemma rotate_page_Exit (g : globals) (rotate : Z) (bitmap : list byte)
    (cs : string) (t : list event) (s : Z) :
  rotate_page g rotate bitmap cs = (t, Exit s) ->
  s = 1 /\
  u32 rotate <> 0 /\ u32 rotate <> 90 /\ u32 rotate <> 180 /\
  u32 rotate <> 270 /\
  t = [EvRotate (u32 rotate) (cupsHeight (header g)) (cupsWidth (header g))
         (rowsize g) cs;
       EvLog (ErrRotateValue (u32 rotate))].
Proof.
  unfold rotate_page. destruct (rotate =? 0); [discriminate|].
  destruct (rotatebitmap _ _ _ _ _ _ _) as [d|s'|] eqn:E; cbn;
    try discriminate.
  intros [= <- <-]. apply rotatebitmap_Exit in E. tauto.
Qed.

Lemma rotate_page_unknown (g : globals) (rotate : Z) (bitmap : list byte)
    (cs : string) :
  components cs = None ->
  rotate = 0 \/ rotate = 90 \/ rotate = 180 \/ rotate = 270 ->
  exists d,
    rotate_page g rotate bitmap cs
    = (if rotate =? 0 then []
       else [EvRotate (u32 rotate) (cupsHeight (header g))
               (cupsWidth (header g)) (rowsize g) cs], Done d).
Proof.
  intros Hn Hr. unfold rotate_page.
  destruct Hr as [-> | Hr]; [eexists; reflexivity|].
  assert (Hu : u32 rotate = rotate) by (destruct Hr as [-> | [-> | ->]]; reflexivity).
  replace (rotate =? 0) with false by (destruct Hr as [-> | [-> | ->]]; reflexivity).
  rewrite Hu, rotatebitmap_unknown by assumption.
  eexists. reflexivity.
Qed.

(** X11.  A page ends the run only with status 1, only after its MediaBox
    was found valid, and never after one of its scanlines was written.
    There are three ways: the raster stream refuses the header; the
    rotation, after the fold, is no right angle (the header is written by
    then); the colorspace of the page is none of the three (the header is
    written, and the bitmap turned, by then). *)
Theorem outPage_exit (g : globals) (page : Page) (pgno : Z) (s : Z) :
  (outPage g page pgno).2 = Exit s ->
  s = 1 /\
  mediaboxlookup (page_obj page) = Done true /\
  Forall (fun e => ~ is_pixels e) ((outPage g page pgno).1) /\
  ((page_header_ok page = false /\
    (outPage g page pgno).1
    = [EvLog DebugMediaBox; EvLog (ErrHeader (pgno + 1))]) \/
   (page_header_ok page = true /\
    u32 (folded_rotation g page pgno) <> 0 /\
    u32 (folded_rotation g page pgno) <> 90 /\
    u32 (folded_rotation g page pgno) <> 180 /\
    u32 (folded_rotation g page pgno) <> 270 /\
    (outPage g page pgno).1
    = [EvLog DebugMediaBox; EvHeader (header (header_stage g page pgno));
       EvRotate (u32 (folded_rotation g page pgno))
         (cupsHeight (header (header_stage g page pgno)))
         (cupsWidth (header (header_stage g page pgno)))
         (rowsize g) (page_colorspace g page pgno);
       EvLog (ErrRotateValue (u32 (folded_rotation g page pgno)))]) \/
   (page_header_ok page = true /\
    components (page_colorspace g page pgno) = None /\
    (outPage g page pgno).1
    = EvLog DebugMediaBox :: EvHeader (header (header_stage g page pgno))
        :: rotate_events g page pgno
        ++ [EvLog (ErrColorspace (page_colorspace g page pgno))])).
Proof.
  rewrite outPage_unfold.
  destruct (mediaboxlookup (page_obj page)) as [[|]|s'|] eqn:Hbox;
    cbn [fst snd]; try discriminate.
  2:{ unfold mediaboxlookup in Hbox.
      destruct (_ || _); [discriminate|]. cbv zeta in Hbox.
      unfold vector_at in Hbox.
      repeat (destruct (_ !! _); cbn [obind] in Hbox; [|discriminate]).
      discriminate. }
  destruct (page_header_ok page) eqn:Hok; cbn [fst snd].
  2:{ intros [= <-]. split; [reflexivity|]. split; [reflexivity|].
      split; [repeat constructor; intros []|]. now left. }
  unfold page_tail.
  destruct (rotate_page _ _ _ _) as [t1 [cd|s1|]] eqn:Er;
    cbn [bind fst snd]; try discriminate.
  - destruct (selectConvertFunc _ _ _) as [t2 [g3|s2|]] eqn:Es;
      cbn [bind fst snd]; try discriminate.
    + destruct (write_lines_done g3 pgno) as [t3 ->]. discriminate.
    + intros [= <-].
      destruct (components (page_colorspace g page pgno)) as [c|] eqn:Hc.
      { destruct (selectConvertFunc_supported _ pgno
                    (folded_globals g page pgno) _ Hc) as [g' E].
        congruence. }
      rewrite selectConvertFunc_unsupported in Es by assumption.
      injection Es as <- <-.
      apply rotate_page_Done in Er. subst t1.
      rewrite rowsize_folded, header_folded. fold (rotate_events g page pgno).
      split; [reflexivity|]. split; [reflexivity|]. split.
      * constructor; [intros []|]. constructor; [intros []|].
        apply Forall_app. split; [|repeat constructor; intros []].
        unfold rotate_events. destruct (_ =? 0); repeat constructor.
        intros [].
      * right. right. split; [reflexivity|]. split; reflexivity.
  - intros [= <-]. apply rotate_page_Exit in Er.
    destruct Er as (-> & H0 & H90 & H180 & H270 & ->).
    rewrite rowsize_folded, header_folded.
    split; [reflexivity|]. split; [reflexivity|]. split.
    + repeat constructor; intros [].
    + right. left. auto 10.
Qed.

(** X12.  A page whose colorspace is none of /DeviceRGB, /DeviceCMYK and
    /DeviceGray, with a valid MediaBox, an accepted header and a right
    angle as its rotation: the header is written, the rotator is called
    when the angle is not 0 and copies nothing, then the colorspace is
    logged and the run ends with status 1. *)
Theorem outPage_unsupported_colorspace (g : globals) (page : Page)
    (pgno : Z) :
  mediaboxlookup (page_obj page) = Done true ->
  page_header_ok page = true ->
  components (page_colorspace g page pgno) = None ->
  folded_rotation g page pgno = 0 \/ folded_rotation g page pgno = 90 \/
  folded_rotation g page pgno = 180 \/ folded_rotation g page pgno = 270 ->
  outPage g page pgno
  = (EvLog DebugMediaBox :: EvHeader (header (header_stage g page pgno))
       :: rotate_events g page pgno
       ++ [EvLog (ErrColorspace (page_colorspace g page pgno))],
     Exit 1).
Proof.
  intros Hbox Hok Hn Hr. rewrite outPage_unfold, Hbox, Hok.
  unfold page_tail.
  destruct (rotate_page_unknown (folded_globals g page pgno)
              (folded_rotation g page pgno)
              (as_bitmap (assembled g page pgno))
              (page_colorspace g page pgno) Hn Hr) as [d ->].
  rewrite selectConvertFunc_unsupported by assumption.
  rewrite rowsize_folded, header_folded. cbn [bind fst snd].
  fold (rotate_events g page pgno). reflexivity.
Qed.

(** ** The assembly of a page *)

Lemma u32_add_l (x y : Z) : u32 (u32 x + y) = u32 (x + y).
Proof. unfold u32. apply Zplus_mod_idemp_l. Qed.

Lemma add_image_frame (a : assembly) (im : PageImage) :
  let h := as_header a in
  let h' := as_header (add_image a im) in
  Duplex h' = Duplex h /\ Tumble h' = Tumble h /\
  cupsBitsPerColor h' = cupsBitsPerColor h /\
  cupsBitsPerPixel h' = cupsBitsPerPixel h /\
  cupsBytesPerLine h' = cupsBytesPerLine h /\
  cupsColorOrder h' = cupsColorOrder h /\
  cupsColorSpace h' = cupsColorSpace h /\
  cupsNumColors h' = cupsNumColors h /\ page_box h' = page_box h.
Proof.
  unfold add_image. cbn -[u32]. destruct (_ <? _); cbn; auto 10.
Qed.

Lemma assemble_frame (images : list PageImage) : forall a : assembly,
  let h := as_header a in
  let h' := as_header (fold_left add_image images a) in
  Duplex h' = Duplex h /\ Tumble h' = Tumble h /\
  cupsBitsPerColor h' = cupsBitsPerColor h /\
  cupsBitsPerPixel h' = cupsBitsPerPixel h /\
  cupsBytesPerLine h' = cupsBytesPerLine h /\
  cupsColorOrder h' = cupsColorOrder h /\
  cupsColorSpace h' = cupsColorSpace h /\
  cupsNumColors h' = cupsNumColors h /\ page_box h' = page_box h.
Proof.
  induction images as [|im images IH]; intros a; cbn [fold_left]; [auto 10|].
  cbv zeta in *. specialize (IH (add_image a im)).
  pose proof (add_image_frame a im) as Hf. cbv zeta in Hf.
  destruct IH as (?&?&?&?&?&?&?&?&?), Hf as (?&?&?&?&?&?&?&?&?).
  repeat split; congruence.
Qed.

Lemma assemble_fold (images : list PageImage) : forall (a : assembly) (x : Z),
  Forall (fun im => img_Width im < 2 ^ 32) images ->
  0 <= cupsWidth (as_header a) ->
  cupsHeight (as_header a) = u32 x ->
  let a' := fold_left add_image images a in
  cupsWidth (as_header a') = Z.max (cupsWidth (as_header a)) (widest images) /\
  cupsHeight (as_header a') = u32 (x + total_height images).
Proof.
  induction images as [|im images IH]; intros a x Hw H0 Hx; cbn [fold_left].
  - cbv zeta. unfold widest, total_height. cbn. split; [lia|].
    now rewrite Z.add_0_r.
  - apply Forall_cons in Hw as [Hw1 Hw]. cbv zeta.
    assert (Hh : cupsHeight (as_header (add_image a im))
                 = u32 (x + img_Height im)).
    { unfold add_image. cbn -[u32]. destruct (_ <? _); cbn -[u32];
        now rewrite Hx, u32_add_l. }
    assert (Hwd : cupsWidth (as_header (add_image a im))
                  = Z.max (cupsWidth (as_header a)) (img_Width im)).
    { unfold add_image. cbn -[u32].
      destruct (Z.ltb_spec (cupsWidth (as_header a)) (img_Width im));
        cbn -[u32]; [|lia].
      rewrite u32_small by lia. lia. }
    destruct (IH (add_image a im) (x + img_Height im) Hw) as [Ew Eh];
      [lia|exact Hh|].
    cbv zeta in Ew, Eh. rewrite Ew, Eh, Hwd.
    unfold widest, total_height. cbn [map fold_right]. split; [lia|].
    f_equal. lia.
Qed.

Lemma assemble_bitmap (images : list PageImage) : forall a : assembly,
  as_bitmap (fold_left add_image images a)
  = as_bitmap a ++ concat (map img_data images).
Proof.
  induction images as [|im images IH]; intros a; cbn [fold_left map concat].
  - now rewrite app_nil_r.
  - rewrite IH. unfold add_image. cbn. now rewrite app_assoc.
Qed.

Lemma line_size_frame (g : globals) :
  let h := header g in
  let h' := header (line_size g) in
  Duplex h' = Duplex h /\ Tumble h' = Tumble h /\
  cupsWidth h' = cupsWidth h /\ cupsHeight h' = cupsHeight h /\
  cupsBitsPerColor h' = cupsBitsPerColor h /\
  cupsBitsPerPixel h' = cupsBitsPerPixel h /\
  cupsColorOrder h' = cupsColorOrder h /\
  cupsColorSpace h' = cupsColorSpace h /\
  cupsNumColors h' = cupsNumColors h /\ page_box h' = page_box h.
Proof.
  unfold line_size. cbn -[bytes_per_line u32].
  destruct (is_banded _); cbn; auto 10.
Qed.

Lemma landscape_frame (rotate : Z) (h : cups_page_header2_t) :
  let h' := landscape rotate h in
  Duplex h' = Duplex h /\ Tumble h' = Tumble h /\
  cupsBitsPerColor h' = cupsBitsPerColor h /\
  cupsBitsPerPixel h' = cupsBitsPerPixel h /\
  cupsColorOrder h' = cupsColorOrder h /\
  cupsColorSpace h' = cupsColorSpace h /\
  cupsNumColors h' = cupsNumColors h /\ page_box h' = page_box h.
Proof. unfold landscape. destruct (_ || _); cbn; auto 10. Qed.

(** The fields of the header of a page that come from the job. *)
Lemma header_stage_frame (g : globals) (page : Page) (pgno : Z) :
  let h := header g in
  let h' := header (header_stage g page pgno) in
  Duplex h' = Duplex h /\ Tumble h' = Tumble h /\
  cupsBitsPerColor h' = cupsBitsPerColor h /\
  cupsBitsPerPixel h' = cupsBitsPerPixel h /\
  cupsColorOrder h' = cupsColorOrder h /\
  cupsColorSpace h' = cupsColorSpace h /\
  cupsNumColors h' = cupsNumColors h /\
  page_box h' = Some (backside_margins g pgno (page_geometry page)).
Proof.
  cbv zeta. unfold header_stage.
  set (a := assembled g page pgno).
  set (g0 := set_header (landscape (page_rotate page) (as_header a)) g).
  pose proof (line_size_frame g0) as L. cbv zeta in L.
  destruct L as (L1 & L2 & _ & _ & L3 & L4 & L5 & L6 & L7 & L8).
  pose proof (landscape_frame (page_rotate page) (as_header a)) as S.
  cbv zeta in S. destruct S as (S1 & S2 & S3 & S4 & S5 & S6 & S7 & S8).
  pose proof (assemble_frame (page_images page)
                (mkAssembly
                   (set_cupsHeight 0
                      (set_cupsWidth 0
                         (set_page_box
                            (backside_margins g pgno (page_geometry page))
                            (header g)))) [] QNull)) as F.
  cbv zeta in F. fold (assemble_images (page_images page)
    (set_page_box (backside_margins g pgno (page_geometry page)) (header g)))
    in F.
  fold (assembled g page pgno) in F. fold a in F.
  destruct F as (F1 & F2 & F3 & F4 & _ & F5 & F6 & F7 & F8).
  subst g0. cbn [header set_header] in *.
  rewrite L1, L2, L3, L4, L5, L6, L7, L8, S1, S2, S3, S4, S5, S6, S7, S8,
    F1, F2, F3, F4, F5, F6, F7, F8.
  cbn. auto 10.
Qed.

Lemma header_stage_dimensions (g : globals) (page : Page) (pgno : Z) :
  Forall (fun im => img_Width im < 2 ^ 32) (page_images page) ->
  let h := header (header_stage g page pgno) in
  let w := widest (page_images page) in
  let t := u32 (total_height (page_images page)) in
  if (page_rotate page =? 270) || (page_rotate page =? 90)
  then cupsWidth h = t /\ cupsHeight h = w
  else cupsWidth h = w /\ cupsHeight h = t.
Proof.
  intros Hw. cbv zeta. unfold header_stage.
  set (a := assembled g page pgno).
  set (g0 := set_header (landscape (page_rotate page) (as_header a)) g).
  pose proof (line_size_frame g0) as L. cbv zeta in L.
  destruct L as (_ & _ & L1 & L2 & _). rewrite L1, L2.
  subst g0. cbn [header set_header].
  destruct (assemble_fold (page_images page)
              (mkAssembly
                 (set_cupsHeight 0
                    (set_cupsWidth 0
                       (set_page_box
                          (backside_margins g pgno (page_geometry page))
                          (header g)))) [] QNull) 0 Hw)
    as [Ew Eh]; [cbn; lia|reflexivity|].
  cbv zeta in Ew, Eh.
  fold (assemble_images (page_images page)
    (set_page_box (backside_margins g pgno (page_geometry page)) (header g)))
    in Ew, Eh.
  fold (assembled g page pgno) in Ew, Eh. fold a in Ew, Eh.
  cbn [as_header cupsWidth set_cupsHeight set_cupsWidth] in Ew.
  assert (Hwn : 0 <= widest (page_images page)).
  { unfold widest. induction (map img_Width (page_images page)); cbn; lia. }
  rewrite Z.max_r in Ew by exact Hwn. rewrite Z.add_0_l in Eh.
  unfold landscape. destruct (_ || _); cbn; auto.
Qed.

(** X13.  The header written for a page.  Its width is the largest width
    of the images of the page and its height the sum of their heights, as
    an [unsigned int], the two exchanged when the page is rotated by 90 or
    270; neither depends on the page before.  The margins are those of the
    page, swapped on a backside; the fields that describe the device are
    those of the job. *)
Theorem outPage_header_dimensions (g : globals) (page : Page) (pgno : Z)
    (h : cups_page_header2_t) :
  In (EvHeader h) ((outPage g page pgno).1) ->
  Forall (fun im => img_Width im < 2 ^ 32) (page_images page) ->
  (if (page_rotate page =? 270) || (page_rotate page =? 90)
   then cupsWidth h = u32 (total_height (page_images page)) /\
        cupsHeight h = widest (page_images page)
   else cupsWidth h = widest (page_images page) /\
        cupsHeight h = u32 (total_height (page_images page))) /\
  page_box h = Some (backside_margins g pgno (page_geometry page)) /\
  Duplex h = Duplex (header g) /\ Tumble h = Tumble (header g) /\
  cupsBitsPerColor h = cupsBitsPerColor (header g) /\
  cupsBitsPerPixel h = cupsBitsPerPixel (header g) /\
  cupsColorOrder h = cupsColorOrder (header g) /\
  cupsColorSpace h = cupsColorSpace (header g) /\
  cupsNumColors h = cupsNumColors (header g).
Proof.
  intros Hin Hw. destruct (outPage_header _ _ _ _ Hin) as (_ & _ & ->).
  split; [now apply header_stage_dimensions|].
  pose proof (header_stage_frame g page pgno) as F. cbv zeta in F.
  tauto.
Qed.

(** X14.  The bitmap of a page is the data of its images one after the
    other, and the colorspace of the page is read off its last image
    alone: the name under /ColorSpace, or /DeviceRGB when that is no
    name. *)
Theorem page_colorspace_last_image (g : globals) (page : Page) (pgno : Z)
    (images : list PageImage) (image : PageImage) :
  page_images page = images ++ [image] ->
  as_bitmap (assembled g page pgno)
  = concat (map img_data images) ++ img_data image /\
  page_colorspace g page pgno
  = match img_ColorSpace image with QName n => n | _ => DeviceRGB end.
Proof.
  intros E. unfold page_colorspace, assembled, assemble_images. rewrite E.
  split.
  - rewrite assemble_bitmap. cbn [as_bitmap app].
    now rewrite map_app, concat_app; cbn; rewrite app_nil_r.
  - rewrite fold_left_app. reflexivity.
Qed.

(** X15.  The margins of a backside: the left and right margins change
    places when the margin-x flag is set, the bottom and top margins when
    the margin-y flag is set, the paper dimensions stay; swapping twice
    gives the margins back, and a page that is no duplex backside keeps
    its margins. *)
Theorem backside_margins_twice (g : globals) (pgno : Z) (m : geometry) :
  backside_margins g pgno (backside_margins g pgno m) = m /\
  paperdimensions0 (backside_margins g pgno m) = paperdimensions0 m /\
  paperdimensions1 (backside_margins g pgno m) = paperdimensions1 m /\
  (backside g pgno = false -> backside_margins g pgno m = m) /\
  (backside g pgno = true ->
   let m' := backside_margins g pgno m in
   (margins0 m', margins2 m')
   = (if swap_margin_x (swap g) then (margins2 m, margins0 m)
      else (margins0 m, margins2 m)) /\
   (margins1 m', margins3 m')
   = (if swap_margin_y (swap g) then (margins3 m, margins1 m)
      else (margins1 m, margins3 m))).
Proof.
  unfold backside_margins. destruct m as [m0 m1 m2 m3 p0 p1].
  destruct (backside g pgno), (swap_margin_x (swap g)),
    (swap_margin_y (swap g)); cbn; repeat split; discriminate.
Qed.

(** ** What a job keeps from page to page *)

Lemma same_settings_refl (g : globals) : same_settings g g.
Proof. unfold same_settings. auto 15. Qed.

Lemma same_settings_trans (g1 g2 g3 : globals) :
  same_settings g1 g2 -> same_settings g2 g3 -> same_settings g1 g3.
Proof.
  unfold same_settings. intros (?&?&?&?&?&?&?&?&?&?&?&?) (?&?&?&?&?&?&?&?&?&?&?&?).
  repeat split; congruence.
Qed.

Lemma folded_or_same_trans (g1 g2 g3 : globals) :
  folded_or_same g1 g2 -> folded_or_same g2 g3 -> folded_or_same g1 g3.
Proof.
  unfold folded_or_same.
  intros [E1|(X1 & Y1 & E1)] [E2|(X2 & Y2 & E2)].
  - left. congruence.
  - right. rewrite <- E1. auto.
  - right. rewrite E2, E1. auto.
  - rewrite E1 in X2. discriminate.
Qed.

Lemma folded_globals_frame (g : globals) (page : Page) (pgno : Z) :
  nplanes (folded_globals g page pgno) = nplanes g /\
  nbands (folded_globals g page pgno) = nbands g /\
  bi_level (folded_globals g page pgno) = bi_level g.
Proof.
  unfold folded_globals, fold_swap.
  destruct (backside _ _ && _ && _); auto.
Qed.

Lemma outPage_settings (g : globals) (page : Page) (pgno : Z) (g' : globals) :
  (outPage g page pgno).2 = Done g' ->
  same_settings g g' /\ folded_or_same g g'.
Proof.
  intros Hdone. apply outPage_done in Hdone.
  destruct Hdone as [[_ ->]|(_ & _ & t & Hsel)].
  { split; [apply same_settings_refl|now left]. }
  destruct (selectConvertFunc_frame _ _ _ _ _ Hsel)
    as (Hh & Hs & _ & Hp & Hn & Hl & _).
  destruct (folded_globals_frame g page pgno) as (Fp & Fn & Fl).
  pose proof (header_stage_frame g page pgno) as F. cbv zeta in F.
  destruct F as (F1 & F2 & F3 & F4 & F5 & F6 & F7 & _).
  rewrite header_folded in Hh.
  assert (Hfold : folded_or_same g g' /\
                  swap_margin_x (swap g') = swap_margin_x (swap g) /\
                  swap_margin_y (swap g') = swap_margin_y (swap g)).
  { unfold folded_or_same. rewrite Hs.
    destruct (fold_swap_page g page pgno) as [Hf Hk].
    destruct (backside g pgno && swap_image_y (swap g)
              && swap_image_x (swap g)) eqn:E.
    - destruct (Hf eq_refl) as [_ ->].
      apply andb_prop in E as [E Hx]. apply andb_prop in E as [_ Hy].
      split; [right; auto|]. split; reflexivity.
    - destruct (Hk eq_refl) as [_ ->]. split; [now left|]. split; reflexivity. }
  destruct Hfold as (Hfo & Hmx & Hmy).
  split; [|exact Hfo].
  unfold same_settings. rewrite Hh, Hp, Hn, Hl, Fp, Fn, Fl.
  auto 15.
Qed.

Lemma run_pages_invariant : forall (ps : list Page) (i : Z) (g g' : globals)
    (t : list event),
  run_pages ps i g = (t, Done g') ->
  same_settings g g' /\ folded_or_same g g'.
Proof.
  induction ps as [|p ps IH]; intros i g g' t E.
  - cbn in E. injection E as <- <-.
    split; [apply same_settings_refl|now left].
  - apply run_pages_cons in E. destruct E as (tp & gp & tr & Ep & Er & ->).
    assert (Hp : (outPage g p i).2 = Done gp) by now rewrite Ep.
    apply outPage_settings in Hp as [S1 F1].
    apply IH in Er as [S2 F2].
    split; [now apply (same_settings_trans g gp g')|
            now apply (folded_or_same_trans g gp g')].
Qed.

(** X16.  Whatever pages of a job have been processed, the settings a
    page is written with are those of the start of the job: the device
    fields of the header are those [parseOpts] left, [nplanes] is the
    number of colors for the planar order and 1 otherwise, [nbands] the
    number of colors for the banded order and 1 otherwise, the margin
    flags are those the duplex options gave, and the image flags are
    either those or, after a fold, both cleared. *)
Theorem job_settings (j : job) (pages1 : list Page) (t1 : list event)
    (g1 : globals) :
  run_pages pages1 0 (plane_setup (parseOpts j)) = (t1, Done g1) ->
  let h := job_header j in
  let s := swap (parseOpts j) in
  Duplex (header g1) = Duplex h /\ Tumble (header g1) = Tumble h /\
  cupsBitsPerColor (header g1) = cupsBitsPerColor h /\
  cupsBitsPerPixel (header g1) = cupsBitsPerPixel h /\
  cupsColorOrder (header g1) = cupsColorOrder h /\
  cupsColorSpace (header g1) = cupsColorSpace h /\
  cupsNumColors (header g1) = cupsNumColors h /\
  nplanes g1 = (if is_planar (cupsColorOrder h) then cupsNumColors h else 1) /\
  nbands g1 = (if is_banded (cupsColorOrder h) then cupsNumColors h else 1) /\
  bi_level g1 = job_bi_level j /\
  swap_margin_x (swap g1) = swap_margin_x s /\
  swap_margin_y (swap g1) = swap_margin_y s /\
  (swap g1 = s \/
   (swap_image_x s = true /\ swap_image_y s = true /\
    swap g1 = mkSwap false false (swap_margin_x s) (swap_margin_y s))).
Proof.
  intros E. cbv zeta. apply run_pages_invariant in E as [S F].
  unfold same_settings in S. cbn in S. unfold folded_or_same in F. cbn in F.
  destruct S as (?&?&?&?&?&?&?&?&?&?&?&?).
  repeat (split; [assumption|]). exact F.
Qed.

(** X2.  The fold happens once in a job.  When the swap flags are no
    longer those the run of pages started with, both image flags are
    cleared, and from there on no page is folded: its rotation is its own
    /Rotate, it leaves the flags alone, and it is written by the plain
    line function, a backside like any other page. *)
Theorem fold_only_once (ps : list Page) (i : Z) (g g1 : globals)
    (t : list event) :
  run_pages ps i g = (t, Done g1) ->
  swap g1 <> swap g ->
  swap_image_x (swap g1) = false /\ swap_image_y (swap g1) = false /\
  forall (page : Page) (k : Z),
    folded_rotation g1 page k = page_rotate page /\
    forall g2, (outPage g1 page k).2 = Done g2 ->
      swap g2 = swap g1 /\
      (mediaboxlookup (page_obj page) = Done true ->
       convertline g2 = Some fp_convertLine /\
       write_lines g2 k
       = (row_calls g2 (seqZ 0 (cupsHeight (header g2))), Done tt)).
Proof.
  intros E Hne. apply run_pages_invariant in E as [_ F].
  destruct F as [F|(_ & _ & F)]; [contradiction|].
  assert (Hx : swap_image_x (swap g1) = false) by now rewrite F.
  assert (Hy : swap_image_y (swap g1) = false) by now rewrite F.
  split; [exact Hx|]. split; [exact Hy|]. intros page k.
  destruct (fold_swap_page g1 page k) as [_ Hk].
  destruct Hk as [Hrot Hsw]; [now rewrite Hy, andb_false_r|].
  split; [exact Hrot|]. intros g2 Hdone.
  pose proof Hdone as Hd. apply outPage_done in Hd.
  destruct Hd as [[Hbox ->]|(Hbox & _ & t' & Hsel)].
  { split; [reflexivity|]. congruence. }
  destruct (selectConvertFunc_frame _ _ _ _ _ Hsel)
    as (_ & Hs & _ & _ & _ & _ & Hl & _).
  rewrite Hsw in Hs, Hl. split; [exact Hs|]. intros _.
  rewrite Hx, andb_false_r in Hl. split; [exact Hl|].
  apply write_lines_forward. now rewrite Hs, Hy, andb_false_r.
Qed.

(** ** The run of a job *)

Lemma outPage_false (g : globals) (page : Page) (pgno : Z) :
  mediaboxlookup (page_obj page) = Done false ->
  outPage g page pgno = ([EvLog (ErrNoMediaBox (pgno + 1))], Done g).
Proof. intros H. now rewrite outPage_unfold, H. Qed.

Lemma run_pages_skipped : forall (ps : list Page) (i : Z) (g : globals),
  Forall (fun p => mediaboxlookup (page_obj p) = Done false) ps ->
  run_pages ps i g
  = (flat_map skipped_log (seqZ i (Z.of_nat (length ps))), Done g).
Proof.
  induction ps as [|p ps IH]; intros i g Hs.
  - reflexivity.
  - apply Forall_cons in Hs as [Hp Hs].
    cbn [run_pages length]. rewrite (outPage_false _ _ _ Hp).
    cbn [emit bind app]. rewrite (IH _ _ Hs), seqZ_succ. reflexivity.
Qed.

(** X17.  A job none of whose pages has a MediaBox the lookup accepts (the
    depth being supported and the raster stream open) runs to its end and
    returns 0: two lines on [stderr] for each page, and neither a header
    nor a scanline on the raster stream. *)
Theorem main_all_pages_skipped (j : job) :
  supported_depth (cupsBitsPerColor (job_header j)) = true ->
  job_raster_ok j = true ->
  Forall (fun p => mediaboxlookup (page_obj p) = Done false) (job_pages j) ->
  main j
  = (flat_map skipped_log (seqZ 0 (Z.of_nat (length (job_pages j)))),
     Done 0) /\
  headers ((main j).1) = [] /\ scanline_bytes ((main j).1) = [].
Proof.
  intros Hd Hr Hs.
  assert (E : main j
              = (flat_map skipped_log
                   (seqZ 0 (Z.of_nat (length (job_pages j)))), Done 0)).
  { unfold main. cbn [header parseOpts]. rewrite Hd, Hr. cbn [negb].
    rewrite (run_pages_skipped _ _ _ Hs). cbn [bind ret].
    now rewrite app_nil_r. }
  split; [exact E|]. rewrite E. cbn [fst]. clear E.
  induction (seqZ 0 (Z.of_nat (length (job_pages j)))) as [|i l [IH1 IH2]];
    [split; reflexivity|].
  split; cbn; assumption.
Qed.

(** X18.  The job ends at the first page that ends the run: when the pages
    before it have been processed and the page exits, [main] exits with
    the same status, its trace is that of the pages before followed by
    the line that starts the page and what the page wrote until then, and
    nothing of the pages after it is looked at. *)
Theorem main_stops_at_first_exit (j : job) (pages1 pages2 : list Page)
    (page : Page) (t1 : list event) (g1 : globals) (s : Z) :
  supported_depth (cupsBitsPerColor (job_header j)) = true ->
  job_raster_ok j = true ->
  job_pages j = pages1 ++ page :: pages2 ->
  run_pages pages1 0 (plane_setup (parseOpts j)) = (t1, Done g1) ->
  (outPage g1 page (Z.of_nat (length pages1))).2 = Exit s ->
  main j
  = (t1 ++ EvLog (InfoStartingPage (Z.of_nat (length pages1) + 1))
        :: (outPage g1 page (Z.of_nat (length pages1))).1,
     Exit s).
Proof.
  intros Hd Hr Hp Hrun Hexit. unfold main. cbn [header parseOpts].
  rewrite Hd, Hr. cbn [negb]. rewrite Hp.
  fold (parseOpts j).
  rewrite (run_pages_prefix _ _ _ _ _ _ Hrun). rewrite Z.add_0_l.
  cbn [run_pages emit bind fst snd].
  destruct (outPage g1 page (Z.of_nat (length pages1))) as [tp o].
  cbn [snd] in Hexit. subst o. cbn [bind fst snd app]. reflexivity.
Qed.

(** X19.  The scanlines of a page of a job against its header.  The page
    has [cupsHeight] rows; a row is written once when the order is
    chunked and once for each color when it is banded or planar, each
    time as a line of [bytesPerLine] bytes, the value of the formula for
    the header's width.  The header's [cupsBytesPerLine] is that value
    for the chunked and the planar order, and that value times the number
    of colors for the banded order. *)
Theorem job_page_scanlines (j : job) (pages1 : list Page) (page : Page)
    (t1 : list event) (g1 g' : globals) :
  run_pages pages1 0 (plane_setup (parseOpts j)) = (t1, Done g1) ->
  (outPage g1 page (Z.of_nat (length pages1))).2 = Done g' ->
  mediaboxlookup (page_obj page) = Done true ->
  let h := header g' in
  let colors := cupsNumColors (job_header j) in
  scanline_bytes ((outPage g1 page (Z.of_nat (length pages1))).1)
  = repeat (bytes_per_line h)
      (Z.to_nat (cupsHeight h)
       * Z.to_nat (if is_chunked (cupsColorOrder (job_header j))
                   then 1 else colors)) /\
  cupsBytesPerLine h
  = (if is_banded (cupsColorOrder (job_header j))
     then u32 (bytes_per_line h * colors) else bytes_per_line h).
Proof.
  intros Hrun Hdone Hbox. cbv zeta.
  destruct (outPage_Done_trace _ _ _ _ Hdone Hbox) as (Hh & Hsel & Ht).
  apply run_pages_invariant in Hrun as [S1 _].
  apply outPage_settings in Hdone as [S2 _].
  pose proof (same_settings_trans _ _ _ S1 S2) as S.
  unfold same_settings in S. cbn in S.
  destruct S as (_ & _ & _ & _ & So & _ & Sc & Sp & Sb & _).
  destruct (selectConvertFunc_frame _ _ _ _ _ Hsel)
    as (_ & _ & Hbpl & _).
  assert (Hfold : bytesPerLine (folded_globals g1 page (Z.of_nat (length pages1)))
                  = bytesPerLine (header_stage g1 page (Z.of_nat (length pages1)))).
  { unfold folded_globals, fold_swap. destruct (_ && _ && _); reflexivity. }
  set (k := Z.of_nat (length pages1)) in *.
  unfold header_stage in Hfold, Hh.
  set (g0 := set_header _ g1) in *.
  destruct (line_size_fields g0) as (Ebpp & Ew & Eo & En & Ebpl & Ecbpl).
  assert (Eb : bytes_per_line (header g') = bytes_per_line (header g0)).
  { rewrite Hh. unfold bytes_per_line. now rewrite Ebpp, Ew. }
  assert (Hb : bytesPerLine g' = bytes_per_line (header g')) by congruence.
  split.
  - rewrite Ht.
    change (scanline_bytes (?a :: EvHeader ?x :: ?t)) with (scanline_bytes t).
    rewrite scanline_bytes_app.
    replace (scanline_bytes (rotate_events g1 page k)) with (@nil Z)
      by (unfold rotate_events; now destruct (_ =? 0)).
    cbn [app]. rewrite write_lines_bytes, Hb, Sp, Sb. f_equal.
    destruct (cupsColorOrder (job_header j)); cbn [is_planar is_banded is_chunked];
      change (Z.to_nat 1) with 1%nat; lia.
  - rewrite Hh at 1. rewrite Ecbpl, <- Eb.
    assert (Eo' : cupsColorOrder (header g0) = cupsColorOrder (job_header j)).
    { rewrite <- So, Hh. symmetry. exact Eo. }
    assert (En' : cupsNumColors (header g0) = cupsNumColors (job_header j)).
    { rewrite <- Sc, Hh. symmetry. exact En. }
    now rewrite Eo', En'.
Qed.

(** ** Pages made of strips of one width *)

Lemma strips_bitmap (W : Z) (c : nat) (images : list PageImage) :
  strips W c images ->
  len (concat (map img_data images)) = W * total_height images * Z.of_nat c /\
  0 <= total_height images.
Proof.
  unfold strips, total_height, len.
  induction 1 as [|im images (Hw & Hh & Hd) _ [IH1 IH2]]; cbn [map concat fold_right].
  - split; cbn; lia.
  - unfold len in Hd. rewrite length_app. split; lia.
Qed.

Lemma strips_widest (W : Z) (c : nat) (images : list PageImage) :
  0 <= W -> strips W c images ->
  Forall (fun im => img_Width im < 2 ^ 32) images \/ 2 ^ 32 <= W.
Proof.
  intros HW Hs. destruct (Z.lt_ge_cases W (2 ^ 32)); [left|now right].
  eapply Forall_impl; [exact Hs|]. cbn. intros im (-> & _). assumption.
Qed.

Lemma strips_widest_eq (W : Z) (c : nat) (images : list PageImage) :
  0 <= W -> strips W c images ->
  widest images = W \/ (images = [] /\ widest images = 0).
Proof.
  intros HW Hs. unfold widest. destruct Hs as [|im images (Hw & _) Hs].
  { now right. }
  left. cbn [map fold_right]. rewrite Hw.
  assert (fold_right Z.max 0 (map img_Width images) <= W); [|lia].
  induction Hs as [|im' images' (Hw' & _) _ IH]; cbn [map fold_right]; lia.
Qed.

(** The dimensions of the header of such a page: [H' * W' * c] is the
    length of its bitmap. *)
Lemma strips_dimensions (g : globals) (page : Page) (pgno : Z) (W : Z)
    (c : nat) :
  0 <= W -> W < 2 ^ 32 ->
  strips W c (page_images page) ->
  total_height (page_images page) < 2 ^ 32 ->
  let h := header (header_stage g page pgno) in
  0 <= cupsHeight h < 2 ^ 32 /\ 0 <= cupsWidth h /\
  cupsHeight h * cupsWidth h * Z.of_nat c
  = len (as_bitmap (assembled g page pgno)) /\
  (cupsWidth h = W \/ cupsWidth h = total_height (page_images page) \/
   cupsWidth h = 0).
Proof.
  intros HW HW32 Hs Ht. cbv zeta.
  destruct (strips_bitmap _ _ _ Hs) as [Hlen Hth].
  assert (Hw : Forall (fun im => img_Width im < 2 ^ 32) (page_images page)).
  { destruct (strips_widest _ _ _ HW Hs); [assumption|lia]. }
  pose proof (header_stage_dimensions g page pgno Hw) as Hd. cbv zeta in Hd.
  rewrite (u32_small (total_height (page_images page))) in Hd by lia.
  assert (Hb : as_bitmap (assembled g page pgno)
               = concat (map img_data (page_images page))).
  { unfold assembled, assemble_images. now rewrite assemble_bitmap. }
  rewrite Hb, Hlen.
  destruct (strips_widest_eq _ _ _ HW Hs) as [Ew|[Ee Ew]]; rewrite Ew in Hd.
  - destruct (_ || _); destruct Hd as [-> ->]; repeat split; try lia; auto.
  - assert (E0 : total_height (page_images page) = 0)
      by (rewrite Ee; reflexivity).
    rewrite E0 in *.
    destruct (_ || _); destruct Hd as [-> ->]; repeat split; try lia; auto.
Qed.

Lemma In_band_calls (g : globals) (bp row plane : Z) (e : event) :
  In e (band_calls g bp row plane) ->
  exists band, e = EvPixels (convertline g) bp row (u32 (plane + band))
                     (cupsWidth (header g)) (bytesPerLine g).
Proof.
  unfold band_calls. intros Hin. apply in_map_iff in Hin as (band & <- & _).
  eauto.
Qed.

(** X20.  A page whose images are strips of one width, each with as many
    bytes as its size and the colorspace of the page ask for, is read
    inside its bitmap: every scanline that is written is made from
    [cupsWidth] pixels of [c] bytes that start at an offset [bp] with
    [0 <= bp] and [bp + cupsWidth * c] no more than the length of the
    bitmap, whatever the rotation and the order of the rows. *)
Theorem outPage_reads_inside (g : globals) (page : Page) (pgno : Z)
    (g' : globals) (W : Z) (c : nat) :
  (outPage g page pgno).2 = Done g' ->
  mediaboxlookup (page_obj page) = Done true ->
  components (page_colorspace g page pgno) = Some c ->
  0 <= W -> W * Z.of_nat c < 2 ^ 31 ->
  strips W c (page_images page) ->
  total_height (page_images page) * Z.of_nat c < 2 ^ 31 ->
  W * total_height (page_images page) * Z.of_nat c < 2 ^ 32 ->
  forall f bp row plane pixels n,
    In (EvPixels f bp row plane pixels n) ((outPage g page pgno).1) ->
    pixels = cupsWidth (header g') /\
    0 <= bp /\
    bp + pixels * Z.of_nat c <= len (as_bitmap (assembled g page pgno)).
Proof.
  intros Hdone Hbox Hc HW HWc Hs Htc Hall f bp row plane pixels n Hin.
  assert (Hc1 : (1 <= c)%nat).
  { destruct (components_cases _ _ Hc) as [[_ ->]|[[_ ->]|[_ ->]]]; lia. }
  destruct (strips_bitmap _ _ _ Hs) as [_ Hth].
  destruct (outPage_Done_trace _ _ _ _ Hdone Hbox) as (Hh & Hsel & Ht).
  rewrite Ht in Hin.
  destruct Hin as [Hin|[Hin|Hin]]; try discriminate.
  apply in_app_or in Hin as [Hin|Hin].
  { unfold rotate_events in Hin.
    destruct (_ =? 0); [destruct Hin|destruct Hin as [Hin|[]]; discriminate]. }
  destruct (selectConvertFunc_frame _ _ _ _ _ Hsel)
    as (_ & _ & _ & _ & _ & _ & _ & c' & Hc' & _ & Hrs).
  assert (c' = c) as -> by congruence.
  rewrite header_folded, <- Hh in Hrs.
  destruct (strips_dimensions g page pgno W c) as (HH & HWd & Hlen & Hcases);
    try assumption; try nia.
  cbv zeta in *. rewrite <- Hh in HH, HWd, Hlen, Hcases.
  set (H' := cupsHeight (header g')) in *.
  set (W' := cupsWidth (header g')) in *.
  assert (HWc' : 0 <= W' * Z.of_nat c < 2 ^ 31).
  { destruct Hcases as [->|[->| ->]]; nia. }
  assert (Ers : rowsize g' = W' * Z.of_nat c).
  { rewrite Hrs. unfold i32. rewrite u32_small by lia.
    destruct (Z.ltb_spec (W' * Z.of_nat c) (2 ^ 31)); lia. }
  assert (Htot : H' * W' * Z.of_nat c < 2 ^ 32).
  { rewrite Hlen. unfold assembled, assemble_images.
    rewrite assemble_bitmap. cbn [as_bitmap app].
    destruct (strips_bitmap _ _ _ Hs) as [-> _]. lia. }
  destruct (write_lines_shape g' pgno) as (bpf & rowf & Ew & Hf).
  rewrite Ew in Hin. cbn [fst] in Hin.
  apply in_flat_map in Hin as (pl & _ & Hin).
  apply in_flat_map in Hin as (k & Hk & Hin).
  apply In_seqZ in Hk. fold H' in Hk.
  apply In_band_calls in Hin as [band Hin].
  injection Hin as -> -> -> -> -> ->.
  split; [reflexivity|]. fold W'.
  assert (Hrow : forall r, 0 <= r < H' ->
            0 <= r * (W' * Z.of_nat c) /\
            r * (W' * Z.of_nat c) + W' * Z.of_nat c
            <= H' * W' * Z.of_nat c) by (intros r Hr; nia).
  rewrite <- Hlen.
  destruct (backside g' pgno && swap_image_y (swap g'));
    destruct Hf as [-> ->]; cbv beta; fold H'; rewrite Ers.
  - rewrite (u32_small (H' - 1)) by nia.
    rewrite (u32_small ((H' - 1) * (W' * Z.of_nat c))) by nia.
    specialize (Hrow (H' - 1 - k)). nia.
  - specialize (Hrow k). nia.
Qed.

(** ** Quarter turns *)

Lemma rotatebitmap_quarter_defined {A : Type} (src dst : list A)
    (rotate H W rs : Z) (cs : string) (c : nat) :
  components cs = Some c ->
  rotate = 90 \/ rotate = 270 ->
  0 <= H -> 0 <= W -> H * W * Z.of_nat c < 2 ^ 32 ->
  H * W * Z.of_nat c <= len dst -> H * W * Z.of_nat c <= len src ->
  exists d, rotatebitmap src dst rotate H W rs cs = Done d.
Proof.
  intros Hc Hr HH HW Hwrap Hdst Hsrc.
  destruct (Z.eq_dec H 0) as [->|H0]; [|destruct (Z.eq_dec W 0) as [->|W0]].
  - exists dst. unfold rotatebitmap.
    destruct (components_cases _ _ Hc) as [[-> _]|[[-> _]|[-> _]]];
      destruct Hr as [-> | ->]; reflexivity.
  - exists dst. unfold rotatebitmap.
    destruct (components_cases _ _ Hc) as [[-> _]|[[-> _]|[-> _]]];
      destruct Hr as [-> | ->]; cbn [Z.eqb Pos.eqb String.eqb Ascii.eqb Bool.eqb];
      apply rotate_loops_nothing; lia.
  - destruct Hr as [-> | ->].
    + destruct (rotatebitmap_90_cells src dst H W rs cs c)
        as (d & Hd & _); try assumption; try lia. eauto.
    + destruct (rotatebitmap_270_cells src dst H W rs cs c)
        as (d & Hd & _); try assumption; try lia. eauto.
Qed.

(** X21.  A page of strips of one width whose rotation, after the fold, is
    90 or 270 is written to its end, whatever [rowsize] the pages before
    left: the quarter turns do not use the stride, and they stay inside
    the two bitmaps. *)
Theorem outPage_quarter_turn_defined (g : globals) (page : Page) (pgno : Z)
    (W : Z) (c : nat) :
  mediaboxlookup (page_obj page) = Done true ->
  page_header_ok page = true ->
  components (page_colorspace g page pgno) = Some c ->
  0 <= W -> W < 2 ^ 32 ->
  strips W c (page_images page) ->
  total_height (page_images page) < 2 ^ 32 ->
  W * total_height (page_images page) * Z.of_nat c < 2 ^ 32 ->
  folded_rotation g page pgno = 90 \/ folded_rotation g page pgno = 270 ->
  exists g',
    (outPage g page pgno).2 = Done g' /\
    rotations ((outPage g page pgno).1) = [folded_rotation g page pgno].
Proof.
  intros Hbox Hok Hc HW HW32 Hs Ht Hall Hr.
  destruct (strips_dimensions g page pgno W c) as (HH & HWd & Hlen & _);
    try assumption.
  cbv zeta in *.
  assert (Hb : len (as_bitmap (assembled g page pgno))
               = W * total_height (page_images page) * Z.of_nat c).
  { unfold assembled, assemble_images. rewrite assemble_bitmap.
    cbn [as_bitmap app]. now destruct (strips_bitmap _ _ _ Hs). }
  assert (Hu : u32 (folded_rotation g page pgno) = folded_rotation g page pgno)
    by (destruct Hr as [-> | ->]; reflexivity).
  assert (Hnz : folded_rotation g page pgno <> 0)
    by (destruct Hr as [-> | ->]; discriminate).
  rewrite outPage_unfold, Hbox, Hok. cbn [fst snd].
  change (rotations (?a :: ?b :: ?t)) with (rotations t).
  rewrite rotations_page_tail, Hu.
  replace (folded_rotation g page pgno =? 0) with false
    by (symmetry; now apply Z.eqb_neq).
  unfold page_tail.
  destruct (rotate_page_call (folded_globals g page pgno)
              (folded_rotation g page pgno)
              (as_bitmap (assembled g page pgno))
              (page_colorspace g page pgno) Hnz) as [t ->].
  rewrite Hu, header_folded.
  destruct (rotatebitmap_quarter_defined
              (map Some (as_bitmap (assembled g page pgno)))
              (repeat None (length (as_bitmap (assembled g page pgno))))
              (folded_rotation g page pgno)
              (cupsHeight (header (header_stage g page pgno)))
              (cupsWidth (header (header_stage g page pgno)))
              (rowsize (folded_globals g page pgno))
              (page_colorspace g page pgno) c) as [d ->];
    try assumption; try lia.
  { unfold len. rewrite repeat_length. fold (len (as_bitmap (assembled g page pgno))). lia. }
  { unfold len. rewrite length_map. fold (len (as_bitmap (assembled g page pgno))). lia. }
  cbn [bind fst snd].
  destruct (selectConvertFunc_supported (page_colorspace g page pgno) pgno
              (folded_globals g page pgno) c Hc) as [g' ->].
  cbn [bind fst snd].
  destruct (write_lines_done g' pgno) as [t3 ->]. cbn [bind ret fst snd].
  exists g'. split; reflexivity.
Qed.

(** ** The status of a job *)

Lemma outPage_Exit_status (g : globals) (page : Page) (pgno : Z) (s : Z) :
  (outPage g page pgno).2 = Exit s -> s = 1.
Proof.
  rewrite outPage_unfold.
  destruct (mediaboxlookup (page_obj page)) as [[|]|s'|] eqn:Hbox;
    cbn [fst snd]; try discriminate.
  2:{ unfold mediaboxlookup in Hbox.
      destruct (_ || _); [discriminate|]. cbv zeta in Hbox.
      unfold vector_at in Hbox.
      repeat (destruct (_ !! _); cbn [obind] in Hbox; [|discriminate]).
      discriminate. }
  destruct (page_header_ok page); cbn [fst snd]; [|now intros [= <-]].
  unfold page_tail.
  destruct (rotate_page _ _ _ _) as [t1 [cd|s1|]] eqn:Er;
    cbn [bind fst snd]; try discriminate.
  - destruct (selectConvertFunc _ _ _) as [t2 [g3|s2|]] eqn:Es;
      cbn [bind fst snd]; try discriminate.
    + destruct (write_lines_done g3 pgno) as [t3 ->]. discriminate.
    + intros [= <-]. revert Es. unfold selectConvertFunc.
      destruct (String.eqb _ _); [discriminate|].
      destruct (String.eqb _ _); [discriminate|].
      destruct (String.eqb _ _); [discriminate|].
      now intros [= _ <-].
  - intros [= <-]. now apply rotate_page_Exit in Er.
Qed.

Lemma run_pages_Exit_status : forall (ps : list Page) (i : Z) (g : globals)
    (s : Z),
  (run_pages ps i g).2 = Exit s -> s = 1.
Proof.
  induction ps as [|p ps IH]; intros i g s; cbn [run_pages emit bind].
  - discriminate.
  - destruct (outPage g p i) as [tp [gp|sp|]] eqn:Ep; cbn [bind fst snd].
    + specialize (IH (i + 1) gp s).
      destruct (run_pages ps (i + 1) gp) as [tr o]. exact IH.
    + intros [= <-]. apply (outPage_Exit_status g p i). now rewrite Ep.
    + discriminate.
Qed.

(** X22.  The status of a job.  When [main] returns, it returns 0, the
    depth is one of 1, 2, 4, 8 and 16 and the raster stream was opened;
    when it exits, the status is 1; and it exits before the first page
    with one line on [stderr] when the depth is not supported or the
    raster stream cannot be opened. *)
Theorem main_status (j : job) :
  (forall r, (main j).2 = Done r ->
     r = 0 /\ supported_depth (cupsBitsPerColor (job_header j)) = true /\
     job_raster_ok j = true) /\
  (forall s, (main j).2 = Exit s -> s = 1) /\
  (supported_depth (cupsBitsPerColor (job_header j)) = false ->
   main j = ([EvLog ErrColorFormat], Exit 1)) /\
  (supported_depth (cupsBitsPerColor (job_header j)) = true ->
   job_raster_ok j = false ->
   main j = ([EvLog ErrRasterOpen], Exit 1)).
Proof.
  unfold main. cbn [header parseOpts].
  destruct (supported_depth (cupsBitsPerColor (job_header j))); cbn [negb].
  2:{ split; [discriminate|]. split; [now intros s [= <-]|].
      split; [reflexivity|discriminate]. }
  destruct (job_raster_ok j); cbn [negb].
  2:{ split; [discriminate|]. split; [now intros s [= <-]|].
      split; [discriminate|reflexivity]. }
  fold (parseOpts j).
  destruct (run_pages (job_pages j) 0 (plane_setup (parseOpts j)))
    as [t [g2|s2|]] eqn:E; cbn [bind ret fst snd].
  - split; [intros r [= <-]; auto|]. split; [discriminate|].
    split; discriminate.
  - split; [discriminate|]. split; [|split; discriminate].
    intros s [= <-].
    apply (run_pages_Exit_status (job_pages j) 0 (plane_setup (parseOpts j))).
    now rewrite E.
  - split; [discriminate|]. split; [discriminate|]. split; discriminate.
Qed.

(** ** The raster flavour and the bi-level option *)

Lemma starts_with_begins (word t : string) :
  starts_with word t = true <-> begins_with word t.
Proof.
  revert t. induction word as [|c1 r1 IH]; intros t; cbn [starts_with].
  - split; [|reflexivity]. intros _. exists EmptyString, t. split; reflexivity.
  - destruct t as [|c2 r2].
    + split; [discriminate|]. intros (m & rest & E & L).
      destruct m; cbn in L; [discriminate|]. discriminate.
    + rewrite andb_true_iff, Ascii.eqb_eq, IH. split.
      * intros (Ec & m & rest & -> & L). exists (String c2 m), rest.
        split; [reflexivity|]. cbn [lower]. now rewrite L, Ec.
      * intros (m & rest & E & L). destruct m as [|c m]; [discriminate|].
        cbn in E, L. injection E as -> ->. injection L as Lc L.
        split; [now symmetry|]. exists m, rest. now split.
Qed.

Lemma strcasestr_mentions (haystack needle : string) :
  is_some (strcasestr haystack needle) = true <-> mentions needle haystack.
Proof.
  split.
  - induction haystack as [|c rest IH]; cbn [strcasestr].
    + destruct (starts_with needle EmptyString) eqn:E; [|discriminate].
      intros _. apply starts_with_begins in E as (m & r & E & L).
      exists EmptyString, m, r. now split.
    + destruct (starts_with needle (String c rest)) eqn:E.
      * intros _. apply starts_with_begins in E as (m & r & E & L).
        exists EmptyString, m, r. now split.
      * intros H. apply IH in H as (pre & m & post & -> & L).
        exists (String c pre), m, post. now split.
  - intros (pre & m & post & -> & L).
    assert (Hs : starts_with needle (m ++ post) = true).
    { apply starts_with_begins. exists m, post. now split. }
    induction pre as [|c pre IH].
    + cbn [append]. destruct (m ++ post)%string; cbn [strcasestr];
        now rewrite Hs.
    + cbn [append strcasestr].
      destruct (starts_with needle (String c (pre ++ m ++ post)));
        [reflexivity|exact IH].
Qed.

Lemma uchar_inj (a b : ascii) : uchar a = uchar b -> a = b.
Proof.
  unfold uchar. intros E. apply Nat2Z.inj in E.
  rewrite <- (ascii_nat_embedding a), <- (ascii_nat_embedding b).
  now rewrite E.
Qed.

Lemma uchar_nonneg (a : ascii) : 0 <= uchar a.
Proof. unfold uchar. lia. Qed.

(** Comparing as many bytes as a word without a null byte has. *)
Lemma strncasecmp_starts (word : string) : forall val : string,
  (forall c, In c (list_ascii_of_string word) -> uchar (tolower c) <> 0) ->
  strncasecmp val word (String.length word) = 0
  <-> starts_with word val = true.
Proof.
  induction word as [|c1 r1 IH]; intros val Hnz;
    cbn [String.length strncasecmp starts_with].
  - split; reflexivity.
  - destruct val as [|c2 r2].
    + split; [|discriminate]. intros E. exfalso.
      apply (Hnz c1); [now left|lia].
    + cbv zeta.
      destruct (Z.eqb_spec (uchar (tolower c2) - uchar (tolower c1)) 0)
        as [E|E].
      * assert (Ec : tolower c1 = tolower c2) by (apply uchar_inj; lia).
        rewrite Ec, Ascii.eqb_refl. cbn [andb]. apply IH.
        intros c Hc. apply Hnz. now right.
      * split; [contradiction|]. intros H. apply andb_prop in H as [H _].
        apply Ascii.eqb_eq in H. rewrite H in E. lia.
Qed.

(** X23.  The raster flavour that [parseOpts] settles on.  With a PPD,
    [pwgraster] is 1 exactly when FINAL_CONTENT_TYPE has pwg in it, in
    any case, or the PPD attribute PWGRaster is true, on or yes, in any
    case; otherwise it is 0.  Without a PPD the environment variable
    counts for nothing: [pwgraster] is 1 unless the option media-class,
    or MediaClass when there is no media-class, is given and has no pwg
    in it. *)
Theorem parseOpts_pwgraster_decision (o : raster_options) :
  (PWGRaster o <> Some None ->
   exists r,
     parseOpts_pwgraster true o = Done r /\ (r = 0 \/ r = 1) /\
     (r = 1 <->
      (exists t, FINAL_CONTENT_TYPE o = Some t /\ mentions "pwg" t) \/
      (exists v, PWGRaster o = Some (Some v) /\
         (strcasecmp v "true" = 0 \/ strcasecmp v "on" = 0 \/
          strcasecmp v "yes" = 0)))) /\
  (exists r,
     parseOpts_pwgraster false o = Done r /\ (r = 0 \/ r = 1) /\
     (r = 0 <->
      exists t,
        (opt_media_class o = Some t \/
         (opt_media_class o = None /\ opt_MediaClass o = Some t)) /\
        ~ mentions "pwg" t)).
Proof.
  assert (Henv : (pwgraster_of_env o = 0 \/ pwgraster_of_env o = 1) /\
                 (pwgraster_of_env o = 1 <->
                  exists t, FINAL_CONTENT_TYPE o = Some t /\ mentions "pwg" t)).
  { unfold pwgraster_of_env. destruct (FINAL_CONTENT_TYPE o) as [t|].
    - destruct (is_some (strcasestr t "pwg")) eqn:E.
      + split; [now right|]. split; [|reflexivity]. intros _.
        exists t. split; [reflexivity|]. now apply strcasestr_mentions.
      + split; [now left|]. split; [discriminate|].
        intros (t' & [= <-] & Hm). apply strcasestr_mentions in Hm.
        congruence.
    - split; [now left|]. split; [discriminate|]. now intros (t & [=] & _). }
  destruct Henv as [H01 Henv]. split.
  - intros Hnull. unfold parseOpts_pwgraster.
    destruct (PWGRaster o) as [[v|]|]; [|contradiction|].
    + destruct (Z.eqb_spec (strcasecmp v "true") 0) as [Et|Et];
        [|destruct (Z.eqb_spec (strcasecmp v "on") 0) as [Eo|Eo];
          [|destruct (Z.eqb_spec (strcasecmp v "yes") 0) as [Ey|Ey]]];
        cbn [orb].
      * exists 1. split; [reflexivity|]. split; [now right|].
        split; [|reflexivity]. intros _. right. exists v. auto.
      * exists 1. split; [reflexivity|]. split; [now right|].
        split; [|reflexivity]. intros _. right. exists v. auto.
      * exists 1. split; [reflexivity|]. split; [now right|].
        split; [|reflexivity]. intros _. right. exists v. auto.
      * exists (pwgraster_of_env o). split; [reflexivity|].
        split; [exact H01|]. rewrite Henv. split; [now left|].
        intros [H|(v' & [= <-] & [H|[H|H]])]; [exact H| | |]; contradiction.
    + exists (pwgraster_of_env o). split; [reflexivity|].
      split; [exact H01|]. rewrite Henv. split; [now left|].
      intros [H|(v' & [=] & _)]. exact H.
  - unfold parseOpts_pwgraster.
    assert (Hmedia : forall t,
      exists r,
        (if is_some (strcasestr t "pwg") then Done 1 else Done 0) = Done r /\
        (r = 0 \/ r = 1) /\ (r = 0 <-> ~ mentions "pwg" t)).
    { intros t. destruct (is_some (strcasestr t "pwg")) eqn:E.
      - exists 1. split; [reflexivity|]. split; [now right|].
        split; [discriminate|]. intros Hn. exfalso. apply Hn.
        now apply strcasestr_mentions.
      - exists 0. split; [reflexivity|]. split; [now left|].
        split; [|reflexivity]. intros _ Hm.
        apply strcasestr_mentions in Hm. congruence. }
    destruct (opt_media_class o) as [t|].
    + destruct (Hmedia t) as (r & -> & H & Hr). exists r.
      split; [reflexivity|]. split; [exact H|]. rewrite Hr. split.
      * intros Hn. exists t. split; [now left|exact Hn].
      * intros (t' & [[= <-]|[[=] _]] & Hn). exact Hn.
    + destruct (opt_MediaClass o) as [t|].
      * destruct (Hmedia t) as (r & -> & H & Hr). exists r.
        split; [reflexivity|]. split; [exact H|]. rewrite Hr. split.
        -- intros Hn. exists t. split; [now right|exact Hn].
        -- intros (t' & [[=]|[_ [= <-]]] & Hn). exact Hn.
      * exists 1. split; [reflexivity|]. split; [now right|].
        split; [discriminate|]. intros (t & [[=]|[_ [=]]] & _).
Qed.

(** X24.  The bi-level option: [bi_level] becomes 1 exactly when the
    option print-color-mode is given and begins with bi-level in any
    case, whatever follows these eight bytes; otherwise it stays 0. *)
Theorem parseOpts_bi_level_prefix (o : raster_options) :
  (parseOpts_bi_level o = 0 \/ parseOpts_bi_level o = 1) /\
  (parseOpts_bi_level o = 1 <->
   exists val, opt_print_color_mode o = Some val /\
               begins_with "bi-level" val).
Proof.
  unfold parseOpts_bi_level.
  destruct (opt_print_color_mode o) as [val|].
  2:{ split; [now left|]. split; [discriminate|]. now intros (v & [=] & _). }
  assert (Hs : strncasecmp val "bi-level" 8 = 0 <-> begins_with "bi-level" val).
  { rewrite <- starts_with_begins.
    apply (strncasecmp_starts "bi-level" val).
    intros c Hc. cbn in Hc.
    repeat (destruct Hc as [<-|Hc]; [vm_compute; discriminate|]).
    destruct Hc. }
  destruct (Z.eqb_spec (strncasecmp val "bi-level" 8) 0) as [E|E].
  - split; [now right|]. split; [|reflexivity]. intros _.
    exists val. split; [reflexivity|]. now apply Hs.
  - split; [now left|]. split; [discriminate|].
    intros (v & [= <-] & Hb). now apply Hs in Hb.
Qed.

(** ** The three treatments of a backside *)

(** X25.  What the two image flags do to a duplex backside that is written
    to its end.  Both set: the page is turned by a further 180 degrees,
    its rows go forward and the plain line function writes them.  Only
    image-x: no turn, the mirroring line function, rows forward.  Only
    image-y: no turn, the plain line function, and the loop that writes
    the rows from the last to the first.  Neither: the page is written
    like a front page. *)
Theorem backside_actions (g : globals) (page : Page) (pgno : Z)
    (g' : globals) :
  (outPage g page pgno).2 = Done g' ->
  mediaboxlookup (page_obj page) = Done true ->
  backside g pgno = true ->
  let x := swap_image_x (swap g) in
  let y := swap_image_y (swap g) in
  folded_rotation g page pgno
  = (if x && y then Z.rem (page_rotate page + 180) 360
     else page_rotate page) /\
  convertline g'
  = Some (if x && negb y then fp_convertReverseLine else fp_convertLine) /\
  backside g' pgno && swap_image_y (swap g') = negb x && y.
Proof.
  intros Hdone Hbox Hb. cbv zeta.
  destruct (outPage_Done_trace _ _ _ _ Hdone Hbox) as (Hh & Hsel & _).
  destruct (selectConvertFunc_frame _ _ _ _ _ Hsel)
    as (_ & Hs & _ & _ & _ & _ & Hl & _).
  rewrite folded_globals_backside, Hb in Hl.
  assert (Hb' : backside g' pgno = true).
  { unfold backside. rewrite Hh, header_stage_Duplex. exact Hb. }
  rewrite Hb', Hs.
  destruct (fold_swap_page g page pgno) as [Hf Hk]. rewrite Hb in Hf, Hk.
  destruct (swap_image_x (swap g)) eqn:Ex, (swap_image_y (swap g)) eqn:Ey;
    cbn [andb negb] in *.
  - destruct (Hf eq_refl) as [-> E]. rewrite E in *. cbn in *. auto.
  - destruct (Hk eq_refl) as [-> E]. rewrite E in *. rewrite Ex in Hl.
    rewrite Ey. auto.
  - destruct (Hk eq_refl) as [-> E]. rewrite E in *. rewrite Ex in Hl.
    rewrite Ey. auto.
  - destruct (Hk eq_refl) as [-> E]. rewrite E in *. rewrite Ex in Hl.
    rewrite Ey. auto.
Qed.

(** ** Mirroring a line twice *)

Section LineTwice.
Context `{CupsFilters}.

(** X26.  On the 8-bit chunked path, with no conversion to make (the
    no-op is selected), the plain line function hands back the source row
    itself, and mirroring a row and then the result gives the pixels of
    the row back in their places. *)
Theorem convertReverseLine_twice (g : globals) (src dst1 dst2 buf : list byte)
    (row plane W nc : Z) :
  convertcspace g = Some fp_convertcspaceNoop ->
  cupsBitsPerColor (header g) = 8 ->
  cupsColorOrder (header g) = CUPS_ORDER_CHUNKED ->
  cupsWidth (header g) = W -> cupsNumColors (header g) = nc ->
  1 <= W -> 1 <= nc -> W * nc < 2 ^ 32 ->
  W * nc <= len src -> W * nc <= len dst1 -> W * nc <= len dst2 ->
  convertLine g src dst1 buf row plane W = Done src /\
  exists out1 out2,
    convertReverseLine g src dst1 buf row plane W = Done out1 /\
    convertReverseLine g out1 dst2 buf row plane W = Done out2 /\
    (forall i j, 0 <= i < W -> 0 <= j < nc ->
       rd out1 (i * nc + j) = rd src ((W - 1 - i) * nc + j)) /\
    (forall k, 0 <= k < W * nc -> rd out2 k = rd src k).
Proof.
  intros Hf Hb Ho HW Hnc HW1 Hnc1 Hwrap Hsrc Hd1 Hd2.
  split.
  { unfold convertLine, call_convertcspace.
    rewrite Hb, Ho, Hf. cbn [Z.eqb Pos.eqb andb orb is_chunked].
    reflexivity. }
  assert (Hu : u32 (u32 (W - 1) * nc) = (W - 1) * nc).
  { rewrite (u32_small (W - 1)) by nia. apply u32_small. nia. }
  assert (Hrev : forall s d, W * nc <= len s -> W * nc <= len d ->
    exists out,
      convertReverseLine g s d buf row plane W = Done out /\
      len out = len d /\
      forall i j, 0 <= i < W -> 0 <= j < nc ->
        rd out (i * nc + j) = rd s ((W - 1 - i) * nc + j)).
  { intros s d Hs Hd. unfold convertReverseLine, call_convertcspace.
    rewrite Hb, Ho, Hf, HW, Hnc.
    cbn [Z.eqb Pos.eqb andb obind is_chunked].
    change (cspace_fn fp_convertcspaceNoop g s buf row W) with s.
    rewrite Hu.
    destruct (copy_row_spec (Z.to_nat nc) (- nc) s (Z.to_nat W)
                (mkCursor ((W - 1) * nc) 0 d))
      as (o & Hrow & Hlen & _ & Hin); cbn [cur_bp cur_dp cur_dst];
      rewrite ?Z2Nat.id by lia.
    { lia. } { lia. }
    { intros q Hq.
      replace ((W - 1) * nc + q * - nc) with ((W - 1 - q) * nc) by lia.
      nia. }
    cbn [cur_bp cur_dp cur_dst] in *. rewrite ?Z2Nat.id in * by lia.
    rewrite Hrow. cbn [obind cur_dst].
    exists o. split; [reflexivity|]. split; [exact Hlen|].
    intros i j Hi Hj. specialize (Hin i j Hi Hj).
    rewrite Z.add_0_l in Hin. rewrite Hin. f_equal. lia. }
  destruct (Hrev src dst1 Hsrc Hd1) as (out1 & E1 & L1 & C1).
  destruct (Hrev out1 dst2) as (out2 & E2 & L2 & C2); [lia|exact Hd2|].
  exists out1, out2. split; [exact E1|]. split; [exact E2|].
  split; [exact C1|].
  intros k Hk.
  destruct (offset_split 1 W nc k) as (r & q & j & Hr & Hq & Hj & ->);
    try lia.
  assert (r = 0) as -> by lia. rewrite Z.mul_0_l, Z.add_0_l.
  rewrite C2, C1 by lia. f_equal. lia.
Qed.

End LineTwice.

(** ** More sample pages, and the theorems at work on them *)

Lemma fold_only_once_witness :
  swap_image_x (swap (after_pages (job_pages four_page_job)
                        (plane_setup (parseOpts four_page_job)))) = false.
Proof.
  refine (proj1 (fold_only_once (job_pages four_page_job) 0
                   (plane_setup (parseOpts four_page_job))
                   (after_pages (job_pages four_page_job)
                      (plane_setup (parseOpts four_page_job)))
                   (run_pages (job_pages four_page_job) 0
                      (plane_setup (parseOpts four_page_job))).1 _ _));
    vm_compute; congruence.
Defined.

Lemma rotatebitmap_only_copies_witness :
  len [Byte.x04; Byte.x01; Byte.x05; Byte.x02; Byte.x06; Byte.x03]
  = len (blank 6).
Proof.
  refine (proj1 (rotatebitmap_only_copies six_bytes (blank 6) 90 3 2 0
                   DeviceGray
                   [Byte.x04; Byte.x01; Byte.x05; Byte.x02; Byte.x06; Byte.x03]
                   _ _)); vm_compute; congruence.
Defined.

Lemma rotatebitmap_nothing_to_copy_witness :
  rotatebitmap six_bytes (blank 6) 180 2 0 3 DeviceGray = Done (blank 6).
Proof.
  apply rotatebitmap_nothing_to_copy; [right; left; reflexivity|].
  right. left. lia.
Defined.

Lemma rotatebitmap_quarter_turns_witness :
  exists d,
    rotatebitmap six_bytes (blank 6) 270 3 2 0 DeviceGray = Done d /\
    len d = 3 * 2 * Z.of_nat 1 /\
    forall r q j, 0 <= r < 3 -> 0 <= q < 2 -> 0 <= j < Z.of_nat 1 ->
      rd d ((r * 2 + q) * Z.of_nat 1 + j)
      = rd six_bytes ((q * 3 + (3 - 1 - r)) * Z.of_nat 1 + j).
Proof.
  refine (proj2 (rotatebitmap_quarter_turns six_bytes (blank 6) 3 2 0
                   DeviceGray 1 _ _ _ _ _ _)); vm_compute; congruence.
Defined.

Lemma rotatebitmap_turns_compose_witness :
  exists y,
    rotatebitmap six_bytes (blank 6) 270 3 2 0 DeviceGray = Done y /\
    rotatebitmap y (blank 6) 90 2 3 0 DeviceGray = Done six_bytes.
Proof.
  refine (proj1 (rotatebitmap_turns_compose six_bytes (blank 6) (blank 6)
                   (blank 6) 2 3 DeviceGray 1 0 0 _ _ _ _ _ _ _ _));
    vm_compute; congruence.
Defined.

Lemma outPage_scanlines_witness :
  scanline_bytes
    ((outPage (start_globals (rgb_header false) no_swap)
        (rotated_page 0 [rgb_strip 2 3]) 0).1)
  = repeat
      (bytesPerLine (after_pages [rotated_page 0 [rgb_strip 2 3]]
                       (start_globals (rgb_header false) no_swap)))
      (Z.to_nat (nplanes (after_pages [rotated_page 0 [rgb_strip 2 3]]
                            (start_globals (rgb_header false) no_swap)))
       * (Z.to_nat
            (cupsHeight
               (header (after_pages [rotated_page 0 [rgb_strip 2 3]]
                          (start_globals (rgb_header false) no_swap))))
          * Z.to_nat (nbands (after_pages [rotated_page 0 [rgb_strip 2 3]]
                                (start_globals (rgb_header false) no_swap))))).
Proof.
  refine (proj1 (proj2 (outPage_scanlines
            (start_globals (rgb_header false) no_swap)
            (rotated_page 0 [rgb_strip 2 3]) 0
            (after_pages [rotated_page 0 [rgb_strip 2 3]]
               (start_globals (rgb_header false) no_swap)) _ _)));
    vm_compute; reflexivity.
Defined.

Lemma outPage_exit_witness :
  Forall (fun e => ~ is_pixels e)
    ((outPage (start_globals (rgb_header false) no_swap)
        (rotated_page 45 [rgb_strip 2 1]) 0).1).
Proof.
  refine (proj1 (proj2 (proj2 (outPage_exit
            (start_globals (rgb_header false) no_swap)
            (rotated_page 45 [rgb_strip 2 1]) 0 1 _)))).
  vm_compute. reflexivity.
Defined.

Lemma outPage_unsupported_colorspace_witness :
  outPage (start_globals (rgb_header false) no_swap)
    (rotated_page 90 [indexed_strip 2 1]) 0
  = (EvLog DebugMediaBox
       :: EvHeader (header (header_stage
                              (start_globals (rgb_header false) no_swap)
                              (rotated_page 90 [indexed_strip 2 1]) 0))
       :: rotate_events (start_globals (rgb_header false) no_swap)
            (rotated_page 90 [indexed_strip 2 1]) 0
       ++ [EvLog (ErrColorspace
                    (page_colorspace
                       (start_globals (rgb_header false) no_swap)
                       (rotated_page 90 [indexed_strip 2 1]) 0))],
     Exit 1).
Proof.
  refine (outPage_unsupported_colorspace
            (start_globals (rgb_header false) no_swap)
            (rotated_page 90 [indexed_strip 2 1]) 0 _ _ _ _);
    try (vm_compute; reflexivity).
  right. left. vm_compute. reflexivity.
Defined.

Lemma outPage_header_dimensions_witness :
  page_box (mkHeader false false 3 4 8 24 9 CUPS_ORDER_CHUNKED
              CUPS_CSPACE_RGB 3 (Some (mkGeometry 1 2 3 4 612 792)))
  = Some (backside_margins (start_globals (rgb_header false) no_swap) 0
            (page_geometry (rotated_page 90 [rgb_strip 4 1; rgb_strip 4 2]))).
Proof.
  refine (proj1 (proj2 (outPage_header_dimensions
            (start_globals (rgb_header false) no_swap)
            (rotated_page 90 [rgb_strip 4 1; rgb_strip 4 2]) 0
            (mkHeader false false 3 4 8 24 9 CUPS_ORDER_CHUNKED
               CUPS_CSPACE_RGB 3 (Some (mkGeometry 1 2 3 4 612 792)))
            _ _))).
  - vm_compute. tauto.
  - repeat constructor.
Defined.

Lemma page_colorspace_last_image_witness :
  page_colorspace (start_globals (rgb_header false) no_swap)
    (rotated_page 0 [rgb_strip 2 1; gray_strip 2 1 [Byte.x07; Byte.x08]]) 0
  = match img_ColorSpace (gray_strip 2 1 [Byte.x07; Byte.x08]) with
    | QName n => n
    | _ => DeviceRGB
    end.
Proof.
  refine (proj2 (page_colorspace_last_image
            (start_globals (rgb_header false) no_swap)
            (rotated_page 0 [rgb_strip 2 1;
                             gray_strip 2 1 [Byte.x07; Byte.x08]]) 0
            [rgb_strip 2 1] (gray_strip 2 1 [Byte.x07; Byte.x08]) _)).
  reflexivity.
Defined.

Lemma job_settings_witness :
  Duplex (header (after_pages (job_pages four_page_job)
                    (plane_setup (parseOpts four_page_job))))
  = Duplex (job_header four_page_job).
Proof.
  refine (proj1 (job_settings four_page_job (job_pages four_page_job)
                   (run_pages (job_pages four_page_job) 0
                      (plane_setup (parseOpts four_page_job))).1
                   (after_pages (job_pages four_page_job)
                      (plane_setup (parseOpts four_page_job))) _)).
  vm_compute. reflexivity.
Defined.

Lemma main_all_pages_skipped_witness :
  main boxless_job
  = (flat_map skipped_log
       (seqZ 0 (Z.of_nat (length (job_pages boxless_job)))), Done 0).
Proof.
  refine (proj1 (main_all_pages_skipped boxless_job _ _ _));
    try (vm_compute; reflexivity).
  repeat constructor.
Defined.

Lemma main_stops_at_first_exit_witness :
  main bad_angle_job
  = ((run_pages [rotated_page 0 [rgb_strip 2 1]] 0
        (plane_setup (parseOpts bad_angle_job))).1
     ++ EvLog (InfoStartingPage
                 (Z.of_nat (length [rotated_page 0 [rgb_strip 2 1]]) + 1))
     :: (outPage (after_pages [rotated_page 0 [rgb_strip 2 1]]
                    (plane_setup (parseOpts bad_angle_job)))
           (rotated_page 45 [rgb_strip 2 1])
           (Z.of_nat (length [rotated_page 0 [rgb_strip 2 1]]))).1,
     Exit 1).
Proof.
  refine (main_stops_at_first_exit bad_angle_job
            [rotated_page 0 [rgb_strip 2 1]] [rotated_page 0 [rgb_strip 2 1]]
            (rotated_page 45 [rgb_strip 2 1])
            (run_pages [rotated_page 0 [rgb_strip 2 1]] 0
               (plane_setup (parseOpts bad_angle_job))).1
            (after_pages [rotated_page 0 [rgb_strip 2 1]]
               (plane_setup (parseOpts bad_angle_job)))
            1 _ _ _ _ _); vm_compute; reflexivity.
Defined.

Lemma job_page_scanlines_witness :
  cupsBytesPerLine
    (header (after_pages (job_pages cmyk_job)
               (plane_setup (parseOpts cmyk_job))))
  = (if is_banded (cupsColorOrder (job_header cmyk_job))
     then u32 (bytes_per_line
                 (header (after_pages (job_pages cmyk_job)
                            (plane_setup (parseOpts cmyk_job))))
               * cupsNumColors (job_header cmyk_job))
     else bytes_per_line
            (header (after_pages (job_pages cmyk_job)
                       (plane_setup (parseOpts cmyk_job))))).
Proof.
  refine (proj2 (job_page_scanlines cmyk_job []
            (sample_page [("/MediaBox"%string, letter_box)] [rgb_strip 4 2])
            [] (plane_setup (parseOpts cmyk_job))
            (after_pages (job_pages cmyk_job)
               (plane_setup (parseOpts cmyk_job))) _ _ _));
    vm_compute; reflexivity.
Defined.

Lemma outPage_reads_inside_witness :
  2 = cupsWidth (header (after_pages [rotated_page 0 [rgb_strip 2 3]]
                           (start_globals (rgb_header false) no_swap))) /\
  0 <= 12 /\
  12 + 2 * Z.of_nat 3
  <= len (as_bitmap (assembled (start_globals (rgb_header false) no_swap)
                       (rotated_page 0 [rgb_strip 2 3]) 0)).
Proof.
  refine (outPage_reads_inside
            (start_globals (rgb_header false) no_swap)
            (rotated_page 0 [rgb_strip 2 3]) 0
            (after_pages [rotated_page 0 [rgb_strip 2 3]]
               (start_globals (rgb_header false) no_swap))
            2 3 _ _ _ _ _ _ _ _ (Some fp_convertLine) 12 2 0 2 6 _);
    try (vm_compute; reflexivity); try (vm_compute; congruence).
  - repeat constructor; vm_compute; congruence.
  - vm_compute. tauto.
Defined.

Lemma outPage_quarter_turn_defined_witness :
  exists g',
    (outPage (start_globals (rgb_header false) no_swap)
       (rotated_page 90 [rgb_strip 2 3]) 0).2 = Done g' /\
    rotations
      ((outPage (start_globals (rgb_header false) no_swap)
          (rotated_page 90 [rgb_strip 2 3]) 0).1)
    = [folded_rotation (start_globals (rgb_header false) no_swap)
         (rotated_page 90 [rgb_strip 2 3]) 0].
Proof.
  refine (outPage_quarter_turn_defined
            (start_globals (rgb_header false) no_swap)
            (rotated_page 90 [rgb_strip 2 3]) 0 2 3 _ _ _ _ _ _ _ _ _);
    try (vm_compute; reflexivity); try (vm_compute; congruence).
  - repeat constructor; vm_compute; congruence.
  - left. vm_compute. reflexivity.
Defined.

Lemma backside_actions_witness :
  convertline
    (after_pages [rotated_page 0 [rgb_strip 2 1]; rotated_page 0 [rgb_strip 2 1]]
       (start_globals (rgb_header true) (mkSwap true false true true)))
  = Some (if swap_image_x
               (swap (after_pages [rotated_page 0 [rgb_strip 2 1]]
                        (start_globals (rgb_header true)
                           (mkSwap true false true true))))
             && negb (swap_image_y
                        (swap (after_pages [rotated_page 0 [rgb_strip 2 1]]
                                 (start_globals (rgb_header true)
                                    (mkSwap true false true true)))))
          then fp_convertReverseLine else fp_convertLine).
Proof.
  refine (proj1 (proj2 (backside_actions
            (after_pages [rotated_page 0 [rgb_strip 2 1]]
               (start_globals (rgb_header true) (mkSwap true false true true)))
            (rotated_page 0 [rgb_strip 2 1]) 1
            (after_pages [rotated_page 0 [rgb_strip 2 1];
                          rotated_page 0 [rgb_strip 2 1]]
               (start_globals (rgb_header true) (mkSwap true false true true)))
            _ _ _))); vm_compute; reflexivity.
Defined.

Lemma convertReverseLine_twice_witness :
  convertLine (H := plain_filters) (selected_globals 8 CUPS_ORDER_CHUNKED)
    six_bytes (blank 6) (blank 6) 0 0 2
  = Done six_bytes.
Proof.
  refine (proj1 (convertReverseLine_twice (H := plain_filters)
            (selected_globals 8 CUPS_ORDER_CHUNKED) six_bytes (blank 6)
            (blank 6) (blank 6) 0 0 2 3 _ _ _ _ _ _ _ _ _ _ _));
    vm_compute; congruence.
Defined.

(** ** Two inputs on which the filter departs from its description *)

(** C2, the failing input.  [four_page_job] is a duplex job whose PPD has
    cupsBackSide Rotated, so [parseOpts] sets all four swap flags: the job
    asks for both image swaps on every backside.  Its four pages are
    alike, with a valid MediaBox, no /Rotate and an accepted header.  The
    backside at page index 1 is folded as described: rotation 180, the
    rotator called with 180.  That fold clears the two file-scope image
    flags (lines 664-665), and nothing sets them again: the backside at
    page index 3 starts with both flags false, keeps rotation 0, is written
    without any call of the rotator, and the whole job has the single
    rotation of page index 1.  The margins of page index 3 are still the
    swapped ones of a backside. *)
Theorem second_backside_not_turned :
  let page := rotated_page 0 [rgb_strip 2 1] in
  let g0 := plane_setup (parseOpts four_page_job) in
  let g1 := after_pages [page] g0 in
  let g3 := after_pages [page; page; page] g0 in
  job_pages four_page_job = [page; page; page; page] /\
  swap g0 = mkSwap true true true true /\
  (backside g1 1 = true /\ swap g1 = mkSwap true true true true /\
   folded_rotation g1 page 1 = 180 /\
   rotations ((outPage g1 page 1).1) = [180]) /\
  (backside g3 3 = true /\ swap g3 = mkSwap false false true true /\
   mediaboxlookup (page_obj page) = Done true /\
   page_header_ok page = true /\
   folded_rotation g3 page 3 = 0 /\
   folded_rotation g3 page 3 <> Z.rem (page_rotate page + 180) 360 /\
   rotations ((outPage g3 page 3).1) = [] /\
   (exists h,
      headers ((outPage g3 page 3).1) = [h] /\
      page_box h = Some (mkGeometry 3 4 1 2 612 792)) /\
   exists g4, (outPage g3 page 3).2 = Done g4) /\
  rotations ((main four_page_job).1) = [180] /\
  (main four_page_job).2 = Done 0.
Proof.
  cbv zeta.
  split; [reflexivity|]. split; [vm_compute; reflexivity|].
  split.
  { split; [vm_compute; reflexivity|]. split; [vm_compute; reflexivity|].
    split; vm_compute; reflexivity. }
  split.
  { split; [vm_compute; reflexivity|]. split; [vm_compute; reflexivity|].
    split; [vm_compute; reflexivity|]. split; [reflexivity|].
    split; [vm_compute; reflexivity|].
    split; [vm_compute; discriminate|].
    split; [vm_compute; reflexivity|].
    split; eexists; [split|]; vm_compute; reflexivity. }
  split; vm_compute; reflexivity.
Qed.

(** C6, the failing input.  The one page of [wide_job] has an image 134217729
    pixels wide at 32 bits per pixel.  The product of the two, 4294967328,
    does not fit [unsigned int] and wraps to 32 (line 649), so the header
    that is written carries 4 bytes per line and the global [bytesPerLine]
    is 4, where the ceiling of [bitsPerPixel * width / 8] is 536870916.
    The page is then written to its end: one scanline of 134217729 pixels
    is converted into, and written from, a line of 4 bytes. *)
Theorem wide_page_bytes_per_line_wraps :
  let page := sample_page [("/MediaBox"%string, letter_box)] [wide_strip] in
  let g := plane_setup (parseOpts wide_job) in
  let h := mkHeader false false 134217729 1 8 32 4 CUPS_ORDER_CHUNKED
             CUPS_CSPACE_CMYK 4 (Some (mkGeometry 1 2 3 4 612 792)) in
  let bits := cupsBitsPerPixel h * cupsWidth h in
  job_pages wide_job = [page] /\
  (outPage g page 0).1
  = [EvLog DebugMediaBox; EvHeader h;
     EvPixels (Some fp_convertLine) 0 0 0 134217729 4] /\
  (exists g', (outPage g page 0).2 = Done g' /\ bytesPerLine g' = 4) /\
  bits = 2 ^ 32 + 32 /\
  cupsBytesPerLine h = 4 /\
  bytes_per_line h = 4 /\
  (bits + 7) / 8 = 536870916 /\
  8 * (536870916 - 1) < bits <= 8 * 536870916 /\
  ~ (8 * (cupsBytesPerLine h - 1) < bits <= 8 * cupsBytesPerLine h) /\
  (main wide_job).2 = Done 0.
Proof.
  cbv zeta.
  split; [reflexivity|]. split; [vm_compute; reflexivity|].
  split; [eexists; split; vm_compute; reflexivity|].
  split; [reflexivity|]. split; [reflexivity|].
  split; [vm_compute; reflexivity|]. split; [reflexivity|].
  split; [cbn; lia|]. split; [cbn; lia|].
  vm_compute; reflexivity.
Qed.
